(** * KeyClick: the configuration/dispatch state machine and its store

    A shallow embedding of the control core of KeyClick
    (state_machine.py, config_manager.py, mapping_manager.py,
    action_executor.py, input_listener.py and the controller of main.py)
    together with the properties its specification states about it.

    Conventions of the embedding:
    - a Python object is a record of its fields, a method a function in
      the state-and-exception monad [M] over that record;
    - a [str] is a [string] whose characters are code points below 256;
      the configuration file is the text read from it, and writing it
      does not fail;
    - a Qt signal is what its emitter hands back: the payloads emitted
      during a call, which the controller then passes to the slot that
      [_wire_signals] connects;
    - of the window, only what the controller sets is kept: the state
      shown, the status line (by template and arguments) and the rows
      of the table. *)

From Stdlib Require Import ZArith List String Ascii Bool Lia.
From Stdlib Require Import DecimalString.
From Stdlib Require Import Sorted Permutation.
From Stdlib Require Decimal DecimalZ DecimalPos DecimalN DecimalFacts.
Import ListNotations.
Local Open Scope string_scope.

(* ===================================================================== *)
(** ** Python values, exceptions and the state-and-exception monad *)
(* ===================================================================== *)

(** The values that live in [ConfigManager._data]: what [json.load]
    produces and what the controller stores.  A [str] is a sequence of
    code points below 256; a [dict] keeps its keys in insertion order. *)
Unset Elimination Schemes.
Inductive value : Type :=
| VNone
| VBool (b : bool)
| VInt (z : Z)
| VStr (s : string)
| VList (l : list value)
| VDict (d : list (string * value)).
Set Elimination Schemes.

Inductive exn : Type :=
| TypeError | KeyError | AttributeError
| JSONDecodeError | OSError
| Win32Error.   (* what a failing win32gui call raises *)

(** The result of running a piece of Python: a normal return, a raised
    exception, or [Unmodelled] where the embedding does not follow the
    interpreter (floating point, code points above 255, ...). *)
Inductive outcome (A : Type) : Type :=
| Ret (a : A)
| Raise (e : exn)
| Unmodelled.
Arguments Ret {A} a.
Arguments Raise {A} e.
Arguments Unmodelled {A}.

(** Mutations made before an exception is raised stay: the state is
    threaded through both outcomes. *)
Definition M (S A : Type) : Type := S -> outcome A * S.

Definition ret {S A} (a : A) : M S A := fun s => (Ret a, s).
Definition bind {S A B} (m : M S A) (k : A -> M S B) : M S B :=
  fun s => match m s with
           | (Ret a, s') => k a s'
           | (Raise e, s') => (Raise e, s')
           | (Unmodelled, s') => (Unmodelled, s')
           end.
Definition gets {S A} (f : S -> A) : M S A := fun s => (Ret (f s), s).
Definition modify {S} (f : S -> S) : M S unit := fun s => (Ret tt, f s).
Definition lift_outcome {S A} (o : outcome A) : M S A := fun s => (o, s).

(** [try: body except (E1, E2): handler] *)
Definition try_except {S A} (body : M S A) (caught : exn -> bool)
           (handler : M S A) : M S A :=
  fun s => match body s with
           | (Raise e, s') => if caught e then handler s' else (Raise e, s')
           | r => r
           end.

(** Running a method of a component inside a larger state. *)
Definition zoom {S T A} (get : T -> S) (set : S -> T -> T) (m : M S A) : M T A :=
  fun t => let (o, s') := m (get t) in (o, set s' t).

Declare Scope py_scope.
Delimit Scope py_scope with py.
Notation "x <- m ;; k" := (bind m (fun x => k))
  (at level 61, m at next level, right associativity) : py_scope.
Notation "m ;; k" := (bind m (fun _ => k))
  (at level 61, right associativity) : py_scope.
Local Open Scope py_scope.

(* ===================================================================== *)
(** ** The operations of Python's data model that the program uses *)
(* ===================================================================== *)

Module Py.

(** *** dict, keyed by str, in insertion order *)

Fixpoint dict_get (d : list (string * value)) (k : string) : option value :=
  match d with
  | [] => None
  | (k', v) :: rest => if String.eqb k' k then Some v else dict_get rest k
  end.

Definition dict_has (d : list (string * value)) (k : string) : bool :=
  match dict_get d k with Some _ => true | None => false end.

(** [d[k] = v]: an existing key keeps its position, a new one goes last. *)
Fixpoint dict_set (d : list (string * value)) (k : string) (v : value)
  : list (string * value) :=
  match d with
  | [] => [(k, v)]
  | (k', v') :: rest =>
      if String.eqb k' k then (k', v) :: rest
      else (k', v') :: dict_set rest k v
  end.

(** [del d[k]] *)
Fixpoint dict_del (d : list (string * value)) (k : string)
  : list (string * value) :=
  match d with
  | [] => []
  | (k', v') :: rest =>
      if String.eqb k' k then rest else (k', v') :: dict_del rest k
  end.

(** [dict(pairs)] on a list of key/value pairs. *)
Definition dict_of_pairs (pairs : list (string * value))
  : list (string * value) :=
  fold_left (fun d kv => dict_set d (fst kv) (snd kv)) pairs [].

(** A Python dict holds each key once.  [well_keyed v] says so of every
    dict inside [v]: it is the invariant of this representation. *)
Fixpoint distinct (ks : list string) : bool :=
  match ks with
  | [] => true
  | k :: rest => negb (existsb (String.eqb k) rest) && distinct rest
  end.

Fixpoint well_keyed (v : value) : bool :=
  match v with
  | VList l => forallb well_keyed l
  | VDict d => distinct (map fst d)
               && forallb (fun kv => well_keyed (snd kv)) d
  | _ => true
  end.

(** *** str *)

(** [needle in hay] for two strings. *)
Fixpoint str_contains (needle hay : string) : bool :=
  if String.prefix needle hay then true
  else match hay with
       | EmptyString => false
       | String _ hay' => str_contains needle hay'
       end.

(** [str.lower()] on one code point below 256: A-Z and the Latin-1
    capitals U+00C0..U+00DE (the multiplication sign U+00D7 apart)
    move up by 32. *)
Definition lower_char (c : ascii) : ascii :=
  let n := N_of_ascii c in
  if ((65 <=? n) && (n <=? 90)
      || (192 <=? n) && (n <=? 222) && negb (n =? 215))%N
  then ascii_of_N (n + 32) else c.

Fixpoint lower (s : string) : string :=
  match s with
  | EmptyString => EmptyString
  | String c s' => String (lower_char c) (lower s')
  end.

(** [str(n)] for an int. *)
Definition str_of_int (z : Z) : string := NilZero.string_of_int (Z.to_int z).

(** *** Operators on arbitrary values, with the exception each raises *)

(** Truth value, as tested by [if v:]. *)
Definition truthy (v : value) : bool :=
  match v with
  | VNone => false
  | VBool b => b
  | VInt z => negb (z =? 0)%Z
  | VStr s => negb (String.eqb s "")
  | VList l => match l with [] => false | _ => true end
  | VDict d => match d with [] => false | _ => true end
  end.

Definition is_str (k : string) (v : value) : bool :=
  match v with VStr s => String.eqb s k | _ => false end.

(** [k in c] for a str [k]. *)
Definition contains (k : string) (c : value) : outcome bool :=
  match c with
  | VDict d => Ret (dict_has d k)
  | VList l => Ret (existsb (is_str k) l)
  | VStr s => Ret (str_contains k s)
  | VNone | VBool _ | VInt _ => Raise TypeError
  end.

(** [c[k]] for a str [k]. *)
Definition getitem (c : value) (k : string) : outcome value :=
  match c with
  | VDict d => match dict_get d k with
               | Some v => Ret v
               | None => Raise KeyError
               end
  | _ => Raise TypeError
  end.

(** [c[k] = v] for a str [k]; the result is the container afterwards. *)
Definition setitem (c : value) (k : string) (v : value) : outcome value :=
  match c with
  | VDict d => Ret (VDict (dict_set d k v))
  | _ => Raise TypeError
  end.

(** [c.get(k, default)] *)
Definition get (c : value) (k : string) (default : value) : outcome value :=
  match c with
  | VDict d => Ret (match dict_get d k with Some v => v | None => default end)
  | _ => Raise AttributeError
  end.

(** [del c[k]] for a str [k]. *)
Definition delitem (c : value) (k : string) : outcome value :=
  match c with
  | VDict d => if dict_has d k then Ret (VDict (dict_del d k))
               else Raise KeyError
  | _ => Raise TypeError
  end.

(** [c.setdefault(k, default)]: the container afterwards and the value
    now stored under [k]. *)
Definition setdefault (c : value) (k : string) (default : value)
  : outcome (value * value) :=
  match c with
  | VDict d => match dict_get d k with
               | Some v => Ret (c, v)
               | None => Ret (VDict (dict_set d k default), default)
               end
  | _ => Raise AttributeError
  end.

(** [dict(c)], the shallow copy; on anything but a dict the embedding
    does not follow the constructor. *)
Definition dict_copy (c : value) : outcome (list (string * value)) :=
  match c with
  | VDict d => Ret d
  | _ => Unmodelled
  end.

(** [s.lower()], an attribute only str has. *)
Definition lower_method (v : value) : outcome string :=
  match v with
  | VStr s => Ret (lower s)
  | _ => Raise AttributeError
  end.

End Py.

(* ===================================================================== *)
(** ** The json module: [json.dump(obj, f, indent=2)] and [json.load(f)] *)
(* ===================================================================== *)

Module Json.

Local Open Scope list_scope.

Definition text : Type := list ascii.

Definition dquote : ascii := "034"%char.
Definition backslash : ascii := "092"%char.
Definition newline : ascii := "010"%char.

(** *** Encoder *)

Definition hex_digit (n : N) : ascii :=
  if (n <? 10)%N then ascii_of_N (48 + n) else ascii_of_N (87 + n).

(** One character of a string under [ensure_ascii]: the short escapes,
    printable ASCII as it is, anything else as [\u00xx]. *)
Definition encode_char (c : ascii) : text :=
  let n := N_of_ascii c in
  if (n =? 34)%N then [backslash; dquote]
  else if (n =? 92)%N then [backslash; backslash]
  else if (n =? 10)%N then [backslash; "n"%char]
  else if (n =? 13)%N then [backslash; "r"%char]
  else if (n =? 9)%N then [backslash; "t"%char]
  else if (n =? 8)%N then [backslash; "b"%char]
  else if (n =? 12)%N then [backslash; "f"%char]
  else if ((32 <=? n) && (n <=? 126))%N then [c]
  else [backslash; "u"%char; "0"%char; "0"%char;
        hex_digit (n / 16); hex_digit (n mod 16)].

Fixpoint encode_chars (s : string) : text :=
  match s with
  | EmptyString => []
  | String c s' => encode_char c ++ encode_chars s'
  end.

Definition encode_str (s : string) : text :=
  dquote :: encode_chars s ++ [dquote].

Definition encode_int (z : Z) : text :=
  list_ascii_of_string (Py.str_of_int z).

(** [sep.join(chunks)] *)
Fixpoint join (sep : text) (chunks : list text) : text :=
  match chunks with
  | [] => []
  | [c] => c
  | c :: rest => c ++ sep ++ join sep rest
  end.

Section Encoder.

(** The [indent] argument: [None] for the compact form, [Some n] for
    pretty-printing with [n] spaces per level. *)
Variable indent : option nat.

(** A line break followed by the indentation of [level]; nothing in the
    compact form. *)
Definition newline_indent (level : nat) : text :=
  match indent with
  | Some n => newline :: repeat " "%char (n * level)
  | None => []
  end.

(** What separates two items at [level]: a comma and a space, or with an
    indent a comma and the line break. *)
Definition after_comma (level : nat) : text :=
  match indent with
  | Some _ => newline_indent level
  | None => [" "%char]
  end.

Definition item_separator (level : nat) : text :=
  ","%char :: after_comma level.

Fixpoint encode (level : nat) (v : value) : text :=
  match v with
  | VNone => list_ascii_of_string "null"
  | VBool true => list_ascii_of_string "true"
  | VBool false => list_ascii_of_string "false"
  | VInt z => encode_int z
  | VStr s => encode_str s
  | VList [] => list_ascii_of_string "[]"
  | VList l =>
      "["%char :: newline_indent (S level)
      ++ join (item_separator (S level)) (map (encode (S level)) l)
      ++ newline_indent level ++ ["]"%char]
  | VDict [] => list_ascii_of_string "{}"
  | VDict d =>
      "{"%char :: newline_indent (S level)
      ++ join (item_separator (S level))
              (map (fun kv => encode_str (fst kv)
                              ++ [":"%char; " "%char]
                              ++ encode (S level) (snd kv)) d)
      ++ newline_indent level ++ ["}"%char]
  end.

(** One member of an object, as [encode] writes it. *)
Definition encode_member (level : nat) (kv : string * value) : text :=
  encode_str (fst kv) ++ [":"%char; " "%char] ++ encode level (snd kv).

End Encoder.

(** [json.dumps(v, indent=indent)] *)
Definition dumps (indent : option nat) (v : value) : string :=
  string_of_list_ascii (encode indent 0 v).

(** *** Decoder *)

Inductive parse (A : Type) : Type :=
| POk (a : A) (rest : text)   (* a value and the text after it *)
| PErr                        (* JSONDecodeError *)
| PUnmodelled                 (* a float, NaN, Infinity or a code point
                                 above 255 *)
| PFuel.                      (* recursion budget exhausted *)
Arguments POk {A} a rest.
Arguments PErr {A}.
Arguments PUnmodelled {A}.
Arguments PFuel {A}.

Definition pmap {A B} (f : A -> B) (p : parse A) : parse B :=
  match p with
  | POk a rest => POk (f a) rest
  | PErr => PErr
  | PUnmodelled => PUnmodelled
  | PFuel => PFuel
  end.

Definition is_ws (c : ascii) : bool :=
  let n := N_of_ascii c in
  ((n =? 32) || (n =? 9) || (n =? 10) || (n =? 13))%N.

Fixpoint skip_ws (s : text) : text :=
  match s with
  | c :: r => if is_ws c then skip_ws r else s
  | [] => []
  end.

Definition is_digit (c : ascii) : bool :=
  let n := N_of_ascii c in ((48 <=? n) && (n <=? 57))%N.

Definition hex_value (c : ascii) : option N :=
  let n := N_of_ascii c in
  if ((48 <=? n) && (n <=? 57))%N then Some (n - 48)%N
  else if ((97 <=? n) && (n <=? 102))%N then Some (n - 87)%N
  else if ((65 <=? n) && (n <=? 70))%N then Some (n - 55)%N
  else None.

Definition hex4 (a b c d : ascii) : option N :=
  match hex_value a, hex_value b, hex_value c, hex_value d with
  | Some x, Some y, Some z, Some w =>
      Some (((x * 16 + y) * 16 + z) * 16 + w)%N
  | _, _, _, _ => None
  end.

(** The character a one-letter escape stands for. *)
Definition unescape (e : ascii) : option ascii :=
  let n := N_of_ascii e in
  if (n =? 34)%N then Some dquote
  else if (n =? 92)%N then Some backslash
  else if (n =? 47)%N then Some "/"%char
  else if (n =? 98)%N then Some "008"%char
  else if (n =? 102)%N then Some "012"%char
  else if (n =? 110)%N then Some "010"%char
  else if (n =? 114)%N then Some "013"%char
  else if (n =? 116)%N then Some "009"%char
  else None.

(** The body of a string literal, from after its opening quote to its
    closing quote (strict mode: a raw control character is an error). *)
Fixpoint scan_string (s : text) : parse string :=
  match s with
  | [] => PErr
  | c :: r =>
      if Ascii.eqb c dquote then POk EmptyString r
      else if Ascii.eqb c backslash then
        match r with
        | [] => PErr
        | e :: r1 =>
            if Ascii.eqb e "u"%char then
              match r1 with
              | h1 :: h2 :: h3 :: h4 :: r2 =>
                  match hex4 h1 h2 h3 h4 with
                  | Some n =>
                      if (n <? 256)%N
                      then pmap (String (ascii_of_N n)) (scan_string r2)
                      else PUnmodelled
                  | None => PErr
                  end
              | _ => PErr
              end
            else
              match unescape e with
              | Some c' => pmap (String c') (scan_string r1)
              | None => PErr
              end
        end
      else if (N_of_ascii c <? 32)%N then PErr
      else pmap (String c) (scan_string r)
  end.

(** The longest run of decimal digits at the head of the text. *)
Fixpoint span_digits (s : text) : text * text :=
  match s with
  | c :: r => if is_digit c
              then let (ds, rest) := span_digits r in (c :: ds, rest)
              else ([], s)
  | [] => ([], [])
  end.

(** [s.startswith(p)] *)
Fixpoint starts_with (p s : text) : bool :=
  match p with
  | [] => true
  | a :: p' =>
      match s with
      | [] => false
      | b :: s' => Ascii.eqb a b && starts_with p' s'
      end
  end.

(** Does a fraction or an exponent follow the integer part? *)
Definition float_follows (rest : text) : bool :=
  match rest with
  | c :: d :: r =>
      if Ascii.eqb c "."%char then is_digit d
      else if Ascii.eqb c "e"%char || Ascii.eqb c "E"%char then
        is_digit d
        || ((Ascii.eqb d "+"%char || Ascii.eqb d "-"%char)
            && match r with d' :: _ => is_digit d' | [] => false end)
      else false
  | _ => false
  end.

(** A number: an optional minus sign, then a single 0 or a digit run
    that starts with 1-9; an int unless a fraction or an exponent
    follows.  After a leading zero a further digit is an
    error wherever the number stands. *)
Definition scan_number (s : text) : parse Z :=
  let '(negative, s1) :=
    match s with
    | c :: r => if Ascii.eqb c "-"%char then (true, r) else (false, s)
    | [] => (false, s)
    end in
  let '(ds, rest) := span_digits s1 in
  match ds with
  | [] =>
      if negative && starts_with (list_ascii_of_string "Infinity") s1
      then PUnmodelled else PErr
  | dh :: ds' =>
      if Ascii.eqb dh "0"%char && negb (match ds' with [] => true | _ => false end)
      then PErr
      else if float_follows rest then PUnmodelled
      else match NilEmpty.uint_of_string (string_of_list_ascii ds) with
           | Some u =>
               POk (if negative then - Z.of_uint u else Z.of_uint u)%Z rest
           | None => PErr
           end
  end.

Fixpoint scan_value (fuel : nat) (s : text) : parse value :=
  match fuel with
  | O => PFuel
  | S fuel' =>
      match s with
      | [] => PErr
      | c :: r =>
          if Ascii.eqb c dquote then pmap VStr (scan_string r)
          else if Ascii.eqb c "{"%char then
            match skip_ws r with
            | c' :: r' =>
                if Ascii.eqb c' "}"%char then POk (VDict []) r'
                else pmap (fun ps => VDict (Py.dict_of_pairs ps))
                          (scan_members fuel' (c' :: r'))
            | [] => PErr
            end
          else if Ascii.eqb c "["%char then
            match skip_ws r with
            | c' :: r' =>
                if Ascii.eqb c' "]"%char then POk (VList []) r'
                else pmap VList (scan_items fuel' (c' :: r'))
            | [] => PErr
            end
          else if starts_with (list_ascii_of_string "null") s
          then POk VNone (skipn 4 s)
          else if starts_with (list_ascii_of_string "true") s
          then POk (VBool true) (skipn 4 s)
          else if starts_with (list_ascii_of_string "false") s
          then POk (VBool false) (skipn 5 s)
          else if is_digit c || Ascii.eqb c "-"%char
          then pmap VInt (scan_number s)
          else if starts_with (list_ascii_of_string "NaN") s
                  || starts_with (list_ascii_of_string "Infinity") s
          then PUnmodelled
          else PErr
      end
  end

(** The elements of a non-empty array, from its first value to [\]]. *)
with scan_items (fuel : nat) (s : text) : parse (list value) :=
  match fuel with
  | O => PFuel
  | S fuel' =>
      match scan_value fuel' s with
      | POk v r =>
          match skip_ws r with
          | c :: r' =>
              if Ascii.eqb c "]"%char then POk [v] r'
              else if Ascii.eqb c ","%char
              then pmap (cons v) (scan_items fuel' (skip_ws r'))
              else PErr
          | [] => PErr
          end
      | PErr => PErr
      | PUnmodelled => PUnmodelled
      | PFuel => PFuel
      end
  end

(** The members of a non-empty object, from its first key to [}]. *)
with scan_members (fuel : nat) (s : text) : parse (list (string * value)) :=
  match fuel with
  | O => PFuel
  | S fuel' =>
      match s with
      | q :: r0 =>
          if Ascii.eqb q dquote then
            match scan_string r0 with
            | POk k r1 =>
                match skip_ws r1 with
                | c1 :: r2 =>
                    if Ascii.eqb c1 ":"%char then
                      match scan_value fuel' (skip_ws r2) with
                      | POk v r3 =>
                          match skip_ws r3 with
                          | c :: r' =>
                              if Ascii.eqb c "}"%char then POk [(k, v)] r'
                              else if Ascii.eqb c ","%char
                              then pmap (cons (k, v))
                                        (scan_members fuel' (skip_ws r'))
                              else PErr
                          | [] => PErr
                          end
                      | PErr => PErr
                      | PUnmodelled => PUnmodelled
                      | PFuel => PFuel
                      end
                    else PErr
                | [] => PErr
                end
            | PErr => PErr
            | PUnmodelled => PUnmodelled
            | PFuel => PFuel
            end
          else PErr
      | [] => PErr
      end
  end.

(** [json.loads(s)]: one value, white space allowed around it, nothing
    else after it. *)
Definition loads (s : string) : outcome value :=
  let t := list_ascii_of_string s in
  match scan_value (2 * List.length t + 2) (skip_ws t) with
  | POk v rest =>
      match skip_ws rest with
      | [] => Ret v
      | _ :: _ => Raise JSONDecodeError
      end
  | PErr => Raise JSONDecodeError
  | PUnmodelled => Unmodelled
  | PFuel => Unmodelled
  end.

(** *** Notions used to state that decoding inverts encoding *)

(** What may follow a value in a document. *)
Definition delimited (rest : text) : bool :=
  match rest with
  | [] => true
  | c :: _ => is_ws c || Ascii.eqb c ","%char
              || Ascii.eqb c "]"%char || Ascii.eqb c "}"%char
  end.

(** The recursion budget a value needs. *)
Fixpoint size (v : value) : nat :=
  match v with
  | VList l => S (fold_right (fun x n => S (size x + n)) 0 l)
  | VDict d => S (fold_right (fun kv n => S (size (snd kv) + n)) 0 d)
  | _ => 1
  end.

Definition size_items (l : list value) : nat :=
  fold_right (fun x n => S (size x + n)) 0 l.
Definition size_members (d : list (string * value)) : nat :=
  fold_right (fun kv n => S (size (snd kv) + n)) 0 d.

(** Decoding what was written for [v] gives [v] back and stops there. *)
Definition decodes (indent : option nat) (v : value) : Prop :=
  Py.well_keyed v = true ->
  forall level fuel rest,
    size v <= fuel -> delimited rest = true ->
    scan_value fuel (encode indent level v ++ rest) = POk v rest.

(** A successful scan consumed something; no scan ends for lack of
    budget. *)
Definition progresses {A} (s : text) (p : parse A) : Prop :=
  match p with
  | POk _ r => List.length r < List.length s
  | PFuel => False
  | _ => True
  end.

End Json.

(* ===================================================================== *)
(** ** state_machine.py *)
(* ===================================================================== *)

Inductive AppState : Type :=
| NORMAL | CONFIG_WAIT_KEY | CONFIG_WAIT_CLICK | DISABLED.

Definition AppState_eqb (a b : AppState) : bool :=
  match a, b with
  | NORMAL, NORMAL | CONFIG_WAIT_KEY, CONFIG_WAIT_KEY
  | CONFIG_WAIT_CLICK, CONFIG_WAIT_CLICK | DISABLED, DISABLED => true
  | _, _ => false
  end.

(** Allowed transitions: state -> set of valid next states. *)
Definition VALID_TRANSITIONS : list (AppState * list AppState) :=
  [ (NORMAL, [CONFIG_WAIT_KEY; DISABLED]);
    (CONFIG_WAIT_KEY, [CONFIG_WAIT_CLICK; NORMAL]);
    (CONFIG_WAIT_CLICK, [NORMAL]);
    (DISABLED, [NORMAL]) ].

Module StateMachine.

Record t : Type := Build { _state : AppState }.

(** [dict.get(key, default)] on the transition table. *)
Fixpoint table_get (tbl : list (AppState * list AppState)) (k : AppState)
         (default : list AppState) : list AppState :=
  match tbl with
  | [] => default
  | (k', v) :: rest => if AppState_eqb k' k then v else table_get rest k default
  end.

Definition state_in (s : AppState) (set : list AppState) : bool :=
  existsb (AppState_eqb s) set.

(** [transition] returns its boolean together with the payloads it
    emitted on [state_changed]; it has no [raise]. *)
Definition transition (new_state : AppState) (self : t)
  : bool * t * list AppState :=
  if AppState_eqb new_state (_state self) then (true, self, [])
  else
    let allowed := table_get VALID_TRANSITIONS (_state self) [] in
    if negb (state_in new_state allowed) then (false, self, [])
    else
      let self' := Build new_state in
      (true, self', [_state self']).

Definition is_normal (self : t) : bool := AppState_eqb (_state self) NORMAL.
Definition is_config (self : t) : bool :=
  state_in (_state self) [CONFIG_WAIT_KEY; CONFIG_WAIT_CLICK].
Definition is_disabled (self : t) : bool := AppState_eqb (_state self) DISABLED.

End StateMachine.

(* ===================================================================== *)
(** ** config_manager.py *)
(* ===================================================================== *)

(** What is at the configuration path: nothing, something that cannot be
    opened for reading, or a text file with its decoded content. *)
Inductive file : Type :=
| Missing
| Unreadable
| Text (content : string).

(** Default configuration template *)
Definition DEFAULT_CONFIG : value :=
  VDict [ ("mappings", VDict []);
          ("settings",
           VDict [ ("restore_mouse_position", VBool true);
                   ("require_foreground_window", VBool false);
                   ("target_window_title", VStr "Valeton") ]) ].

Module ConfigManager.

(** The object and the file its [_path] names.  Writing the file never
    fails in this model. *)
Record t : Type := Build { _data : value; _path : file }.

Definition set_data (v : value) (self : t) : t := Build v (_path self).
Definition set_path (f : file) (self : t) : t := Build (_data self) f.

(** [self._path.exists()] *)
Definition path_exists (self : t) : bool :=
  match _path self with Missing => false | _ => true end.

(** [with open(self._path, "r") as f: json.load(f)] *)
Definition read_json : M t value :=
  fun self =>
    match _path self with
    | Missing | Unreadable => (Raise OSError, self)
    | Text content => (Json.loads content, self)
    end.

(** Write current config to disk. *)
Definition save : M t unit :=
  fun self => (Ret tt, set_path (Text (Json.dumps (Some 2%nat) (_data self))) self).

Definition caught_on_load (e : exn) : bool :=
  match e with JSONDecodeError | OSError => true | _ => false end.

(** [self._data[k] = v] *)
Definition data_setitem (k : string) (v : value) : M t unit :=
  fun self =>
    match Py.setitem (_data self) k v with
    | Ret d' => (Ret tt, set_data d' self)
    | Raise e => (Raise e, self)
    | Unmodelled => (Unmodelled, self)
    end.

Definition create_default : M t unit :=
  d <- lift_outcome (Json.loads (Json.dumps None DEFAULT_CONFIG)) ;;
  modify (set_data d) ;;
  save.

(** Load config from disk, or create default if missing/corrupt.
    The body of the [try] answers [true] when it reached its [return]. *)
Definition load : M t unit :=
  fun self =>
    (if path_exists self then
       returned <-
         try_except
           (d <- read_json ;;
            modify (set_data d) ;;
            has_m <- (fun s => (Py.contains "mappings" (_data s), s)) ;;
            (if negb has_m then data_setitem "mappings" (VDict []) else ret tt) ;;
            has_s <- (fun s => (Py.contains "settings" (_data s), s)) ;;
            (if negb has_s
             then dflt <- lift_outcome (Py.getitem DEFAULT_CONFIG "settings") ;;
                  copy <- lift_outcome (Py.dict_copy dflt) ;;
                  data_setitem "settings" (VDict copy)
             else ret tt) ;;
            ret true)
           caught_on_load
           (ret false) ;;
       if returned : bool then ret tt else create_default
     else create_default) self.

(** [ConfigManager(config_path)] on a path where [f] is found. *)
Definition init (f : file) : outcome unit * t :=
  load (Build (VDict []) f).

(** Return all key->{x, y} mappings. *)
Definition get_mappings : M t (list (string * value)) :=
  fun self =>
    match Py.get (_data self) "mappings" (VDict []) with
    | Ret m => (Py.dict_copy m, self)
    | Raise e => (Raise e, self)
    | Unmodelled => (Unmodelled, self)
    end.

(** Add or update a mapping and persist. *)
Definition set_mapping (key : string) (x y : Z) : M t unit :=
  (fun self =>
     match Py.getitem (_data self) "mappings" with
     | Ret m =>
         match Py.setitem m key (VDict [("x", VInt x); ("y", VInt y)]) with
         | Ret m' =>
             (* the dict stored under "mappings" was changed in place *)
             match Py.setitem (_data self) "mappings" m' with
             | Ret d' => (Ret tt, set_data d' self)
             | Raise e => (Raise e, self)
             | Unmodelled => (Unmodelled, self)
             end
         | Raise e => (Raise e, self)
         | Unmodelled => (Unmodelled, self)
         end
     | Raise e => (Raise e, self)
     | Unmodelled => (Unmodelled, self)
     end) ;;
  save.

(** Remove a mapping by key name. Returns True if it existed. *)
Definition remove_mapping (key : string) : M t bool :=
  m <- (fun self => (Py.getitem (_data self) "mappings", self)) ;;
  present <- lift_outcome (Py.contains key m) ;;
  if present : bool then
    m1 <- (fun self => (Py.getitem (_data self) "mappings", self)) ;;
    m' <- lift_outcome (Py.delitem m1 key) ;;
    data_setitem "mappings" m' ;;
    save ;;
    ret true
  else ret false.

(** Return (x, y) for a key, or None. *)
Definition get_mapping (key : string) : M t (option (value * value)) :=
  c <- (fun self => (Py.getitem (_data self) "mappings", self)) ;;
  m <- lift_outcome (Py.get c key VNone) ;;
  if Py.truthy m then
    x <- lift_outcome (Py.getitem m "x") ;;
    y <- lift_outcome (Py.getitem m "y") ;;
    ret (Some (x, y))
  else ret None.

(** Return a copy of the settings dict. *)
Definition get_settings : M t (list (string * value)) :=
  fun self =>
    match Py.get (_data self) "settings" (VDict []) with
    | Ret m => (Py.dict_copy m, self)
    | Raise e => (Raise e, self)
    | Unmodelled => (Unmodelled, self)
    end.

(** Return a single setting value. *)
Definition get_setting (key : string) (default : value) : M t value :=
  s <- (fun self => (Py.get (_data self) "settings" (VDict []), self)) ;;
  lift_outcome (Py.get s key default).

(** Update a single setting and persist. *)
Definition update_setting (key : string) (v : value) : M t unit :=
  cs <- (fun self => (Py.setdefault (_data self) "settings" (VDict []), self)) ;;
  s' <- lift_outcome (Py.setitem (snd cs) key v) ;;
  (fun self =>
     match Py.setitem (fst cs) "settings" s' with
     | Ret d' => (Ret tt, set_data d' self)
     | Raise e => (Raise e, self)
     | Unmodelled => (Unmodelled, self)
     end) ;;
  save.

End ConfigManager.

(* ===================================================================== *)
(** ** mapping_manager.py *)
(* ===================================================================== *)

(** The manager holds a reference to the controller's own ConfigManager,
    so its methods act on that object.  Each returns, next to its result,
    how many times it emitted [mappings_changed]. *)
Module MappingManager.

(** Add or overwrite a mapping and notify listeners. *)
Definition add_mapping (key : string) (x y : Z) : M ConfigManager.t nat :=
  ConfigManager.set_mapping key x y ;;
  ret 1%nat.

(** Remove a mapping by key. Returns True if it existed. *)
Definition remove_mapping (key : string) : M ConfigManager.t (bool * nat) :=
  removed <- ConfigManager.remove_mapping key ;;
  if removed : bool then ret (removed, 1%nat) else ret (removed, 0%nat).

Definition get_all_mappings : M ConfigManager.t (list (string * value)) :=
  ConfigManager.get_mappings.

Definition get_mapping (key : string)
  : M ConfigManager.t (option (value * value)) :=
  ConfigManager.get_mapping key.

End MappingManager.

(* ===================================================================== *)
(** ** action_executor.py *)
(* ===================================================================== *)

Module action_executor.

(** The desktop the executor acts on: the pointer ([_mouse.position]),
    the left clicks issued so far with the place each landed on, whether
    [win32gui] could be imported, and the title [GetWindowText] gives for
    the foreground window ([None] when the lookup raises). *)
Record Desktop : Type := BuildDesktop {
  position : value * value;
  clicks : list (value * value);
  _HAS_WIN32 : bool;
  foreground_title : option string
}.

Definition set_position (p : value * value) (d : Desktop) : Desktop :=
  BuildDesktop p (clicks d) (_HAS_WIN32 d) (foreground_title d).

(** [_mouse.click(Button.left)] *)
Definition click_left (d : Desktop) : Desktop :=
  BuildDesktop (position d) (clicks d ++ [position d])%list
               (_HAS_WIN32 d) (foreground_title d).

(** Move the cursor to (x, y), perform a left click, and optionally
    restore the cursor to its original position. *)
Definition execute_click (x y : value) (restore_position : value)
  : M Desktop unit :=
  original <- gets position ;;
  modify (set_position (x, y)) ;;
  modify click_left ;;
  if Py.truthy restore_position
  then modify (set_position original)
  else ret tt.

(** [win32gui.GetWindowText(win32gui.GetForegroundWindow())] *)
Definition get_foreground_text : M Desktop string :=
  fun d => match foreground_title d with
           | Some t => (Ret t, d)
           | None => (Raise Win32Error, d)
           end.

(** Check whether the foreground window's title contains [window_title]
    (case-insensitive substring match); True when win32gui is
    unavailable and on any error. *)
Definition is_target_window_foreground (window_title : value)
  : M Desktop bool :=
  has <- gets _HAS_WIN32 ;;
  if negb has then ret true
  else
    try_except
      (fg_title <- get_foreground_text ;;
       needle <- lift_outcome (Py.lower_method window_title) ;;
       ret (Py.str_contains needle (Py.lower fg_title)))
      (fun _ => true)
      (ret true).

End action_executor.

(* ===================================================================== *)
(** ** input_listener.py *)
(* ===================================================================== *)

(** A key object as pynput hands it over: a named key, or a key code with
    its optional character and virtual-key number.  [shown] is what
    [str(key)] gives for it. *)
Inductive pynput_key : Type :=
| Key (name : string)
| KeyCode (char : option string) (vk : option Z) (shown : string)
| UnknownKey (shown : string).

Inductive Button : Type := left | middle | right | other_button (n : nat).

Definition Button_eqb (a b : Button) : bool :=
  match a, b with
  | left, left | middle, middle | right, right => true
  | other_button n, other_button m => Nat.eqb n m
  | _, _ => false
  end.

(** Convert a pynput key object to a consistent lowercase string. *)
Definition normalise_key (key : pynput_key) : string :=
  match key with
  | Key name => Py.lower name
  | KeyCode (Some char) _ _ => Py.lower char
  | KeyCode None (Some vk) _ => "vk_" ++ Py.str_of_int vk
  | KeyCode None None shown => Py.lower shown
  | UnknownKey shown => Py.lower shown
  end.

Module KeyboardListener.

(** [_listener] is [Some] of a listener thread once one was started. *)
Record t : Type := Build { _listener : option unit; _running : bool }.

Definition start (self : t) : t :=
  if _running self then self else Build (Some tt) true.

Definition stop (self : t) : t := Build None false.

(** Callback invoked by pynput; the result is what it emitted on
    [key_pressed]. *)
Definition _on_press (key : pynput_key) (self : t) : list string :=
  if negb (_running self) then []
  else [normalise_key key].

End KeyboardListener.

Module MouseClickCapture.

(** [_listener] holds the pynput listener, with whether its thread is
    still delivering events. *)
Record t : Type := Build { _listener : option bool; _active : bool }.

(** Start listening for one mouse click. *)
Definition start (self : t) : t :=
  if _active self then self else Build (Some true) true.

(** Cancel capture if still running. *)
Definition stop (self : t) : t := Build None false.

(** Called by pynput on any mouse button event.  The result is the
    returned value ([Some false] for [False], [None] for no return
    value), the object afterwards and what was emitted on
    [mouse_clicked]. *)
Definition _on_click (x y : Z) (button : Button) (pressed : bool) (self : t)
  : option bool * t * list (Z * Z) :=
  if negb (_active self) then (Some false, self, [])
  else if Button_eqb button left && pressed
       then (Some false, Build (_listener self) false, [(x, y)])
       else (None, self, []).

(** pynput's side of the contract: a running listener calls the
    callback for each button event and stops once it answers [False]. *)
Definition deliver (x y : Z) (button : Button) (pressed : bool) (self : t)
  : t * list (Z * Z) :=
  match _listener self with
  | Some true =>
      let '(r, self', emitted) := _on_click x y button pressed self in
      match r with
      | Some false => (Build (Some false) (_active self'), emitted)
      | _ => (self', emitted)
      end
  | _ => (self, [])
  end.

End MouseClickCapture.

(* ===================================================================== *)
(** ** ui.py, as far as the controller drives it *)
(* ===================================================================== *)

(** The texts the controller puts on the status line, by template and
    arguments. *)
Inductive status_text : Type :=
| StatusInitial                                    (* "Ready" *)
| StatusReady
| StatusKeyCaptured (key_name : string)
| StatusExecuted (x y : value) (key_name : string)
| StatusMappingSaved (key : string) (x y : Z)
| StatusEnableFirst
| StatusPressKey
| StatusSelectFirst
| StatusRemoved (key : string)
| StatusNotFound (key : string)
| StatusEnabled
| StatusDisabled
| StatusSettingUpdated (key : string) (v : value).

Module MainWindow.

Record t : Type := Build {
  _mode_badge : AppState;          (* the state the badge and buttons show *)
  _status : status_text;
  _table : list (string * option value * option value);
                                   (* rows: key, x, y; a cell shows
                                      [str] of the value it holds *)
  selected : option string         (* key of the selected row *)
}.

Definition update_state (state : AppState) (self : t) : t :=
  Build state (_status self) (_table self) (selected self).

Definition set_status (text : status_text) (self : t) : t :=
  Build (_mode_badge self) text (_table self) (selected self).

(** [sorted(mappings.items())]: by key, the keys of a dict being
    distinct. *)
Fixpoint insert_sorted (kv : string * value) (l : list (string * value))
  : list (string * value) :=
  match l with
  | [] => [kv]
  | kv' :: rest =>
      if String.leb (fst kv) (fst kv') then kv :: l
      else kv' :: insert_sorted kv rest
  end.

Definition sorted_items (mappings : list (string * value))
  : list (string * value) :=
  fold_right insert_sorted [] mappings.

Definition with_table (f : list (string * option value * option value)
                            -> list (string * option value * option value))
           (self : t) : t :=
  Build (_mode_badge self) (_status self) (f (_table self)) (selected self).

(** The last row with its X cell, then its Y cell, filled in. *)
Definition set_x (x : value) (rows : list (string * option value * option value))
  : list (string * option value * option value) :=
  match rev rows with
  | (k, _, y) :: before => rev ((k, Some x, y) :: before)
  | [] => []
  end.

Definition set_y (y : value) (rows : list (string * option value * option value))
  : list (string * option value * option value) :=
  match rev rows with
  | (k, x, _) :: before => rev ((k, x, Some y) :: before)
  | [] => []
  end.

(** The loop of [refresh_mappings]: a new row with its key, then the
    two coordinate cells. *)
Fixpoint fill (items : list (string * value)) : M t unit :=
  match items with
  | [] => ret tt
  | (key, coords) :: rest =>
      modify (with_table (fun rows => rows ++ [(key, None, None)])%list) ;;
      x <- lift_outcome (Py.getitem coords "x") ;;
      modify (with_table (set_x x)) ;;
      y <- lift_outcome (Py.getitem coords "y") ;;
      modify (with_table (set_y y)) ;;
      fill rest
  end.

(** Rebuild the mapping table from scratch. *)
Definition refresh_mappings (mappings : list (string * value)) : M t unit :=
  modify (fun self => Build (_mode_badge self) (_status self) [] None) ;;
  fill (sorted_items mappings).

Definition selected_key (self : t) : option string := selected self.

End MainWindow.

(* ===================================================================== *)
(** ** main.py: the controller *)
(* ===================================================================== *)

Fixpoint for_each {S A} (l : list A) (f : A -> M S unit) : M S unit :=
  match l with
  | [] => ret tt
  | a :: rest => f a ;; for_each rest f
  end.

Module AppController.

(** The controller's fields, and the desktop its executor acts on.
    [mapping_manager] has no field of its own: it refers to the very
    object in [config]. *)
Record t : Type := Build {
  config : ConfigManager.t;
  state_machine : StateMachine.t;
  keyboard_listener : KeyboardListener.t;
  mouse_capture : MouseClickCapture.t;
  window : MainWindow.t;
  _pending_key : option string;
  desktop : action_executor.Desktop
}.

Definition set_config (c : ConfigManager.t) (s : t) : t :=
  Build c (state_machine s) (keyboard_listener s) (mouse_capture s)
        (window s) (_pending_key s) (desktop s).
Definition set_state_machine (m : StateMachine.t) (s : t) : t :=
  Build (config s) m (keyboard_listener s) (mouse_capture s)
        (window s) (_pending_key s) (desktop s).
Definition set_keyboard_listener (k : KeyboardListener.t) (s : t) : t :=
  Build (config s) (state_machine s) k (mouse_capture s)
        (window s) (_pending_key s) (desktop s).
Definition set_mouse_capture (m : MouseClickCapture.t) (s : t) : t :=
  Build (config s) (state_machine s) (keyboard_listener s) m
        (window s) (_pending_key s) (desktop s).
Definition set_window (w : MainWindow.t) (s : t) : t :=
  Build (config s) (state_machine s) (keyboard_listener s) (mouse_capture s)
        w (_pending_key s) (desktop s).
Definition set_pending_key (k : option string) (s : t) : t :=
  Build (config s) (state_machine s) (keyboard_listener s) (mouse_capture s)
        (window s) k (desktop s).
Definition set_desktop (d : action_executor.Desktop) (s : t) : t :=
  Build (config s) (state_machine s) (keyboard_listener s) (mouse_capture s)
        (window s) (_pending_key s) d.

Definition on_config {A} : M ConfigManager.t A -> M t A := zoom config set_config.
Definition on_window {A} : M MainWindow.t A -> M t A := zoom window set_window.
Definition on_desktop {A} : M action_executor.Desktop A -> M t A :=
  zoom desktop set_desktop.

Definition state : M t AppState :=
  gets (fun s => StateMachine._state (state_machine s)).

Definition set_status (text : status_text) : M t unit :=
  on_window (modify (MainWindow.set_status text)).

(** *** Slots of the signals wired in [_wire_signals] *)

Definition _on_state_changed (new_state : AppState) : M t unit :=
  on_window (modify (MainWindow.update_state new_state)).

Definition _refresh_table : M t unit :=
  mappings <- on_config MappingManager.get_all_mappings ;;
  on_window (MainWindow.refresh_mappings mappings).

(** [self.state_machine.transition(new_state)], [state_changed] being
    connected to [_on_state_changed]. *)
Definition transition (new_state : AppState) : M t bool :=
  fun s =>
    let '(ok, sm, emitted) :=
      StateMachine.transition new_state (state_machine s) in
    (for_each emitted _on_state_changed ;; ret ok) (set_state_machine sm s).

(** [self.mapping_manager.add_mapping(key, x, y)], [mappings_changed]
    being connected to [_refresh_table]. *)
Definition add_mapping (key : string) (x y : Z) : M t unit :=
  n <- on_config (MappingManager.add_mapping key x y) ;;
  for_each (repeat tt n) (fun _ => _refresh_table).

Definition remove_mapping (key : string) : M t bool :=
  r <- on_config (MappingManager.remove_mapping key) ;;
  for_each (repeat tt (snd r)) (fun _ => _refresh_table) ;;
  ret (fst r).

Definition get_setting (key : string) (default : value) : M t value :=
  on_config (ConfigManager.get_setting key default).

(** *** Key press handling (NORMAL mode + CONFIG flow) *)

Definition _on_key_pressed (key_name : string) : M t unit :=
  st <- state ;;
  if AppState_eqb st CONFIG_WAIT_KEY then
    (* Config Step 1: capture the key *)
    modify (set_pending_key (Some key_name)) ;;
    transition CONFIG_WAIT_CLICK ;;
    set_status (StatusKeyCaptured key_name) ;;
    (* Start one-shot mouse capture *)
    modify (fun s => set_mouse_capture
                       (MouseClickCapture.start (mouse_capture s)) s)
  else if AppState_eqb st NORMAL then
    (* Normal mode: execute mapped click *)
    mapping <- on_config (MappingManager.get_mapping key_name) ;;
    match mapping with
    | None => ret tt  (* unmapped key: ignore *)
    | Some (x, y) =>
        (* Foreground check *)
        required <- get_setting "require_foreground_window" (VBool false) ;;
        in_focus <-
          (if Py.truthy required then
             title <- get_setting "target_window_title" (VStr "Valeton") ;;
             on_desktop (action_executor.is_target_window_foreground title)
           else ret true) ;;
        if negb in_focus then ret tt  (* target window not in focus *)
        else
          restore <- get_setting "restore_mouse_position" (VBool true) ;;
          on_desktop (action_executor.execute_click x y restore) ;;
          set_status (StatusExecuted x y key_name)
    end
  else ret tt.

(** *** Mouse click capture (CONFIG flow step 2) *)

Definition _on_mouse_clicked (x y : Z) : M t unit :=
  st <- state ;;
  if negb (AppState_eqb st CONFIG_WAIT_CLICK) then ret tt
  else
    key <- gets _pending_key ;;
    modify (set_pending_key None) ;;
    match key with
    | Some k =>
        add_mapping k x y ;;
        set_status (StatusMappingSaved k x y)
    | None => ret tt
    end ;;
    transition NORMAL ;;
    ret tt.

(** *** UI button handlers *)

(** Start configuration flow (enter CONFIG_WAIT_KEY). *)
Definition _on_add_key : M t unit :=
  st <- state ;;
  if AppState_eqb st DISABLED then set_status StatusEnableFirst
  else
    ok <- transition CONFIG_WAIT_KEY ;;
    if ok : bool then set_status StatusPressKey else ret tt.

(** Remove the currently selected mapping from the table. *)
Definition _on_remove_key : M t unit :=
  key <- gets (fun s => MainWindow.selected_key (window s)) ;;
  match key with
  | None => set_status StatusSelectFirst
  | Some k =>
      removed <- remove_mapping k ;;
      if removed : bool then set_status (StatusRemoved k)
      else set_status (StatusNotFound k)
  end.

(** Toggle between NORMAL and DISABLED. *)
Definition _on_toggle_system : M t unit :=
  disabled <- gets (fun s => StateMachine.is_disabled (state_machine s)) ;;
  if disabled : bool then
    transition NORMAL ;;
    set_status StatusEnabled
  else
    normal <- gets (fun s => StateMachine.is_normal (state_machine s)) ;;
    if normal : bool then
      transition DISABLED ;;
      set_status StatusDisabled
    else ret tt.

(** Persist a settings toggle from the UI. *)
Definition _on_setting_changed (key : string) (v : value) : M t unit :=
  on_config (ConfigManager.update_setting key v) ;;
  set_status (StatusSettingUpdated key v).

(** *** The input listeners, as wired to their slots *)

(** A key goes down: [KeyboardListener._on_press], then the slot of
    [key_pressed] for what it emitted. *)
Definition key_event (key : pynput_key) : M t unit :=
  names <- gets (fun s => KeyboardListener._on_press key (keyboard_listener s)) ;;
  for_each names _on_key_pressed.

(** A mouse button event: [MouseClickCapture._on_click] through the
    pynput listener, then the slot of [mouse_clicked]. *)
Definition click_event (x y : Z) (button : Button) (pressed : bool)
  : M t unit :=
  fun s =>
    let '(mc, emitted) :=
      MouseClickCapture.deliver x y button pressed (mouse_capture s) in
    for_each emitted (fun xy => _on_mouse_clicked (fst xy) (snd xy))
             (set_mouse_capture mc s).

End AppController.

(* ===================================================================== *)
(** ** The typed data model: what the type hints and the default
       configuration say a well-formed store holds *)
(* ===================================================================== *)

(** [Dict[str, Dict[str, int]]]: key name to its coordinates. *)
Definition binding_set : Type := list (string * (Z * Z)).

Definition coords_value (xy : Z * Z) : value :=
  VDict [("x", VInt (fst xy)); ("y", VInt (snd xy))].

Definition mappings_value (m : binding_set) : list (string * value) :=
  map (fun kv => (fst kv, coords_value (snd kv))) m.

Fixpoint binding_of (m : binding_set) (key : string) : option (Z * Z) :=
  match m with
  | [] => None
  | (k, xy) :: rest => if String.eqb k key then Some xy else binding_of rest key
  end.

Record settings_record : Type := BuildSettings {
  restore_mouse_position : bool;
  require_foreground_window : bool;
  target_window_title : string
}.

Definition settings_value (s : settings_record) : list (string * value) :=
  [ ("restore_mouse_position", VBool (restore_mouse_position s));
    ("require_foreground_window", VBool (require_foreground_window s));
    ("target_window_title", VStr (target_window_title s)) ].

Definition config_value (m : binding_set) (s : settings_record) : value :=
  VDict [ ("mappings", VDict (mappings_value m));
          ("settings", VDict (settings_value s)) ].

(** The dict stored under a top-level key of [_data], when there is one. *)
Definition section_of (name : string) (c : ConfigManager.t)
  : option (list (string * value)) :=
  match ConfigManager._data c with
  | VDict d => match Py.dict_get d name with
               | Some (VDict m) => Some m
               | _ => None
               end
  | _ => None
  end.

(** Every entry of a mappings dict has an [x] and a [y]: what the table
    refresh reads. *)
Definition has_coords (v : value) : bool :=
  match v with
  | VDict c => Py.dict_has c "x" && Py.dict_has c "y"
  | _ => false
  end.

Definition entries_have_coords (m : list (string * value)) : bool :=
  forallb (fun kv => has_coords (snd kv)) m.

(* ===================================================================== *)
(** ** Notions used to state the properties *)
(* ===================================================================== *)

Import AppController.

(** The allowed-transition set of a state, read off the table. *)
Definition allowed (s : AppState) : list AppState :=
  StateMachine.table_get VALID_TRANSITIONS s [].

(** What a key press in NORMAL may change: the status line, the pointer
    and the list of clicks. *)
Definition dispatch_frame (w w' : AppController.t) : Prop :=
  state_machine w' = state_machine w
  /\ _pending_key w' = _pending_key w
  /\ config w' = config w
  /\ keyboard_listener w' = keyboard_listener w
  /\ mouse_capture w' = mouse_capture w
  /\ MainWindow._mode_badge (window w') = MainWindow._mode_badge (window w)
  /\ MainWindow._table (window w') = MainWindow._table (window w)
  /\ action_executor._HAS_WIN32 (desktop w') = action_executor._HAS_WIN32 (desktop w)
  /\ action_executor.foreground_title (desktop w')
     = action_executor.foreground_title (desktop w).

(** What the foreground check answers for a str title on a desktop. *)
Definition focus_verdict (title : string) (d : action_executor.Desktop) : bool :=
  match action_executor._HAS_WIN32 d, action_executor.foreground_title d with
  | true, Some fg => Py.str_contains (Py.lower title) (Py.lower fg)
  | _, _ => true
  end.

(** The title the controller asks about: the stored one, or the default
    of the [get_setting] call. *)
Definition configured_title (s : list (string * value)) : value :=
  match Py.dict_get s "target_window_title" with
  | Some v => v
  | None => VStr "Valeton"
  end.

(** The table row shown for one item of the mappings. *)
Definition row_of (kv : string * value) : string * option value * option value :=
  (fst kv,
   match Py.getitem (snd kv) "x" with Ret v => Some v | _ => None end,
   match Py.getitem (snd kv) "y" with Ret v => Some v | _ => None end).

(** The configuration after [set_mapping]. *)
Definition with_binding (d m : list (string * value)) (key : string) (x y : Z)
  : value :=
  VDict (Py.dict_set d "mappings"
                     (VDict (Py.dict_set m key (coords_value (x, y))))).


(** One button event of the mouse: where, which button, pressed or
    released. *)
Definition button_event : Type := (Z * Z * Button * bool)%type.

Definition is_left_press (ev : button_event) : bool :=
  let '(_, _, button, pressed) := ev in Button_eqb button left && pressed.

Definition event_position (ev : button_event) : Z * Z :=
  let '(x, y, _, _) := ev in (x, y).

(** The callback applied to each event in turn, whatever it answers;
    with the signals emitted along the way. *)
Fixpoint call_on_click (evs : list button_event) (self : MouseClickCapture.t)
  : MouseClickCapture.t * list (Z * Z) :=
  match evs with
  | [] => (self, [])
  | (x, y, button, pressed) :: rest =>
      let '(_, self1, emitted) :=
        MouseClickCapture._on_click x y button pressed self in
      let (self2, later) := call_on_click rest self1 in
      (self2, emitted ++ later)%list
  end.

(** The same events handed over by the pynput listener. *)
Fixpoint deliver_all (evs : list button_event) (self : MouseClickCapture.t)
  : MouseClickCapture.t * list (Z * Z) :=
  match evs with
  | [] => (self, [])
  | (x, y, button, pressed) :: rest =>
      let (self1, emitted) :=
        MouseClickCapture.deliver x y button pressed self in
      let (self2, later) := deliver_all rest self1 in
      (self2, emitted ++ later)%list
  end.

(** The position of the first left-button press among the events. *)
Definition first_left_press (evs : list button_event) : list (Z * Z) :=
  match find is_left_press evs with
  | Some ev => [event_position ev]
  | None => []
  end.

(** What reaches the controller: raw input seen by the two listeners and
    the intents of the window. *)
Inductive event : Type :=
| KeyDown (key : pynput_key)
| ButtonEvent (x y : Z) (button : Button) (pressed : bool)
| AddKeyRequested
| RemoveKeyRequested
| ToggleSystemRequested
| SettingChanged (key : string) (v : value)
| RowSelected (key : option string).

Definition handle (e : event) : M AppController.t unit :=
  match e with
  | KeyDown key => key_event key
  | ButtonEvent x y button pressed => click_event x y button pressed
  | AddKeyRequested => _on_add_key
  | RemoveKeyRequested => _on_remove_key
  | ToggleSystemRequested => _on_toggle_system
  | SettingChanged key v => _on_setting_changed key v
  | RowSelected key =>
      on_window (modify (fun win =>
        MainWindow.Build (MainWindow._mode_badge win) (MainWindow._status win)
                         (MainWindow._table win) key))
  end.

(** The controllers reached from [w0] by events whose handlers return
    normally. *)
Inductive reachable (w0 : AppController.t) : AppController.t -> Prop :=
| reachable_start : reachable w0 w0
| reachable_step w e w' :
    reachable w0 w -> handle e w = (Ret tt, w') -> reachable w0 w'.

(** What ties the configuration flow together: the badge shows the
    state, the capture is active exactly in CONFIG_WAIT_CLICK, an active
    capture has a running listener, and in CONFIG_WAIT_CLICK a key is
    pending. *)
Definition flow_invariant (w : AppController.t) : Prop :=
  MainWindow._mode_badge (window w) = StateMachine._state (state_machine w)
  /\ (MouseClickCapture._active (mouse_capture w)
      = AppState_eqb (StateMachine._state (state_machine w)) CONFIG_WAIT_CLICK)
  /\ (MouseClickCapture._active (mouse_capture w) = true ->
      MouseClickCapture._listener (mouse_capture w) = Some true)
  /\ (StateMachine._state (state_machine w) = CONFIG_WAIT_CLICK ->
      _pending_key w <> None).

(** [keeps R m]: running [m] takes every state to one related to it by
    [R], whatever [m] answers. *)
Definition keeps {S A} (R : S -> S -> Prop) (m : M S A) : Prop :=
  forall s, R s (snd (m s)).

(** The parts of the controller the flow invariant reads. *)
Definition same_flow (w w' : AppController.t) : Prop :=
  state_machine w' = state_machine w
  /\ mouse_capture w' = mouse_capture w
  /\ _pending_key w' = _pending_key w
  /\ MainWindow._mode_badge (window w') = MainWindow._mode_badge (window w).

Definition keeps_flow {A} (m : M AppController.t A) : Prop :=
  keeps same_flow m.

(** The store as the typed data model has it: [_data] is a dict whose
    "mappings" is a dict of entries with coordinates. *)
Definition store_ok (c : ConfigManager.t) : bool :=
  match section_of "mappings" c with
  | Some m => entries_have_coords m
  | None => false
  end.

Definition store_kept (c c' : ConfigManager.t) : Prop :=
  store_ok c = true -> store_ok c' = true.

Definition same_store (w w' : AppController.t) : Prop :=
  store_kept (config w) (config w').
(* ===================================================================== *)
(** ** config_manager.py: the repair of a partial document *)
(* ===================================================================== *)

(** The document [load] keeps when the file held the JSON object [d]:
    a missing "mappings" is added empty, then a missing "settings" is
    added as a copy of the default settings. *)
Definition repaired (d : list (string * value)) : list (string * value) :=
  let d1 := if Py.dict_has d "mappings" then d
            else Py.dict_set d "mappings" (VDict []) in
  if Py.dict_has d1 "settings" then d1
  else Py.dict_set d1 "settings"
         (VDict [ ("restore_mouse_position", VBool true);
                  ("require_foreground_window", VBool false);
                  ("target_window_title", VStr "Valeton") ]).

(* ===================================================================== *)
(** ** main.py: construction and shutdown of the controller *)
(* ===================================================================== *)

(** [MainWindow.set_settings_ui]: the two check boxes take the values
    while their signals are blocked, so nothing is emitted.  The window
    record keeps no check box; Qt's [setChecked] is followed for a
    [bool] argument only. *)
Definition set_settings_ui (restore foreground : value)
  : M MainWindow.t unit :=
  match restore with
  | VBool _ =>
      match foreground with
      | VBool _ => ret tt
      | _ => lift_outcome Unmodelled
      end
  | _ => lift_outcome Unmodelled
  end.

(** [settings.get(key, default)] on the copy [get_settings] returned. *)
Definition settings_get (settings : list (string * value)) (key : string)
           (default : value) : value :=
  match Py.dict_get settings key with
  | Some v => v
  | None => default
  end.

(** Load persisted state into the UI. *)
Definition _initialize_ui : M AppController.t unit :=
  settings <- on_config ConfigManager.get_settings ;;
  on_window (set_settings_ui
               (settings_get settings "restore_mouse_position" (VBool true))
               (settings_get settings "require_foreground_window" (VBool false))) ;;
  _refresh_table ;;
  set_status StatusReady.

(** The fields as [AppController.__init__] has assigned them when it
    reaches [_wire_signals]: the machine in NORMAL, both listeners not
    started, the window as [MainWindow()] leaves it (badge on NORMAL,
    status "Ready", no rows), no pending key. *)
Definition fresh_controller (cfg : ConfigManager.t)
           (dk : action_executor.Desktop) : AppController.t :=
  AppController.Build cfg
    (StateMachine.Build NORMAL)
    (KeyboardListener.Build None false)
    (MouseClickCapture.Build None false)
    (MainWindow.Build NORMAL StatusInitial [] None)
    None dk.

(** [AppController()] with [f] at the configuration path and [dk] the
    desktop: the new controller, or the exception that left the
    constructor. *)
Definition AppController__init__ (f : file) (dk : action_executor.Desktop)
  : outcome AppController.t :=
  match ConfigManager.init f with
  | (Ret _, cfg) =>
      match (_initialize_ui ;;
             (* Start keyboard listener *)
             modify (fun s => set_keyboard_listener
                                (KeyboardListener.start (keyboard_listener s)) s))
              (fresh_controller cfg dk) with
      | (Ret _, self) => Ret self
      | (Raise e, _) => Raise e
      | (Unmodelled, _) => Unmodelled
      end
  | (Raise e, _) => Raise e
  | (Unmodelled, _) => Unmodelled
  end.

(** Graceful shutdown: both listeners are stopped; [QApplication.quit]
    then ends the event loop, which is outside the controller. *)
Definition _on_quit : M AppController.t unit :=
  modify (fun s => set_keyboard_listener
                     (KeyboardListener.stop (keyboard_listener s)) s) ;;
  modify (fun s => set_mouse_capture
                     (MouseClickCapture.stop (mouse_capture s)) s).

(** A run of events through their handlers, stopping at the first one
    that does not return normally. *)
Definition run_events (evs : list event) : M AppController.t unit :=
  for_each evs handle.

(** What [MainWindow.update_state] makes of the three buttons for the
    state shown: Add, Remove and the toggle are enabled outside the two
    CONFIG states, and the toggle offers "Enable" in DISABLED and
    "Disable" otherwise. *)
Definition buttons_enabled (win : MainWindow.t) : bool :=
  let is_config :=
    StateMachine.state_in (MainWindow._mode_badge win)
                          [CONFIG_WAIT_KEY; CONFIG_WAIT_CLICK] in
  negb is_config.

Definition toggle_offers_enable (win : MainWindow.t) : bool :=
  AppState_eqb (MainWindow._mode_badge win) DISABLED.

(** The key press repeated: [n] presses of the same key, one handler
    call after the other. *)
Definition press_times (n : nat) (key_name : string) : M AppController.t unit :=
  for_each (repeat tt n) (fun _ => _on_key_pressed key_name).

(** The keyboard listener is left as it was. *)
Definition same_listener (w w' : AppController.t) : Prop :=
  keyboard_listener w' = keyboard_listener w.

(** ** ui.py: the order of the rows *)

(** The rows of a table are in key order. *)
Definition rows_in_key_order
           (rows : list (string * option value * option value)) : Prop :=
  Sorted (fun r1 r2 => String.leb (fst (fst r1)) (fst (fst r2)) = true) rows.


(** ** The events that come from the keyboard and the mouse *)

Definition is_input (e : event) : bool :=
  match e with
  | KeyDown _ | ButtonEvent _ _ _ _ => true
  | _ => false
  end.
(* ===================================================================== *)
(** * Properties *)
(* ===================================================================== *)

(** ** Induction on values *)

Section ValueInd.
Variable P : value -> Prop.
Hypothesis HNone : P VNone.
Hypothesis HBool : forall b, P (VBool b).
Hypothesis HInt : forall z, P (VInt z).
Hypothesis HStr : forall s, P (VStr s).
Hypothesis HList : forall l, Forall P l -> P (VList l).
Hypothesis HDict : forall d, Forall (fun kv => P (snd kv)) d -> P (VDict d).

Fixpoint value_ind (v : value) : P v :=
  match v with
  | VNone => HNone
  | VBool b => HBool b
  | VInt z => HInt z
  | VStr s => HStr s
  | VList l =>
      HList l ((fix all (l : list value) : Forall P l :=
                  match l with
                  | [] => Forall_nil P
                  | x :: r => Forall_cons x (value_ind x) (all r)
                  end) l)
  | VDict d =>
      HDict d ((fix all (d : list (string * value))
                : Forall (fun kv => P (snd kv)) d :=
                  match d with
                  | [] => Forall_nil _
                  | kv :: r => Forall_cons kv (value_ind (snd kv)) (all r)
                  end) d)
  end.
End ValueInd.

(** ** Dictionaries *)

Lemma dict_get_set_same d k v : Py.dict_get (Py.dict_set d k v) k = Some v.
Proof.
  induction d as [|[k' v'] d IH]; simpl.
  - now rewrite String.eqb_refl.
  - destruct (String.eqb k' k) eqn:E; simpl; rewrite E; auto.
Qed.

Lemma dict_get_set_other d k k' v :
  k <> k' -> Py.dict_get (Py.dict_set d k v) k' = Py.dict_get d k'.
Proof.
  intros Hne. induction d as [|[k0 v0] d IH]; simpl.
  - destruct (String.eqb k k') eqn:E; auto.
    apply String.eqb_eq in E. contradiction.
  - destruct (String.eqb k0 k) eqn:E; simpl.
    + apply String.eqb_eq in E. subst k0.
      destruct (String.eqb k k') eqn:E'; auto.
      apply String.eqb_eq in E'. contradiction.
    + now rewrite IH.
Qed.

Lemma dict_set_fresh d k v :
  existsb (String.eqb k) (map fst d) = false ->
  Py.dict_set d k v = (d ++ [(k, v)])%list.
Proof.
  induction d as [|[k' v'] d IH]; simpl; intros H; auto.
  apply orb_false_iff in H. destruct H as [H1 H2].
  rewrite String.eqb_sym in H1. rewrite H1. now rewrite IH.
Qed.

Lemma dict_has_false d k :
  Py.dict_has d k = false -> existsb (String.eqb k) (map fst d) = false.
Proof.
  unfold Py.dict_has.
  induction d as [|[k' v'] d IH]; simpl; auto.
  rewrite (String.eqb_sym k k').
  destruct (String.eqb k' k); [discriminate|]. simpl. exact IH.
Qed.

Lemma dict_has_app_l d e k :
  Py.dict_has d k = true -> Py.dict_has (d ++ e) k = true.
Proof.
  unfold Py.dict_has.
  induction d as [|[k' v'] d IH]; simpl; [discriminate|].
  destruct (String.eqb k' k); auto.
Qed.

Lemma existsb_app_false {A} (f : A -> bool) l1 l2 :
  existsb f (l1 ++ l2) = false <-> existsb f l1 = false /\ existsb f l2 = false.
Proof. rewrite existsb_app. apply orb_false_iff. Qed.

(** Building a dict from pairs with distinct keys keeps them as they are. *)
Lemma dict_of_pairs_distinct d :
  Py.distinct (map fst d) = true -> Py.dict_of_pairs d = d.
Proof.
  unfold Py.dict_of_pairs.
  enough (G : forall acc,
             Py.distinct (map fst (acc ++ d)) = true ->
             fold_left (fun d kv => Py.dict_set d (fst kv) (snd kv)) d acc
             = (acc ++ d)%list).
  { intros H. apply (G []). exact H. }
  induction d as [|[k v] d IH]; intros acc H; simpl.
  - now rewrite app_nil_r.
  - rewrite dict_set_fresh.
    + rewrite IH; rewrite <- app_assoc; simpl; auto.
    + clear IH. induction acc as [|[k0 v0] acc IHa]; simpl in *; auto.
      apply andb_true_iff in H. destruct H as [H1 H2].
      rewrite IHa by exact H2.
      rewrite map_app in H1. simpl in H1.
      apply negb_true_iff in H1. apply existsb_app_false in H1.
      destruct H1 as [_ H1]. simpl in H1.
      apply orb_false_iff in H1. destruct H1 as [H1 _].
      rewrite String.eqb_sym. now rewrite H1.
Qed.

(** ** The json codec: decoding what the encoder wrote *)

Module JsonFacts.
Import Json.
Local Open Scope list_scope.

Section Indent.

Variable indent : option nat.

Lemma skip_ws_spaces m s : skip_ws (repeat " "%char m ++ s) = skip_ws s.
Proof. induction m as [|m IH]; simpl; auto. Qed.

Lemma skip_ws_newline_indent n s :
  skip_ws (newline_indent indent n ++ s) = skip_ws s.
Proof.
  unfold newline_indent. destruct indent as [k|]; [|reflexivity].
  simpl. apply skip_ws_spaces.
Qed.

Lemma skip_ws_after_comma n s :
  skip_ws (after_comma indent n ++ s) = skip_ws s.
Proof.
  unfold after_comma. destruct indent as [k|] eqn:E; [|reflexivity].
  rewrite <- E. apply skip_ws_newline_indent.
Qed.

Lemma skip_ws_stop c s : is_ws c = false -> skip_ws (c :: s) = c :: s.
Proof. intros H. simpl. now rewrite H. Qed.

(** A closing bracket, with or without the line break before it, ends
    a value. *)
Lemma delimited_close n c s :
  delimited (c :: s) = true ->
  delimited (newline_indent indent n ++ c :: s) = true.
Proof. unfold newline_indent. destruct indent; auto. Qed.

(** *** Strings *)

Lemma scan_string_encode_char c t :
  scan_string (encode_char c ++ t) = pmap (String c) (scan_string t).
Proof.
  destruct c as [b0 b1 b2 b3 b4 b5 b6 b7];
    destruct b0, b1, b2, b3, b4, b5, b6, b7; reflexivity.
Qed.

Lemma scan_string_encode_chars s rest :
  scan_string (encode_chars s ++ dquote :: rest) = POk s rest.
Proof.
  induction s as [|c s IH]; simpl.
  - reflexivity.
  - rewrite <- app_assoc, scan_string_encode_char, IH. reflexivity.
Qed.

(** *** Numbers *)

Ltac each_char c :=
  destruct c as [b0 b1 b2 b3 b4 b5 b6 b7];
  destruct b0, b1, b2, b3, b4, b5, b6, b7.

Lemma digit_not_minus c : is_digit c = true -> Ascii.eqb c "-"%char = false.
Proof. each_char c; intros H; try discriminate H; reflexivity. Qed.

Lemma delimited_not_digit c r : delimited (c :: r) = true -> is_digit c = false.
Proof. each_char c; intros H; try discriminate H; reflexivity. Qed.

Lemma delimited_not_float rest : delimited rest = true -> float_follows rest = false.
Proof.
  destruct rest as [|c [|d r]]; auto.
  each_char c; intros H; try discriminate H; reflexivity.
Qed.

Lemma uint_digits u :
  Forall (fun c => is_digit c = true)
         (list_ascii_of_string (NilEmpty.string_of_uint u)).
Proof. induction u; simpl; constructor; auto. Qed.

Lemma span_digits_app ds rest :
  Forall (fun c => is_digit c = true) ds ->
  delimited rest = true ->
  span_digits (ds ++ rest) = (ds, rest).
Proof.
  intros Hds Hrest. induction Hds as [|c ds Hc _ IH]; simpl.
  - destruct rest as [|c r]; auto.
    simpl. now rewrite (delimited_not_digit c r Hrest).
  - now rewrite Hc, IH.
Qed.

(** The decimal digits of a positive number do not start with 0. *)
Lemma to_uint_head p :
  match Pos.to_uint p with
  | Decimal.Nil | Decimal.D0 _ => False
  | _ => True
  end.
Proof.
  pose proof (DecimalPos.Unsigned.to_of (Pos.to_uint p)) as H.
  rewrite DecimalPos.Unsigned.of_to in H. simpl in H.
  pose proof (DecimalPos.Unsigned.to_uint_nonnil p) as Hnil.
  pose proof (DecimalPos.Unsigned.to_uint_nonzero p) as Hzero.
  destruct (Pos.to_uint p) as [|u| | | | | | | | |] eqn:E; auto.
  rewrite DecimalFacts.unorm_D0 in H.
  destruct u as [|u'| | | | | | | | |] eqn:Eu;
    try (apply Hzero; reflexivity);
    (assert (Hn : u <> Decimal.Nil) by (subst u; discriminate);
     pose proof (DecimalFacts.nb_digits_unorm u Hn) as Hle;
     subst u; rewrite <- H in Hle; simpl in Hle; lia).
Qed.

Lemma scan_number_digits (negative : bool) ds rest u :
  Forall (fun c => is_digit c = true) ds ->
  match ds with
  | [] => False
  | dh :: ds' => Ascii.eqb dh "0"%char = false \/ ds' = []
  end ->
  delimited rest = true ->
  NilEmpty.uint_of_string (string_of_list_ascii ds) = Some u ->
  scan_number ((if negative then ["-"%char] else []) ++ ds ++ rest)
  = POk (if negative then - Z.of_uint u else Z.of_uint u)%Z rest.
Proof.
  intros Hds Hhead Hrest Hu.
  destruct ds as [|dh ds']; [contradiction|].
  assert (Hm : Ascii.eqb dh "-"%char = false)
    by (apply digit_not_minus; now inversion Hds).
  assert (Hspan : span_digits (dh :: ds' ++ rest) = (dh :: ds', rest))
    by exact (span_digits_app (dh :: ds') rest Hds Hrest).
  assert (Hz : Ascii.eqb dh "0"%char
               && negb match ds' with [] => true | _ :: _ => false end = false)
    by (destruct Hhead as [-> | ->]; [reflexivity | apply andb_false_r]).
  unfold scan_number.
  destruct negative; simpl app; cbv beta iota.
  - rewrite Ascii.eqb_refl.
    now rewrite Hspan, Hz, (delimited_not_float rest Hrest), Hu.
  - now rewrite Hm, Hspan, Hz, (delimited_not_float rest Hrest), Hu.
Qed.

Lemma of_uint_to_uint p : Z.of_uint (Pos.to_uint p) = Z.pos p.
Proof.
  unfold Z.of_uint. now rewrite DecimalPos.Unsigned.of_to.
Qed.

Lemma pos_digits p :
  let ds := list_ascii_of_string (NilEmpty.string_of_uint (Pos.to_uint p)) in
  Forall (fun c => is_digit c = true) ds
  /\ match ds with
     | [] => False
     | dh :: ds' => Ascii.eqb dh "0"%char = false \/ ds' = []
     end
  /\ NilEmpty.uint_of_string (string_of_list_ascii ds) = Some (Pos.to_uint p).
Proof.
  cbv zeta. split; [apply uint_digits|]. split.
  - pose proof (to_uint_head p) as H.
    destruct (Pos.to_uint p); simpl; try contradiction; left; reflexivity.
  - rewrite string_of_list_ascii_of_string. apply NilEmpty.usu.
Qed.

Lemma encode_int_shape z :
  exists (negative : bool) ds u,
    encode_int z = (if negative then ["-"%char] else []) ++ ds
    /\ Forall (fun c => is_digit c = true) ds
    /\ match ds with
       | [] => False
       | dh :: ds' => Ascii.eqb dh "0"%char = false \/ ds' = []
       end
    /\ NilEmpty.uint_of_string (string_of_list_ascii ds) = Some u
    /\ (if negative then - Z.of_uint u else Z.of_uint u)%Z = z.
Proof.
  destruct z as [|p|p].
  - exists false, ["0"%char], (Decimal.D0 Decimal.Nil).
    repeat split; auto.
  - destruct (pos_digits p) as (H1 & H2 & H3).
    exists false, (list_ascii_of_string (NilEmpty.string_of_uint (Pos.to_uint p))),
      (Pos.to_uint p).
    repeat split; auto using of_uint_to_uint.
    unfold encode_int, Py.str_of_int. simpl.
    unfold NilZero.string_of_uint.
    pose proof (to_uint_head p) as H.
    destruct (Pos.to_uint p); try contradiction; reflexivity.
  - destruct (pos_digits p) as (H1 & H2 & H3).
    exists true, (list_ascii_of_string (NilEmpty.string_of_uint (Pos.to_uint p))),
      (Pos.to_uint p).
    repeat split; auto.
    + unfold encode_int, Py.str_of_int. simpl.
      unfold NilZero.string_of_uint.
      pose proof (to_uint_head p) as H.
      destruct (Pos.to_uint p); try contradiction; reflexivity.
    + now rewrite of_uint_to_uint.
Qed.

Lemma scan_number_encode_int z rest :
  delimited rest = true ->
  scan_number (encode_int z ++ rest) = POk z rest.
Proof.
  intros Hrest.
  destruct (encode_int_shape z) as (negative & ds & u & -> & H1 & H2 & H3 & <-).
  rewrite <- app_assoc. now apply scan_number_digits.
Qed.

(** *** Values *)

Lemma scan_value_number fuel c r :
  is_digit c || Ascii.eqb c "-"%char = true ->
  scan_value (S fuel) (c :: r) = pmap VInt (scan_number (c :: r)).
Proof. each_char c; intros H; try discriminate H; reflexivity. Qed.

Lemma digit_opens c :
  is_digit c || Ascii.eqb c "-"%char = true ->
  is_ws c = false /\ Ascii.eqb c "]"%char = false.
Proof. each_char c; intros H; try discriminate H; split; reflexivity. Qed.

Lemma encode_int_head z :
  exists c t, encode_int z = c :: t
              /\ is_digit c || Ascii.eqb c "-"%char = true.
Proof.
  destruct (encode_int_shape z) as (negative & ds & u & -> & H1 & H2 & _).
  destruct negative; simpl.
  - eauto.
  - destruct ds as [|dh ds']; [contradiction|].
    exists dh, ds'. split; auto. inversion H1; subst.
    now rewrite H3.
Qed.

(** An encoded value starts with a character that is neither white
    space nor a closing bracket. *)
Lemma encode_head level v :
  exists c t, encode indent level v = c :: t
              /\ is_ws c = false /\ Ascii.eqb c "]"%char = false.
Proof.
  destruct v as [|[]|z|s|[|x l]|[|kv d]]; simpl;
    try (eexists; eexists; split; [reflexivity|split; reflexivity]).
  destruct (encode_int_head z) as (c & t & -> & H).
  exists c, t. split; auto. now apply digit_opens.
Qed.

Lemma join_cons sep (c : text) (chunks : list text) :
  join sep (c :: chunks)
  = c ++ match chunks with [] => [] | _ => sep ++ join sep chunks end.
Proof. destruct chunks; simpl; [now rewrite app_nil_r | reflexivity]. Qed.

Lemma scan_items_S fuel s :
  scan_items (S fuel) s
  = match scan_value fuel s with
    | POk v r =>
        match skip_ws r with
        | c :: r' =>
            if Ascii.eqb c "]"%char then POk [v] r'
            else if Ascii.eqb c ","%char
                 then pmap (cons v) (scan_items fuel (skip_ws r'))
                 else PErr
        | [] => PErr
        end
    | PErr => PErr
    | PUnmodelled => PUnmodelled
    | PFuel => PFuel
    end.
Proof. reflexivity. Qed.

Lemma skip_ws_close n c rest :
  is_ws c = false ->
  skip_ws (newline_indent indent n ++ c :: rest) = c :: rest.
Proof. intros H. now rewrite skip_ws_newline_indent, skip_ws_stop. Qed.

Lemma skip_ws_encode level v tl :
  skip_ws (encode indent level v ++ tl) = encode indent level v ++ tl.
Proof.
  destruct (encode_head level v) as (c & t & -> & Hws & _).
  simpl. now rewrite Hws.
Qed.

Lemma scan_items_encode l :
  Forall (decodes indent) l -> forallb Py.well_keyed l = true ->
  l <> [] ->
  forall level n fuel rest,
    size_items l <= fuel ->
    scan_items fuel
      (join (item_separator indent level) (map (encode indent level) l)
       ++ newline_indent indent n ++ "]"%char :: rest)
    = POk l rest.
Proof.
  induction 1 as [|x l Hx Hl IH]; intros Hwk Hne level n fuel rest Hfuel.
  - contradiction.
  - simpl in Hwk. apply andb_true_iff in Hwk. destruct Hwk as [Hwx Hwl].
    simpl map. rewrite join_cons, <- app_assoc.
    unfold size_items in Hfuel. simpl in Hfuel.
    destruct fuel as [|fuel]; [lia|]. rewrite scan_items_S.
    rewrite (Hx Hwx level fuel)
      by first [lia | destruct l; [now apply delimited_close | reflexivity]].
    destruct l as [|y l].
    + rewrite app_nil_l, skip_ws_close by reflexivity. reflexivity.
    + set (items := map (encode indent level) (y :: l)).
      assert (Hitems : items = map (encode indent level) (y :: l)) by reflexivity.
      simpl in Hitems. rewrite Hitems at 1. cbv iota. subst items.
      unfold item_separator at 1.
      rewrite <- app_assoc, <- app_comm_cons.
      rewrite skip_ws_stop by reflexivity.
      change (Ascii.eqb ","%char "]"%char) with false.
      change (Ascii.eqb ","%char ","%char) with true. cbv iota.
      rewrite skip_ws_after_comma.
      assert (Hskip : forall tl,
                 skip_ws (join (item_separator indent level)
                               (map (encode indent level) (y :: l)) ++ tl)
                 = join (item_separator indent level)
                        (map (encode indent level) (y :: l)) ++ tl).
      { intros tl. simpl map. rewrite join_cons, <- app_assoc.
        apply skip_ws_encode. }
      rewrite Hskip.
      rewrite (IH Hwl) by (try discriminate; unfold size_items; lia).
      reflexivity.
Qed.

Lemma scan_members_S fuel r0 :
  scan_members (S fuel) (dquote :: r0)
  = match scan_string r0 with
    | POk k r1 =>
        match skip_ws r1 with
        | c1 :: r2 =>
            if Ascii.eqb c1 ":"%char then
              match scan_value fuel (skip_ws r2) with
              | POk v r3 =>
                  match skip_ws r3 with
                  | c :: r' =>
                      if Ascii.eqb c "}"%char then POk [(k, v)] r'
                      else if Ascii.eqb c ","%char
                           then pmap (cons (k, v))
                                     (scan_members fuel (skip_ws r'))
                           else PErr
                  | [] => PErr
                  end
              | PErr => PErr
              | PUnmodelled => PUnmodelled
              | PFuel => PFuel
              end
            else PErr
        | [] => PErr
        end
    | PErr => PErr
    | PUnmodelled => PUnmodelled
    | PFuel => PFuel
    end.
Proof. reflexivity. Qed.

Lemma encode_member_eq level kv tl :
  encode_member indent level kv ++ tl
  = dquote :: encode_chars (fst kv)
           ++ dquote :: ":"%char :: " "%char :: encode indent level (snd kv) ++ tl.
Proof.
  unfold encode_member, encode_str. simpl.
  rewrite <- !app_assoc. reflexivity.
Qed.

Lemma scan_members_encode d :
  Forall (fun kv => decodes indent (snd kv)) d ->
  forallb (fun kv => Py.well_keyed (snd kv)) d = true ->
  d <> [] ->
  forall level n fuel rest,
    size_members d <= fuel ->
    scan_members fuel
      (join (item_separator indent level) (map (encode_member indent level) d)
       ++ newline_indent indent n ++ "}"%char :: rest)
    = POk d rest.
Proof.
  induction 1 as [|[k v] d Hx Hl IH]; intros Hwk Hne level n fuel rest Hfuel.
  - contradiction.
  - simpl in Hwk, Hx. apply andb_true_iff in Hwk. destruct Hwk as [Hwx Hwl].
    unfold size_members in Hfuel. simpl in Hfuel.
    destruct fuel as [|fuel]; [lia|].
    set (items := map (encode_member indent level) ((k, v) :: d)).
    assert (Hitems : items = map (encode_member indent level) ((k, v) :: d))
      by reflexivity.
    simpl in Hitems. rewrite Hitems. clear Hitems items.
    rewrite join_cons, <- app_assoc, encode_member_eq.
    rewrite scan_members_S, scan_string_encode_chars.
    rewrite skip_ws_stop by reflexivity.
    change (Ascii.eqb ":"%char ":"%char) with true. cbv iota.
    change (skip_ws (" "%char :: ?x)) with (skip_ws x).
    simpl snd. rewrite skip_ws_encode.
    rewrite (Hx Hwx level fuel)
      by first [lia | destruct d; [now apply delimited_close | reflexivity]].
    simpl fst.
    destruct d as [|kv d].
    + rewrite app_nil_l, skip_ws_close by reflexivity. reflexivity.
    + set (items := map (encode_member indent level) (kv :: d)).
      assert (Hitems : items = map (encode_member indent level) (kv :: d))
        by reflexivity.
      simpl in Hitems. rewrite Hitems at 1. cbv iota. subst items.
      unfold item_separator at 1.
      rewrite <- app_assoc, <- app_comm_cons.
      rewrite skip_ws_stop by reflexivity.
      change (Ascii.eqb ","%char "}"%char) with false.
      change (Ascii.eqb ","%char ","%char) with true. cbv iota.
      rewrite skip_ws_after_comma.
      assert (Hskip : forall tl,
                 skip_ws (join (item_separator indent level)
                               (map (encode_member indent level) (kv :: d)) ++ tl)
                 = join (item_separator indent level)
                        (map (encode_member indent level) (kv :: d)) ++ tl).
      { intros tl. simpl map. rewrite join_cons, <- app_assoc.
        rewrite encode_member_eq. reflexivity. }
      rewrite Hskip.
      rewrite (IH Hwl) by (try discriminate; unfold size_members; lia).
      reflexivity.
Qed.

Lemma scan_value_list fuel s c t :
  skip_ws s = c :: t -> Ascii.eqb c "]"%char = false ->
  scan_value (S fuel) ("["%char :: s) = pmap VList (scan_items fuel (c :: t)).
Proof. intros H1 H2. simpl. now rewrite H1, H2. Qed.

Lemma scan_value_dict fuel s c t :
  skip_ws s = c :: t -> Ascii.eqb c "}"%char = false ->
  scan_value (S fuel) ("{"%char :: s)
  = pmap (fun ps => VDict (Py.dict_of_pairs ps)) (scan_members fuel (c :: t)).
Proof. intros H1 H2. simpl. now rewrite H1, H2. Qed.

Lemma encode_list level x l :
  encode indent level (VList (x :: l))
  = "["%char :: newline_indent indent (S level)
    ++ join (item_separator indent (S level))
            (map (encode indent (S level)) (x :: l))
    ++ newline_indent indent level ++ ["]"%char].
Proof. reflexivity. Qed.

Lemma encode_dict level kv d :
  encode indent level (VDict (kv :: d))
  = "{"%char :: newline_indent indent (S level)
    ++ join (item_separator indent (S level))
            (map (encode_member indent (S level)) (kv :: d))
    ++ newline_indent indent level ++ ["}"%char].
Proof. reflexivity. Qed.

(** Decoding, with budget enough for the value, what the encoder wrote
    for a value gives the value back and stops right after it. *)
Theorem scan_value_encode v : decodes indent v.
Proof.
  induction v as [| b | z | s | l IH | d IH] using value_ind;
    intros Hwk level fuel rest Hfuel Hrest;
    (destruct fuel as [|fuel]; [simpl in Hfuel; lia|]).
  - reflexivity.
  - destruct b; reflexivity.
  - simpl encode.
    destruct (encode_int_head z) as (c & t & Hc & Hd).
    pose proof (scan_number_encode_int z rest Hrest) as Hn.
    rewrite Hc in *. simpl app in *.
    rewrite scan_value_number by exact Hd. now rewrite Hn.
  - simpl encode. unfold encode_str. simpl app.
    change (scan_value (S fuel) (dquote :: ?x)) with (pmap VStr (scan_string x)).
    rewrite <- app_assoc. simpl app.
    now rewrite scan_string_encode_chars.
  - destruct l as [|x l]; [reflexivity|].
    rewrite encode_list. rewrite <- app_comm_cons, <- !app_assoc.
    destruct (encode_head (S level) x) as (c & t & Hc & Hws & Hcl).
    assert (Hskip : forall tl,
               skip_ws (newline_indent indent (S level)
                        ++ join (item_separator indent (S level))
                                (map (encode indent (S level)) (x :: l)) ++ tl)
               = c :: t ++ match map (encode indent (S level)) l with
                           | [] => []
                           | _ => (item_separator indent (S level))
                                  ++ join (item_separator indent (S level))
                                          (map (encode indent (S level)) l)
                           end ++ tl).
    { intros tl. rewrite skip_ws_newline_indent. simpl map.
      rewrite join_cons, <- app_assoc, skip_ws_encode, Hc. reflexivity. }
    rewrite (scan_value_list fuel _ _ _ (Hskip _) Hcl).
    rewrite <- Hskip, skip_ws_newline_indent.
    assert (Hjoin : forall tl,
               skip_ws (join (item_separator indent (S level))
                             (map (encode indent (S level)) (x :: l)) ++ tl)
               = join (item_separator indent (S level))
                      (map (encode indent (S level)) (x :: l)) ++ tl).
    { intros tl. simpl map. rewrite join_cons, <- app_assoc.
      apply skip_ws_encode. }
    rewrite Hjoin. change (["]"%char] ++ rest) with ("]"%char :: rest).
    rewrite (scan_items_encode (x :: l) IH Hwk ltac:(discriminate)
                               (S level) level fuel rest);
      [reflexivity | simpl in Hfuel; unfold size_items; simpl; lia].
  - destruct d as [|kv d]; [reflexivity|].
    simpl in Hwk. apply andb_true_iff in Hwk. destruct Hwk as [Hkeys Hwk].
    rewrite encode_dict. rewrite <- app_comm_cons, <- !app_assoc.
    assert (Hjoin : forall tl,
               skip_ws (join (item_separator indent (S level))
                             (map (encode_member indent (S level)) (kv :: d)) ++ tl)
               = join (item_separator indent (S level))
                      (map (encode_member indent (S level)) (kv :: d)) ++ tl).
    { intros tl. simpl map. rewrite join_cons, <- app_assoc.
      rewrite encode_member_eq. reflexivity. }
    assert (Hhead : forall tl,
               exists t, join (item_separator indent (S level))
                              (map (encode_member indent (S level)) (kv :: d)) ++ tl
                         = dquote :: t).
    { intros tl. simpl map. rewrite join_cons, <- app_assoc.
      rewrite encode_member_eq. eauto. }
    destruct (Hhead (newline_indent indent level ++ ["}"%char] ++ rest)) as (t & Ht).
    rewrite (scan_value_dict fuel _ dquote t)
      by (try reflexivity; now rewrite skip_ws_newline_indent, Hjoin, Ht).
    rewrite <- Ht. change (["}"%char] ++ rest) with ("}"%char :: rest).
    rewrite (scan_members_encode (kv :: d) IH Hwk ltac:(discriminate)
                                 (S level) level fuel rest);
      [| simpl in Hfuel; unfold size_members; simpl; lia].
    simpl. f_equal. f_equal. apply dict_of_pairs_distinct. exact Hkeys.
Qed.

(** *** The budget of [loads] is enough *)

Lemma length_join_items (f : value -> text) l sep :
  1 <= List.length sep ->
  Forall (fun x => size x <= List.length (f x)) l ->
  size_items l <= List.length (join sep (map f l)) + 1.
Proof.
  intros Hsep. induction 1 as [|x l Hx Hl IH]; simpl; [lia|].
  destruct l as [|y l].
  - simpl. lia.
  - change (map f (y :: l)) with (f y :: map f l) in *.
    change (size_items (y :: l)) with (S (size y + size_items l)) in *.
    cbv iota. rewrite !length_app. lia.
Qed.

Lemma length_join_members (f : string * value -> text) d sep :
  1 <= List.length sep ->
  Forall (fun kv => size (snd kv) <= List.length (f kv)) d ->
  size_members d <= List.length (join sep (map f d)) + 1.
Proof.
  intros Hsep. induction 1 as [|x l Hx Hl IH]; simpl; [lia|].
  destruct l as [|y l].
  - simpl. lia.
  - change (map f (y :: l)) with (f y :: map f l) in *.
    change (size_members (y :: l))
      with (S (size (snd y) + size_members l)) in *.
    cbv iota. rewrite !length_app. lia.
Qed.

Lemma length_item_separator n : 1 <= List.length (item_separator indent n).
Proof. unfold item_separator. simpl. lia. Qed.

Lemma size_le_encode v : forall level, size v <= List.length (encode indent level v).
Proof.
  induction v as [| b | z | s | l IH | d IH] using value_ind; intros level.
  - simpl. lia.
  - destruct b; simpl; lia.
  - simpl. destruct (encode_int_head z) as (c & t & -> & _). simpl. lia.
  - simpl. lia.
  - destruct l as [|x l]; [simpl; lia|].
    rewrite encode_list.
    change (size (VList (x :: l))) with (S (size_items (x :: l))).
    pose proof (length_join_items (encode indent (S level)) (x :: l)
                  (item_separator indent (S level))) as H.
    specialize (H (length_item_separator (S level))).
    assert (HF : Forall (fun x => size x <= List.length (encode indent (S level) x))
                        (x :: l)).
    { eapply Forall_impl; [|exact IH]. intros a Ha. apply Ha. }
    specialize (H HF).
    match type of H with
    | _ <= List.length ?j + 1 => generalize dependent j; intros J H
    end.
    cbn [List.length]. rewrite !length_app.
            simpl (List.length [_]). lia.
  - destruct d as [|kv d]; [simpl; lia|].
    rewrite encode_dict.
    change (size (VDict (kv :: d))) with (S (size_members (kv :: d))).
    pose proof (length_join_members (encode_member indent (S level)) (kv :: d)
                  (item_separator indent (S level))) as H.
    specialize (H (length_item_separator (S level))).
    assert (HF : Forall (fun kv => size (snd kv)
                                   <= List.length (encode_member indent (S level) kv))
                        (kv :: d)).
    { eapply Forall_impl; [|exact IH]. intros a Ha. simpl in Ha.
      unfold encode_member. rewrite !length_app.
      specialize (Ha (S level)). lia. }
    specialize (H HF).
    match type of H with
    | _ <= List.length ?j + 1 => generalize dependent j; intros J H
    end.
    cbn [List.length]. rewrite !length_app.
            simpl (List.length [_]). lia.
Qed.

(** [json.loads(json.dumps(v, indent=indent))] is [v]. *)
Theorem loads_dumps v :
  Py.well_keyed v = true -> loads (dumps indent v) = Ret v.
Proof.
  intros Hwk. unfold loads, dumps.
  rewrite list_ascii_of_string_of_list_ascii.
  pose proof (skip_ws_encode 0 v []) as Hskip.
  rewrite app_nil_r in Hskip. rewrite Hskip.
  pose proof (scan_value_encode v Hwk 0
                (2 * List.length (encode indent 0 v) + 2) []) as H.
  rewrite app_nil_r in H. rewrite H; auto.
  pose proof (size_le_encode v 0). lia.
Qed.

End Indent.

(** *** The decoder never runs out of budget *)

Lemma progresses_pmap {A B} (f : A -> B) s p :
  progresses s p -> progresses s (pmap f p).
Proof. destruct p; auto. Qed.

Lemma progresses_longer {A} s s' (p : parse A) :
  List.length s <= List.length s' -> progresses s p -> progresses s' p.
Proof. destruct p; simpl; auto. lia. Qed.

Lemma skip_ws_length s : List.length (skip_ws s) <= List.length s.
Proof.
  induction s as [|c s IH]; simpl; auto.
  destruct (is_ws c); simpl; lia.
Qed.

Lemma scan_string_progresses s : progresses (dquote :: s) (scan_string s).
Proof.
  assert (G : forall n s, List.length s <= n ->
                          progresses (dquote :: s) (scan_string s)).
  { clear s. induction n as [|n IH]; intros s Hn.
    - destruct s; [exact I | simpl in Hn; lia].
    - destruct s as [|c r]; [exact I|].
      simpl in Hn. cbn [scan_string].
      destruct (Ascii.eqb c dquote); [simpl; lia|].
      destruct (Ascii.eqb c backslash).
      + destruct r as [|e r1]; [exact I|].
        destruct (Ascii.eqb e "u"%char).
        * destruct r1 as [|h1 [|h2 [|h3 [|h4 r2]]]]; try exact I.
          destruct (hex4 h1 h2 h3 h4) as [code|]; [|exact I].
          destruct (code <? 256)%N; [|exact I].
          apply progresses_pmap.
          eapply progresses_longer; [|apply (IH r2); simpl in Hn; lia].
          simpl. lia.
        * destruct (unescape e); [|exact I].
          apply progresses_pmap.
          eapply progresses_longer; [|apply (IH r1); simpl in Hn; lia].
          simpl. lia.
      + destruct (N_of_ascii c <? 32)%N; [exact I|].
        apply progresses_pmap.
        eapply progresses_longer; [|apply (IH r); lia].
        simpl. lia. }
  apply (G (List.length s)). lia.
Qed.

Lemma span_digits_length s :
  let (ds, rest) := span_digits s in
  List.length ds + List.length rest = List.length s.
Proof.
  induction s as [|c s IH]; simpl; auto.
  destruct (is_digit c); simpl; auto.
  destruct (span_digits s). simpl. lia.
Qed.

Lemma scan_number_progresses s : progresses s (scan_number s).
Proof.
  unfold scan_number.
  assert (H : forall s1, List.length s1 <= List.length s ->
                         progresses s
                           (let '(ds, rest) := span_digits s1 in
                            match ds with
                            | [] => @PErr Z
                            | dh :: ds' =>
                                if Ascii.eqb dh "0"%char
                                   && negb (match ds' with [] => true | _ => false end)
                                then PErr
                                else if float_follows rest then PUnmodelled
                                else match NilEmpty.uint_of_string
                                             (string_of_list_ascii ds) with
                                     | Some u => POk (Z.of_uint u) rest
                                     | None => PErr
                                     end
                            end)).
  { intros s1 Hs1. pose proof (span_digits_length s1) as Hl.
    destruct (span_digits s1) as [ds rest].
    destruct ds as [|dh ds']; [exact I|].
    destruct (Ascii.eqb dh "0"%char && _); [exact I|].
    destruct (float_follows rest); [exact I|].
    destruct (NilEmpty.uint_of_string _); [|exact I].
    simpl in *. lia. }
  destruct s as [|c r]; [exact I|].
  destruct (Ascii.eqb c "-"%char).
  - specialize (H r ltac:(simpl; lia)).
    destruct (span_digits r) as [ds rest].
    destruct ds as [|dh ds'].
    + destruct (true && _); exact I.
    + destruct (Ascii.eqb dh "0"%char && _); [exact I|].
      destruct (float_follows rest); [exact I|].
      destruct (NilEmpty.uint_of_string _); [|exact I].
      exact H.
  - specialize (H (c :: r) ltac:(lia)).
    destruct (span_digits (c :: r)) as [ds rest].
    destruct ds as [|dh ds']; [exact I|].
    destruct (Ascii.eqb dh "0"%char && _); [exact I|].
    destruct (float_follows rest); [exact I|].
    destruct (NilEmpty.uint_of_string _); [|exact I].
    exact H.
Qed.

Lemma starts_with_length p s :
  starts_with p s = true ->
  List.length (skipn (List.length p) s) + List.length p = List.length s.
Proof.
  revert s. induction p as [|a p IH]; intros s H; simpl in *.
  - lia.
  - destruct s as [|b s]; [discriminate|].
    apply andb_true_iff in H. destruct H as [_ H].
    specialize (IH s H). simpl. lia.
Qed.

Lemma scan_progresses fuel :
  (forall s, 2 * List.length s + 2 <= fuel -> progresses s (scan_value fuel s))
  /\ (forall s, 2 * List.length s + 3 <= fuel -> progresses s (scan_items fuel s))
  /\ (forall s, 2 * List.length s + 3 <= fuel ->
                progresses s (scan_members fuel s)).
Proof.
  induction fuel as [|fuel (IHv & IHi & IHm)].
  - repeat split; intros s H; lia.
  - split; [|split]; intros s Hf.
    + destruct s as [|c r]; [exact I|]. cbn [scan_value].
      simpl List.length in Hf.
      pose proof (skip_ws_length r) as Hws.
      destruct (Ascii.eqb c dquote).
      { apply progresses_pmap.
        eapply progresses_longer; [|apply scan_string_progresses].
        simpl. lia. }
      destruct (Ascii.eqb c "{"%char).
      { destruct (skip_ws r) as [|c' r'] eqn:E; [exact I|].
        simpl in Hws.
        destruct (Ascii.eqb c' "}"%char); [simpl; lia|].
        apply progresses_pmap.
        eapply progresses_longer; [|apply IHm; simpl; lia].
        simpl. lia. }
      destruct (Ascii.eqb c "["%char).
      { destruct (skip_ws r) as [|c' r'] eqn:E; [exact I|].
        simpl in Hws.
        destruct (Ascii.eqb c' "]"%char); [simpl; lia|].
        apply progresses_pmap.
        eapply progresses_longer; [|apply IHi; simpl; lia].
        simpl. lia. }
      destruct (starts_with (list_ascii_of_string "null") (c :: r)) eqn:E1.
      { apply starts_with_length in E1. simpl List.length in E1.
        unfold progresses. simpl List.length. lia. }
      destruct (starts_with (list_ascii_of_string "true") (c :: r)) eqn:E2.
      { apply starts_with_length in E2. simpl List.length in E2.
        unfold progresses. simpl List.length. lia. }
      destruct (starts_with (list_ascii_of_string "false") (c :: r)) eqn:E3.
      { apply starts_with_length in E3. simpl List.length in E3.
        unfold progresses. simpl List.length. lia. }
      destruct (is_digit c || Ascii.eqb c "-"%char).
      { apply progresses_pmap. apply scan_number_progresses. }
      destruct (starts_with _ _ || starts_with _ _); exact I.
    + cbn [scan_items].
      pose proof (IHv s ltac:(lia)) as Hv.
      destruct (scan_value fuel s) as [v r| | |]; try exact Hv.
      simpl in Hv. pose proof (skip_ws_length r) as Hws.
      destruct (skip_ws r) as [|c r'] eqn:E; [exact I|]. simpl in Hws.
      destruct (Ascii.eqb c "]"%char); [simpl; lia|].
      destruct (Ascii.eqb c ","%char); [|exact I].
      apply progresses_pmap.
      pose proof (skip_ws_length r') as Hws'.
      eapply progresses_longer; [|apply IHi; lia]. lia.
    + cbn [scan_members].
      destruct s as [|q r0]; [exact I|]. simpl List.length in Hf.
      destruct (Ascii.eqb q dquote); [|exact I].
      pose proof (scan_string_progresses r0) as Hs.
      destruct (scan_string r0) as [k r1| | |]; try exact I; [|contradiction].
      simpl in Hs. pose proof (skip_ws_length r1) as Hws1.
      destruct (skip_ws r1) as [|c1 r2] eqn:E1; [exact I|]. simpl in Hws1.
      destruct (Ascii.eqb c1 ":"%char); [|exact I].
      pose proof (skip_ws_length r2) as Hws2.
      pose proof (IHv (skip_ws r2) ltac:(lia)) as Hv.
      destruct (scan_value fuel (skip_ws r2)) as [v r3| | |]; try exact Hv.
      simpl in Hv. pose proof (skip_ws_length r3) as Hws3.
      destruct (skip_ws r3) as [|c r'] eqn:E3; [exact I|]. simpl in Hws3.
      destruct (Ascii.eqb c "}"%char); [simpl; lia|].
      destruct (Ascii.eqb c ","%char); [|exact I].
      apply progresses_pmap.
      pose proof (skip_ws_length r') as Hws'.
      eapply progresses_longer; [|apply IHm; lia]. simpl. lia.
Qed.

(** [json.loads] is total in this model: whatever the text, the budget
    [loads] gives the decoder is enough for it to reach a verdict (the
    result is never [PFuel]), and a value it reads takes at least one
    character. *)
Theorem loads_budget (s : string) :
  let t := list_ascii_of_string s in
  progresses (skip_ws t) (scan_value (2 * List.length t + 2) (skip_ws t)).
Proof.
  intros t.
  pose proof (skip_ws_length t) as Hws.
  apply (proj1 (scan_progresses (2 * List.length t + 2))). lia.
Qed.

End JsonFacts.

(** ** state_machine.py: validated transitions *)

Lemma AppState_eqb_eq (a b : AppState) : AppState_eqb a b = true <-> a = b.
Proof. destruct a, b; simpl; split; intros H; try reflexivity; discriminate H. Qed.

Lemma AppState_eqb_neq (a b : AppState) : AppState_eqb a b = false <-> a <> b.
Proof.
  split.
  - intros H E. apply AppState_eqb_eq in E. congruence.
  - intros H. destruct (AppState_eqb a b) eqn:E; auto.
    apply AppState_eqb_eq in E. contradiction.
Qed.

Lemma state_in_spec (s : AppState) (set : list AppState) :
  StateMachine.state_in s set = true <-> In s set.
Proof.
  unfold StateMachine.state_in. rewrite existsb_exists. split.
  - intros (x & Hin & E). apply AppState_eqb_eq in E. now subst.
  - intros H. exists s. split; auto. now apply AppState_eqb_eq.
Qed.

(** The transition table, as the specification lists it. *)
Lemma allowed_table :
  allowed NORMAL = [CONFIG_WAIT_KEY; DISABLED]
  /\ allowed CONFIG_WAIT_KEY = [CONFIG_WAIT_CLICK; NORMAL]
  /\ allowed CONFIG_WAIT_CLICK = [NORMAL]
  /\ allowed DISABLED = [NORMAL].
Proof. repeat split. Qed.

(** C1. For every current state S and target T, [transition T] returns
    True iff T = S or T is in the allowed set of S; the stored state
    becomes T exactly when the call succeeds with T <> S (and then one
    state_changed notification carrying T is emitted), and otherwise
    the state is unchanged and nothing is emitted.  The function is
    total and has no exceptional result. *)
Theorem transition_spec (S T : AppState) :
  let '(ok, self', emitted) :=
    StateMachine.transition T (StateMachine.Build S) in
  (ok = true <-> (T = S \/ In T (allowed S)))
  /\ (StateMachine._state self' <> S <-> (ok = true /\ T <> S))
  /\ (ok = true -> StateMachine._state self' = T)
  /\ (ok = false -> StateMachine._state self' = S /\ emitted = [])
  /\ (emitted = if ok && negb (AppState_eqb T S) then [T] else []).
Proof.
  unfold StateMachine.transition. cbn [StateMachine._state].
  fold (allowed S).
  destruct (AppState_eqb T S) eqn:Esame.
  - (* no-op *)
    apply AppState_eqb_eq in Esame. subst T. cbn [StateMachine._state].
    repeat split; auto; try tauto; try discriminate.
  - apply AppState_eqb_neq in Esame.
    destruct (StateMachine.state_in T (allowed S)) eqn:Ein; cbn [negb].
    + (* allowed *)
      apply state_in_spec in Ein. cbn [StateMachine._state andb negb].
      repeat split; auto; try discriminate.
    + (* rejected *)
      assert (Hnot : ~ In T (allowed S)).
      { intros H. apply state_in_spec in H. congruence. }
      cbn [StateMachine._state andb].
      repeat split; auto; try discriminate; try tauto.
      intros [H _]. discriminate H.
Qed.
(** ** config_manager.py: loading and saving *)

Section ConfigFacts.
Import ConfigManager.
Local Opaque Json.loads Json.dumps.

Lemma default_copy : Json.loads (Json.dumps None DEFAULT_CONFIG) = Ret DEFAULT_CONFIG.
Proof. apply JsonFacts.loads_dumps. reflexivity. Qed.

Lemma create_default_spec self :
  create_default self
  = (Ret tt, Build DEFAULT_CONFIG (Text (Json.dumps (Some 2%nat) DEFAULT_CONFIG))).
Proof.
  unfold create_default, bind, lift_outcome, modify, save.
  rewrite default_copy. reflexivity.
Qed.

(** A missing file: the defaults, written out at once. *)
Lemma load_missing d :
  load (Build d Missing)
  = (Ret tt, Build DEFAULT_CONFIG (Text (Json.dumps (Some 2%nat) DEFAULT_CONFIG))).
Proof. unfold load. simpl. apply create_default_spec. Qed.

(** A file that cannot be opened: the same. *)
Lemma load_unreadable d :
  load (Build d Unreadable)
  = (Ret tt, Build DEFAULT_CONFIG (Text (Json.dumps (Some 2%nat) DEFAULT_CONFIG))).
Proof.
  unfold load, bind, try_except, read_json. simpl.
  apply create_default_spec.
Qed.

(** Content that is not JSON: the same. *)
Lemma load_malformed d content :
  Json.loads content = Raise JSONDecodeError ->
  load (Build d (Text content))
  = (Ret tt, Build DEFAULT_CONFIG (Text (Json.dumps (Some 2%nat) DEFAULT_CONFIG))).
Proof.
  intros H. unfold load, bind, try_except, read_json. simpl.
  rewrite H. simpl. apply create_default_spec.
Qed.

(** A document that holds both top-level fields is taken as it is and
    the file is left alone. *)
Lemma load_complete d0 content d :
  Json.loads content = Ret (VDict d) ->
  Py.dict_has d "mappings" = true ->
  Py.dict_has d "settings" = true ->
  load (Build d0 (Text content)) = (Ret tt, Build (VDict d) (Text content)).
Proof.
  intros H Hm Hs.
  unfold load, bind, try_except, read_json, modify, ret, data_setitem. simpl.
  rewrite H. simpl. rewrite Hm. simpl. rewrite Hs. reflexivity.
Qed.

(** A document without "mappings" gets an empty one; its settings stay. *)
Lemma load_repairs_mappings d0 content d :
  Json.loads content = Ret (VDict d) ->
  Py.dict_has d "mappings" = false ->
  Py.dict_has d "settings" = true ->
  load (Build d0 (Text content))
  = (Ret tt, Build (VDict (d ++ [("mappings", VDict [])])) (Text content)).
Proof.
  intros H Hm Hs.
  assert (Hfresh : Py.dict_set d "mappings" (VDict [])
                   = (d ++ [("mappings", VDict [])])%list).
  { apply dict_set_fresh, dict_has_false, Hm. }
  unfold load, bind, try_except, read_json, modify, ret, data_setitem. simpl.
  rewrite H. simpl. rewrite Hm. simpl. rewrite Hfresh.
  rewrite (dict_has_app_l d _ "settings" Hs). reflexivity.
Qed.

(** A document without "settings" gets the default ones; its mappings
    stay. *)
Lemma load_repairs_settings d0 content d :
  Json.loads content = Ret (VDict d) ->
  Py.dict_has d "mappings" = true ->
  Py.dict_has d "settings" = false ->
  load (Build d0 (Text content))
  = (Ret tt,
     Build (VDict (d ++ [("settings",
                          VDict [ ("restore_mouse_position", VBool true);
                                  ("require_foreground_window", VBool false);
                                  ("target_window_title", VStr "Valeton") ])]))
           (Text content)).
Proof.
  intros H Hm Hs.
  unfold load, bind, try_except, read_json, modify, ret, data_setitem,
    lift_outcome. simpl.
  rewrite H. simpl. rewrite Hm. simpl. rewrite Hs. simpl.
  rewrite dict_set_fresh; [reflexivity|].
  apply dict_has_false, Hs.
Qed.

(** What was saved is what a later load, or a new manager on the same
    path, holds. *)
Lemma save_then_load d f :
  Py.well_keyed (VDict d) = true ->
  Py.dict_has d "mappings" = true ->
  Py.dict_has d "settings" = true ->
  let saved := Build (VDict d) (Text (Json.dumps (Some 2%nat) (VDict d))) in
  save (Build (VDict d) f) = (Ret tt, saved)
  /\ load saved = (Ret tt, saved)
  /\ init (Text (Json.dumps (Some 2%nat) (VDict d))) = (Ret tt, saved).
Proof.
  intros Hwk Hm Hs saved. split; [reflexivity|].
  pose proof (JsonFacts.loads_dumps (Some 2%nat) (VDict d) Hwk) as Hrt.
  split; [|unfold init]; apply load_complete; assumption.
Qed.

Lemma mappings_value_keys m : map fst (mappings_value m) = map fst m.
Proof. unfold mappings_value. rewrite map_map. reflexivity. Qed.

Lemma mappings_value_well_keyed m :
  forallb (fun kv => Py.well_keyed (snd kv)) (mappings_value m) = true.
Proof. induction m as [|[k [x y]] m IH]; simpl; auto. Qed.

Lemma mappings_well_keyed m :
  Py.well_keyed (VDict (mappings_value m)) = Py.distinct (map fst m).
Proof.
  change (Py.distinct (map fst (mappings_value m))
          && forallb (fun kv => Py.well_keyed (snd kv)) (mappings_value m)
          = Py.distinct (map fst m)).
  now rewrite mappings_value_keys, mappings_value_well_keyed, andb_true_r.
Qed.

Lemma config_value_well_keyed m s :
  Py.distinct (map fst m) = true -> Py.well_keyed (config_value m s) = true.
Proof.
  intros H. unfold config_value.
  change (Py.well_keyed (VDict (mappings_value m))
          && (Py.well_keyed (VDict (settings_value s)) && true) = true).
  rewrite mappings_well_keyed, H. reflexivity.
Qed.

Lemma dict_get_mappings_value m key :
  Py.dict_get (mappings_value m) key
  = option_map coords_value (binding_of m key).
Proof.
  induction m as [|[k xy] m IH]; simpl; auto.
  destruct (String.eqb k key); auto.
Qed.

Lemma get_mapping_typed m s f key :
  get_mapping key (Build (config_value m s) f)
  = (Ret (option_map (fun xy => (VInt (fst xy), VInt (snd xy)))
                     (binding_of m key)),
     Build (config_value m s) f).
Proof.
  unfold get_mapping, bind, lift_outcome, ret. simpl.
  rewrite dict_get_mappings_value.
  destruct (binding_of m key) as [[x y]|]; reflexivity.
Qed.

End ConfigFacts.

(** C5. Round-trip persistence: a configuration made of a well-typed
    binding set (distinct str key names, int x and y) and a settings
    record is saved without error, and a manager that then loads the
    file - the same object reloading, or a new one on the same path -
    holds exactly that configuration: [get_mappings], [get_settings]
    and every [get_mapping] answer from the saved values. *)
Theorem config_round_trip (m : binding_set) (s : settings_record) (f : file) :
  Py.distinct (map fst m) = true ->
  let cm := ConfigManager.Build (config_value m s) f in
  let saved := snd (ConfigManager.save cm) in
  let reloaded := snd (ConfigManager.init (ConfigManager._path saved)) in
  fst (ConfigManager.save cm) = Ret tt
  /\ ConfigManager.load saved = (Ret tt, saved)
  /\ fst (ConfigManager.init (ConfigManager._path saved)) = Ret tt
  /\ ConfigManager._data reloaded = config_value m s
  /\ ConfigManager.get_mappings reloaded = (Ret (mappings_value m), reloaded)
  /\ ConfigManager.get_settings reloaded = (Ret (settings_value s), reloaded)
  /\ forall key,
       ConfigManager.get_mapping key reloaded
       = (Ret (option_map (fun xy => (VInt (fst xy), VInt (snd xy)))
                          (binding_of m key)),
          reloaded).
Proof.
  intros Hkeys cm saved reloaded.
  pose proof (config_value_well_keyed m s Hkeys) as Hwk.
  destruct (save_then_load _ f Hwk eq_refl eq_refl) as (Hsave & Hload & Hinit).
  fold (config_value m s) in Hsave, Hload, Hinit.
  assert (Hs : saved = ConfigManager.Build (config_value m s)
                         (Text (Json.dumps (Some 2%nat) (config_value m s))))
    by (unfold saved, cm; now rewrite Hsave).
  assert (Hp : ConfigManager._path saved
               = Text (Json.dumps (Some 2%nat) (config_value m s)))
    by now rewrite Hs.
  assert (Hr : reloaded = saved)
    by (unfold reloaded; rewrite Hp, Hinit; now rewrite Hs).
  rewrite Hr, Hp, Hinit. unfold cm. rewrite Hsave.
  split; [reflexivity|]. split; [rewrite Hs; exact Hload|].
  split; [reflexivity|].
  rewrite Hs. repeat split. intros key. apply get_mapping_typed.
Qed.

Lemma config_round_trip_witness :
  let m := [("f1", (100, 200)%Z); ("space", (-5, 0)%Z)] in
  let s := BuildSettings true false "Valeton" in
  let saved := snd (ConfigManager.save
                      (ConfigManager.Build (config_value m s) Missing)) in
  let reloaded := snd (ConfigManager.init (ConfigManager._path saved)) in
  ConfigManager.get_mappings reloaded = (Ret (mappings_value m), reloaded)
  /\ ConfigManager.get_settings reloaded = (Ret (settings_value s), reloaded).
Proof.
  intros m s saved reloaded.
  pose proof (config_round_trip m s Missing eq_refl) as H.
  cbv zeta in H. destruct H as (_ & _ & _ & _ & Hm & Hs & _).
  split; [exact Hm | exact Hs].
Defined.

(** C3 (the case the code misses).  The file holds [[]]: valid JSON that
    is not an object.  [load] sets [_data] to the list, finds no
    "mappings" in it, and the item assignment raises TypeError, which
    the [except (json.JSONDecodeError, OSError)] clause does not catch:
    the error leaves [load], nothing falls back to the defaults and the
    file stays as it was. *)
Theorem load_array_raises :
  ConfigManager.init (Text "[]")
  = (Raise TypeError, ConfigManager.Build (VList []) (Text "[]")).
Proof. vm_compute. reflexivity. Qed.

(** The same for every document that is [null], a boolean or a number:
    the membership test itself raises. *)
Lemma load_scalar_raises d0 content v :
  Json.loads content = Ret v ->
  match v with VNone | VBool _ | VInt _ => True | _ => False end ->
  ConfigManager.load (ConfigManager.Build d0 (Text content))
  = (Raise TypeError, ConfigManager.Build v (Text content)).
Proof.
  intros H Hv.
  unfold ConfigManager.load, bind, try_except, ConfigManager.read_json,
    modify, ret. simpl.
  rewrite H. destruct v; try contradiction; reflexivity.
Qed.


(** ** main.py: the controller *)

Import AppController.

(** Unfolding the monad and the handlers down to the dict lookups. *)
Ltac run_py :=
  cbv beta iota zeta delta
    [ _on_key_pressed _on_mouse_clicked _on_toggle_system _on_add_key
      _on_state_changed _refresh_table transition add_mapping get_setting
      set_status state on_config on_window on_desktop zoom for_each
      key_event click_event
      bind ret gets modify lift_outcome try_except
      config state_machine keyboard_listener mouse_capture window
      _pending_key desktop
      set_config set_state_machine set_keyboard_listener set_mouse_capture
      set_window set_pending_key set_desktop
      StateMachine.transition StateMachine._state StateMachine.table_get
      StateMachine.state_in StateMachine.is_normal StateMachine.is_disabled
      VALID_TRANSITIONS AppState_eqb existsb negb orb andb
      MappingManager.get_mapping MappingManager.add_mapping
      MappingManager.get_all_mappings
      ConfigManager.get_mapping ConfigManager.get_setting
      ConfigManager.set_mapping ConfigManager.get_mappings
      ConfigManager.save ConfigManager._data ConfigManager._path
      ConfigManager.set_data ConfigManager.set_path
      Py.getitem Py.get Py.setitem Py.dict_copy
      MainWindow.set_status MainWindow.update_state
      MainWindow._mode_badge MainWindow._status MainWindow._table
      MainWindow.selected
      action_executor.execute_click action_executor.is_target_window_foreground
      action_executor.get_foreground_text action_executor.set_position
      action_executor.click_left action_executor.position
      action_executor.clicks action_executor._HAS_WIN32
      action_executor.foreground_title
      MouseClickCapture.start MouseClickCapture._active
      MouseClickCapture._listener
      fst snd repeat ].

(** Unfolding the controller only, down to the calls into its parts. *)
Ltac run_ctl :=
  cbv beta iota zeta delta
    [ _on_key_pressed _on_mouse_clicked state gets bind ret modify
      get_setting set_status on_config on_window on_desktop zoom
      MappingManager.get_mapping
      config state_machine keyboard_listener mouse_capture window
      _pending_key desktop
      set_config set_state_machine set_keyboard_listener set_mouse_capture
      set_window set_pending_key set_desktop
      StateMachine._state AppState_eqb negb ].

(** C7. The toggle enable/disable intent takes the machine from DISABLED
    to NORMAL and from NORMAL to DISABLED (the window follows); from
    CONFIG_WAIT_KEY and from CONFIG_WAIT_CLICK it changes nothing at
    all.  In every state the store, the pending key, the listeners and
    the desktop are left as they were, and the handler returns
    normally. *)
Theorem toggle_system_spec (w : AppController.t) :
  let (o, w') := _on_toggle_system w in
  o = Ret tt
  /\ match StateMachine._state (state_machine w) with
     | DISABLED =>
         StateMachine._state (state_machine w') = NORMAL
         /\ window w' = MainWindow.set_status StatusEnabled
                          (MainWindow.update_state NORMAL (window w))
     | NORMAL =>
         StateMachine._state (state_machine w') = DISABLED
         /\ window w' = MainWindow.set_status StatusDisabled
                          (MainWindow.update_state DISABLED (window w))
     | CONFIG_WAIT_KEY | CONFIG_WAIT_CLICK => w' = w
     end
  /\ config w' = config w
  /\ _pending_key w' = _pending_key w
  /\ keyboard_listener w' = keyboard_listener w
  /\ mouse_capture w' = mouse_capture w
  /\ desktop w' = desktop w.
Proof.
  destruct w as [cfg [st] kl mc win pk dk].
  destruct st; cbn; repeat split; reflexivity.
Qed.

(** C6. Starting in CONFIG_WAIT_KEY, a key press - whatever the key -
    makes its name the pending key, moves the machine to
    CONFIG_WAIT_CLICK (the window follows and reports the capture) and
    starts the one-shot mouse capture, which is active afterwards, on a
    new running listener if it was not active before.  The store and
    the desktop are untouched.  A key event that reaches the handler
    through the running keyboard listener carries the normalised name
    of the key. *)
Theorem config_key_captured (w : AppController.t) (key_name : string) :
  StateMachine._state (state_machine w) = CONFIG_WAIT_KEY ->
  (let (o, w') := _on_key_pressed key_name w in
   o = Ret tt
   /\ _pending_key w' = Some key_name
   /\ StateMachine._state (state_machine w') = CONFIG_WAIT_CLICK
   /\ mouse_capture w' = MouseClickCapture.start (mouse_capture w)
   /\ MouseClickCapture._active (mouse_capture w') = true
   /\ (MouseClickCapture._active (mouse_capture w) = false ->
       MouseClickCapture._listener (mouse_capture w') = Some true)
   /\ window w' = MainWindow.set_status (StatusKeyCaptured key_name)
                    (MainWindow.update_state CONFIG_WAIT_CLICK (window w))
   /\ config w' = config w
   /\ keyboard_listener w' = keyboard_listener w
   /\ desktop w' = desktop w)
  /\ forall key : pynput_key,
      KeyboardListener._running (keyboard_listener w) = true ->
      key_event key w = _on_key_pressed (normalise_key key) w.
Proof.
  destruct w as [cfg [st] kl mc win pk dk]. simpl. intros ->. split.
  - cbn. destruct mc as [l [|]]; cbn; repeat split; auto; discriminate.
  - intros key Hrun.
    unfold key_event, KeyboardListener._on_press, gets, bind. simpl.
    rewrite Hrun. simpl. unfold bind.
    destruct (_on_key_pressed (normalise_key key) _) as [[[]| |] w']; reflexivity.
Qed.

Lemma config_key_captured_witness :
  let w := AppController.Build
             (ConfigManager.Build DEFAULT_CONFIG Missing)
             (StateMachine.Build CONFIG_WAIT_KEY)
             (KeyboardListener.Build (Some tt) true)
             (MouseClickCapture.Build None false)
             (MainWindow.Build CONFIG_WAIT_KEY StatusPressKey [] None)
             None
             (action_executor.BuildDesktop (VInt 0, VInt 0) [] false None) in
  _pending_key (snd (key_event (KeyCode (Some "Q") (Some 81%Z) "'Q'") w))
  = Some "q".
Proof.
  intros w.
  destruct (config_key_captured w "q" eq_refl) as [H1 H2].
  rewrite (H2 (KeyCode (Some "Q") (Some 81%Z) "'Q'") eq_refl).
  change (normalise_key (KeyCode (Some "Q") (Some 81%Z) "'Q'")) with "q".
  destruct (_on_key_pressed "q" w) as [o w'].
  destruct H1 as (_ & H & _). exact H.
Defined.

(** C8. In NORMAL, a key press whose name has no entry in the stored
    mappings returns normally and leaves the whole controller as it
    was: no click is issued, the machine state does not change, and
    nothing else does either. *)
Theorem unmapped_key_ignored (w : AppController.t) (key_name : string)
        (m : list (string * value)) :
  StateMachine._state (state_machine w) = NORMAL ->
  section_of "mappings" (config w) = Some m ->
  Py.dict_get m key_name = None ->
  _on_key_pressed key_name w = (Ret tt, w)
  /\ action_executor.clicks (desktop (snd (_on_key_pressed key_name w)))
     = action_executor.clicks (desktop w)
  /\ StateMachine._state (state_machine (snd (_on_key_pressed key_name w)))
     = NORMAL.
Proof.
  destruct w as [[data f] [st] kl mc win pk dk]. unfold section_of.
  cbn [config state_machine StateMachine._state ConfigManager._data].
  intros -> Hm Hk.
  assert (H : _on_key_pressed key_name
                (Build (ConfigManager.Build data f) (StateMachine.Build NORMAL)
                       kl mc win pk dk)
              = (Ret tt,
                 Build (ConfigManager.Build data f) (StateMachine.Build NORMAL)
                       kl mc win pk dk)).
  { destruct data as [| | | | |d]; try discriminate.
    destruct (Py.dict_get d "mappings") as [[| | | | |m']|] eqn:E;
      try discriminate.
    injection Hm as ->.
    run_py. rewrite E. run_py. rewrite Hk. reflexivity. }
  rewrite H. repeat split.
Qed.

Lemma unmapped_key_ignored_witness :
  let w := AppController.Build
             (ConfigManager.Build
                (config_value [("f1", (100, 200)%Z)]
                              (BuildSettings true false "Valeton")) Missing)
             (StateMachine.Build NORMAL)
             (KeyboardListener.Build (Some tt) true)
             (MouseClickCapture.Build None false)
             (MainWindow.Build NORMAL StatusReady [] None)
             None
             (action_executor.BuildDesktop (VInt 0, VInt 0) [] false None) in
  _on_key_pressed "f2" w = (Ret tt, w).
Proof.
  intros w.
  exact (proj1 (unmapped_key_ignored w "f2"
                  (mappings_value [("f1", (100, 200)%Z)])
                  eq_refl eq_refl eq_refl)).
Defined.

(** *** Dispatch in NORMAL *)

Lemma get_mapping_reads key c :
  snd (ConfigManager.get_mapping key c) = c.
Proof.
  unfold ConfigManager.get_mapping, bind, lift_outcome, ret.
  destruct (Py.getitem (ConfigManager._data c) "mappings") as [m|e|]; auto.
  destruct (Py.get m key VNone) as [v|e|]; auto.
  destruct (Py.truthy v); auto.
  destruct (Py.getitem v "x") as [x|e|]; auto.
  destruct (Py.getitem v "y") as [y|e|]; auto.
Qed.

Lemma get_setting_reads key default c :
  snd (ConfigManager.get_setting key default c) = c.
Proof.
  unfold ConfigManager.get_setting, bind, lift_outcome.
  destruct (Py.get (ConfigManager._data c) "settings" (VDict [])) as [s|e|]; auto.
Qed.

(** The focus check always answers and changes nothing. *)
Lemma is_target_window_foreground_total title d :
  exists b, action_executor.is_target_window_foreground title d = (Ret b, d).
Proof.
  unfold action_executor.is_target_window_foreground, bind, gets, ret,
    try_except, action_executor.get_foreground_text, lift_outcome.
  destruct d as [p c [|] [fg|]]; cbn; eauto;
    destruct title; cbn; eauto.
Qed.

Lemma execute_click_spec x y restore d :
  action_executor.execute_click x y restore d
  = (Ret tt,
     action_executor.BuildDesktop
       (if Py.truthy restore then action_executor.position d else (x, y))
       (action_executor.clicks d ++ [(x, y)])
       (action_executor._HAS_WIN32 d)
       (action_executor.foreground_title d)).
Proof.
  unfold action_executor.execute_click, bind, gets, modify, ret.
  cbn. destruct (Py.truthy restore); reflexivity.
Qed.

Lemma dispatch_frame_refl w : dispatch_frame w w.
Proof. repeat split. Qed.

(** A key press in NORMAL either leaves the controller as it was, or
    issues one click at the coordinates stored for the key and returns
    normally. *)
Lemma normal_dispatch_cases (w : AppController.t) (key_name : string) :
  StateMachine._state (state_machine w) = NORMAL ->
  let (o, w') := _on_key_pressed key_name w in
  w' = w
  \/ exists x y,
      fst (ConfigManager.get_mapping key_name (config w)) = Ret (Some (x, y))
      /\ o = Ret tt
      /\ dispatch_frame w w'
      /\ action_executor.clicks (desktop w')
         = (action_executor.clicks (desktop w) ++ [(x, y)])%list
      /\ MainWindow._status (window w') = StatusExecuted x y key_name.
Proof.
  destruct w as [cfg [st] kl mc win pk dk].
  cbn [state_machine StateMachine._state config]. intros ->.
  run_ctl.
  pose proof (get_mapping_reads key_name cfg) as Hm.
  destruct (ConfigManager.get_mapping key_name cfg) as [o1 c1].
  simpl in Hm. subst c1.
  destruct o1 as [[[x y]|]|e|]; run_ctl; try (left; reflexivity).
  pose proof (get_setting_reads "require_foreground_window" (VBool false) cfg)
    as H1.
  destruct (ConfigManager.get_setting "require_foreground_window" _ cfg)
    as [o2 c2].
  simpl in H1. subst c2.
  destruct o2 as [required|e|]; run_ctl; try (left; reflexivity).
  assert (Hclick :
      let (o, w') :=
        let (o, s') :=
          let (o, s') :=
            ConfigManager.get_setting "restore_mouse_position" (VBool true) cfg in
          (o, Build s' (StateMachine.Build NORMAL) kl mc win pk dk) in
        match o with
        | Ret a =>
            let (o0, s'0) :=
              let (o0, s'0) :=
                action_executor.execute_click x y a (desktop s') in
              (o0, set_desktop s'0 s') in
            match o0 with
            | Ret _ =>
                (Ret tt,
                 set_window (MainWindow.set_status
                               (StatusExecuted x y key_name) (window s'0)) s'0)
            | Raise e => (Raise e, s'0)
            | Unmodelled => (Unmodelled, s'0)
            end
        | Raise e => (Raise e, s')
        | Unmodelled => (Unmodelled, s')
        end in
      w' = Build cfg (StateMachine.Build NORMAL) kl mc win pk dk
      \/ exists x0 y0,
          Ret (Some (x, y)) = Ret (Some (x0, y0))
          /\ o = Ret tt
          /\ dispatch_frame
               (Build cfg (StateMachine.Build NORMAL) kl mc win pk dk) w'
          /\ action_executor.clicks (desktop w')
             = (action_executor.clicks dk ++ [(x0, y0)])%list
          /\ MainWindow._status (window w') = StatusExecuted x0 y0 key_name).
  { pose proof (get_setting_reads "restore_mouse_position" (VBool true) cfg)
      as H3.
    destruct (ConfigManager.get_setting "restore_mouse_position" _ cfg)
      as [o3 c3].
    simpl in H3. subst c3.
    destruct o3 as [restore|e|]; try (left; reflexivity).
    cbn [desktop]. rewrite execute_click_spec. right. exists x, y.
    repeat split. }
  destruct (Py.truthy required); run_ctl.
  - pose proof (get_setting_reads "target_window_title" (VStr "Valeton") cfg)
      as H2.
    destruct (ConfigManager.get_setting "target_window_title" _ cfg)
      as [o2 c2].
    simpl in H2. subst c2.
    destruct o2 as [title|e|]; run_ctl; try (left; reflexivity).
    destruct (is_target_window_foreground_total title dk) as [b ->].
    destruct b; run_ctl; [|left; reflexivity].
    exact Hclick.
  - exact Hclick.
Qed.

Lemma section_of_data name c m :
  section_of name c = Some m ->
  exists d, ConfigManager._data c = VDict d
            /\ Py.dict_get d name = Some (VDict m).
Proof.
  unfold section_of. destruct (ConfigManager._data c) as [| | | | |d];
    try discriminate.
  destruct (Py.dict_get d name) as [[| | | | |m']|] eqn:E; try discriminate.
  intros [= ->]. eauto.
Qed.

Lemma get_mapping_bound c m key x y :
  section_of "mappings" c = Some m ->
  Py.dict_get m key = Some (coords_value (x, y)) ->
  ConfigManager.get_mapping key c = (Ret (Some (VInt x, VInt y)), c).
Proof.
  intros Hm Hk. destruct (section_of_data _ _ _ Hm) as (d & Hd & Hg).
  unfold ConfigManager.get_mapping, bind, lift_outcome, ret, Py.getitem, Py.get.
  rewrite Hd, Hg, Hk. reflexivity.
Qed.

Lemma get_setting_found c s key default :
  section_of "settings" c = Some s ->
  ConfigManager.get_setting key default c
  = (Ret (match Py.dict_get s key with Some v => v | None => default end), c).
Proof.
  intros Hs. destruct (section_of_data _ _ _ Hs) as (d & Hd & Hg).
  unfold ConfigManager.get_setting, bind, lift_outcome, Py.get.
  rewrite Hd, Hg. reflexivity.
Qed.

(** C10. In NORMAL, a key press whose name is bound leaves the machine
    state, the pending key and the store (the bindings in memory and the
    file) as they were, and the listeners too; in the window only the
    status line may change.  Either no click is issued, or the handler
    returns normally having issued exactly one click, at the bound
    coordinates, and reported it on the status line. *)
Theorem mapped_key_frame (w : AppController.t) (key_name : string)
        (m : list (string * value)) (x y : Z) :
  StateMachine._state (state_machine w) = NORMAL ->
  section_of "mappings" (config w) = Some m ->
  Py.dict_get m key_name = Some (coords_value (x, y)) ->
  let (o, w') := _on_key_pressed key_name w in
  StateMachine._state (state_machine w') = NORMAL
  /\ _pending_key w' = _pending_key w
  /\ config w' = config w
  /\ section_of "mappings" (config w') = Some m
  /\ keyboard_listener w' = keyboard_listener w
  /\ mouse_capture w' = mouse_capture w
  /\ MainWindow._mode_badge (window w') = MainWindow._mode_badge (window w)
  /\ MainWindow._table (window w') = MainWindow._table (window w)
  /\ (action_executor.clicks (desktop w') = action_executor.clicks (desktop w)
      \/ (o = Ret tt
          /\ action_executor.clicks (desktop w')
             = (action_executor.clicks (desktop w) ++ [(VInt x, VInt y)])%list
          /\ MainWindow._status (window w')
             = StatusExecuted (VInt x) (VInt y) key_name)).
Proof.
  intros Hst Hm Hk.
  pose proof (normal_dispatch_cases w key_name Hst) as H.
  rewrite (get_mapping_bound _ _ _ _ _ Hm Hk) in H.
  destruct (_on_key_pressed key_name w) as [o w'].
  destruct H as [-> | (x0 & y0 & Hxy & Ho & Hf & Hc & Hs)].
  - repeat split; auto.
  - simpl in Hxy. injection Hxy as <- <-.
    destruct Hf as (F1 & F2 & F3 & F4 & F5 & F6 & F7 & _).
    rewrite F1, F3. repeat split; auto.
Qed.

Lemma mapped_key_frame_witness :
  let w := AppController.Build
             (ConfigManager.Build
                (config_value [("f1", (100, 200)%Z)]
                              (BuildSettings true false "Valeton")) Missing)
             (StateMachine.Build NORMAL)
             (KeyboardListener.Build (Some tt) true)
             (MouseClickCapture.Build None false)
             (MainWindow.Build NORMAL StatusReady [] None)
             (Some "stale")
             (action_executor.BuildDesktop (VInt 7, VInt 8) [] true None) in
  let w' := snd (_on_key_pressed "f1" w) in
  action_executor.clicks (desktop w') = [(VInt 100, VInt 200)]
  /\ _pending_key w' = Some "stale"
  /\ config w' = config w.
Proof.
  intros w w'.
  pose proof (mapped_key_frame w "f1" (mappings_value [("f1", (100, 200)%Z)])
                100 200 eq_refl eq_refl eq_refl) as H.
  fold w' in H.
  change (_on_key_pressed "f1" w) with (fst (_on_key_pressed "f1" w), w') in H.
  cbv iota in H. destruct H as (_ & H2 & H3 & _).
  split; [reflexivity|]. split; assumption.
Defined.

(** *** The focus gate *)

Lemma prefix_spec (a b : string) :
  String.prefix a b = true <-> exists post, b = a ++ post.
Proof.
  revert b. induction a as [|c a IH]; intros b; simpl.
  - split; [intros _; exists b; reflexivity | destruct b; reflexivity].
  - destruct b as [|c' b].
    + split; [discriminate|]. intros [post H]. discriminate H.
    + simpl. destruct (ascii_dec c c') as [->|Hne].
      * split.
        -- intros H. apply IH in H. destruct H as [post ->]. eauto.
        -- intros [post H]. injection H as ->. apply IH. eauto.
      * split; [discriminate|]. intros [post H]. injection H as H1 _.
        symmetry in H1. contradiction.
Qed.

(** [needle in hay] holds exactly when [hay] is some text, then
    [needle], then some text. *)
Lemma str_contains_spec (needle hay : string) :
  Py.str_contains needle hay = true
  <-> exists pre post, hay = pre ++ needle ++ post.
Proof.
  assert (step : forall h,
             Py.str_contains needle h
             = if String.prefix needle h then true
               else match h with
                    | EmptyString => false
                    | String _ h' => Py.str_contains needle h'
                    end)
    by (intros [|c0 hay0]; reflexivity).
  induction hay as [|c hay IH]; rewrite step.
  - destruct (String.prefix needle "") eqn:E.
    + split; [intros _ | reflexivity].
      apply prefix_spec in E. destruct E as [post E].
      exists "", post. exact E.
    + split; [discriminate|]. intros (pre & post & H).
      destruct pre; simpl in H.
      * assert (E' : String.prefix needle "" = true)
          by (apply prefix_spec; eauto).
        congruence.
      * discriminate H.
  - destruct (String.prefix needle (String c hay)) eqn:E.
    + split; [intros _ | reflexivity].
      apply prefix_spec in E. destruct E as [post E].
      exists "", post. exact E.
    + split.
      * intros H. apply IH in H. destruct H as (pre & post & H).
        exists (String c pre), post. simpl. now rewrite H.
      * intros (pre & post & H). destruct pre as [|c' pre]; simpl in H.
        -- assert (E' : String.prefix needle (String c hay) = true)
             by (apply prefix_spec; eauto).
           congruence.
        -- injection H as _ H. apply IH. eauto.
Qed.

Lemma is_target_window_foreground_str title d :
  action_executor.is_target_window_foreground (VStr title) d
  = (Ret (focus_verdict title d), d).
Proof.
  unfold focus_verdict.
  destruct d as [p c [|] [fg|]]; reflexivity.
Qed.

(** C4. For a str title the foreground check answers, without changing
    anything: True when win32gui is missing or the lookup raises
    (fail-open); otherwise whether the lower-cased title occurs inside
    the lower-cased title of the foreground window.  Consequently, for a
    bound key pressed in NORMAL with require_foreground_window true:
    when the check answers False the handler returns with the
    controller untouched - no click; when it answers True, as it does on
    every lookup failure, exactly one click is issued at the bound
    coordinates. *)
Theorem focus_gate (w : AppController.t) (key_name : string)
        (m s : list (string * value)) (x y : Z) (title : string) :
  StateMachine._state (state_machine w) = NORMAL ->
  section_of "mappings" (config w) = Some m ->
  Py.dict_get m key_name = Some (coords_value (x, y)) ->
  section_of "settings" (config w) = Some s ->
  Py.dict_get s "require_foreground_window" = Some (VBool true) ->
  configured_title s = VStr title ->
  let d := desktop w in
  action_executor.is_target_window_foreground (VStr title) d
  = (Ret (focus_verdict title d), d)
  /\ (action_executor._HAS_WIN32 d = false -> focus_verdict title d = true)
  /\ (action_executor.foreground_title d = None -> focus_verdict title d = true)
  /\ (forall fg,
        action_executor._HAS_WIN32 d = true ->
        action_executor.foreground_title d = Some fg ->
        (focus_verdict title d = true
         <-> exists pre post, Py.lower fg = pre ++ Py.lower title ++ post))
  /\ (focus_verdict title d = false ->
      _on_key_pressed key_name w = (Ret tt, w))
  /\ (focus_verdict title d = true ->
      let (o, w') := _on_key_pressed key_name w in
      o = Ret tt
      /\ action_executor.clicks (desktop w')
         = (action_executor.clicks d ++ [(VInt x, VInt y)])%list).
Proof.
  intros Hst Hm Hk Hs Hreq Htitle d.
  split; [apply is_target_window_foreground_str|].
  split; [unfold focus_verdict; now intros ->|].
  split; [unfold focus_verdict; intros ->;
          now destruct (action_executor._HAS_WIN32 d)|].
  split.
  { intros fg H1 H2. unfold focus_verdict. rewrite H1, H2.
    apply str_contains_spec. }
  assert (Hrun :
    _on_key_pressed key_name w
    = if focus_verdict title d
      then (let (o, d') :=
              action_executor.execute_click (VInt x) (VInt y)
                (match Py.dict_get s "restore_mouse_position" with
                 | Some v => v
                 | None => VBool true
                 end) d in
            (Ret tt,
             set_window (MainWindow.set_status
                           (StatusExecuted (VInt x) (VInt y) key_name)
                           (window w))
                        (set_desktop d' w)))
      else (Ret tt, w)).
  { subst d. destruct w as [cfg [st] kl mc win pk dk].
    cbn [state_machine StateMachine._state config desktop window] in *.
    subst st. run_ctl.
    rewrite (get_mapping_bound _ _ _ _ _ Hm Hk). run_ctl.
    rewrite (get_setting_found _ _ "require_foreground_window" _ Hs), Hreq.
    run_ctl. cbn [Py.truthy].
    rewrite (get_setting_found _ _ "target_window_title" _ Hs).
    fold (configured_title s). rewrite Htitle. run_ctl.
    rewrite is_target_window_foreground_str. run_ctl.
    destruct (focus_verdict title dk); run_ctl; [|reflexivity].
    rewrite (get_setting_found _ _ "restore_mouse_position" _ Hs). run_ctl.
    rewrite execute_click_spec. reflexivity. }
  rewrite Hrun. split.
  - now intros ->.
  - intros ->. rewrite execute_click_spec. split; reflexivity.
Qed.

Lemma focus_gate_witness :
  let w := AppController.Build
             (ConfigManager.Build
                (config_value [("f1", (100, 200)%Z)]
                              (BuildSettings true true "Valeton")) Missing)
             (StateMachine.Build NORMAL)
             (KeyboardListener.Build (Some tt) true)
             (MouseClickCapture.Build None false)
             (MainWindow.Build NORMAL StatusReady [] None)
             None
             (action_executor.BuildDesktop (VInt 7, VInt 8) [] true
                                           (Some "Untitled - Notepad")) in
  _on_key_pressed "f1" w = (Ret tt, w).
Proof.
  intros w.
  pose proof (focus_gate w "f1" (mappings_value [("f1", (100, 200)%Z)])
                (settings_value (BuildSettings true true "Valeton"))
                100 200 "Valeton" eq_refl eq_refl eq_refl eq_refl eq_refl eq_refl)
    as H.
  cbv zeta in H. destruct H as (_ & _ & _ & _ & H & _).
  apply H. reflexivity.
Defined.

(** *** Committing a binding *)

Lemma set_x_last rows k a b x :
  MainWindow.set_x x (rows ++ [(k, a, b)]) = (rows ++ [(k, Some x, b)])%list.
Proof.
  unfold MainWindow.set_x. rewrite rev_app_distr. simpl.
  now rewrite rev_involutive.
Qed.

Lemma set_y_last rows k a b y :
  MainWindow.set_y y (rows ++ [(k, a, b)]) = (rows ++ [(k, a, Some y)])%list.
Proof.
  unfold MainWindow.set_y. rewrite rev_app_distr. simpl.
  now rewrite rev_involutive.
Qed.

Lemma has_coords_getitem v :
  has_coords v = true ->
  exists x y, Py.getitem v "x" = Ret x /\ Py.getitem v "y" = Ret y.
Proof.
  destruct v as [| | | | |c]; try discriminate. unfold has_coords, Py.dict_has.
  unfold Py.getitem.
  destruct (Py.dict_get c "x"); [|discriminate].
  destruct (Py.dict_get c "y"); [|discriminate]. eauto.
Qed.

Lemma fill_ok items :
  entries_have_coords items = true ->
  forall badge status table sel,
    MainWindow.fill items (MainWindow.Build badge status table sel)
    = (Ret tt, MainWindow.Build badge status (table ++ map row_of items) sel).
Proof.
  induction items as [|[key coords] items IH]; intros H badge status table sel.
  - simpl. now rewrite app_nil_r.
  - simpl in H. apply andb_true_iff in H. destruct H as [Hc Hrest].
    destruct (has_coords_getitem coords Hc) as (x & y & Hx & Hy).
    cbn [MainWindow.fill]. unfold bind, modify, lift_outcome, MainWindow.with_table.
    cbn [MainWindow._mode_badge MainWindow._status MainWindow._table
         MainWindow.selected].
    rewrite Hx. cbn [MainWindow._mode_badge MainWindow._status MainWindow._table
         MainWindow.selected].
    rewrite set_x_last, Hy.
    cbn [MainWindow._mode_badge MainWindow._status MainWindow._table
         MainWindow.selected].
    rewrite set_y_last, (IH Hrest). rewrite <- app_assoc.
    assert (Hr : row_of (key, coords) = (key, Some x, Some y))
      by (unfold row_of; cbn [fst snd]; now rewrite Hx, Hy).
    cbn [map]. rewrite Hr. reflexivity.
Qed.

Lemma forallb_insert_sorted (P : string * value -> bool) kv l :
  forallb P (MainWindow.insert_sorted kv l) = P kv && forallb P l.
Proof.
  induction l as [|kv' l IH]; simpl; auto.
  destruct (String.leb (fst kv) (fst kv')); simpl; auto.
  rewrite IH. destruct (P kv), (P kv'); reflexivity.
Qed.

Lemma forallb_sorted_items (P : string * value -> bool) l :
  forallb P (MainWindow.sorted_items l) = forallb P l.
Proof.
  unfold MainWindow.sorted_items.
  induction l as [|kv l IH]; simpl; auto.
  now rewrite forallb_insert_sorted, IH.
Qed.

Lemma entries_have_coords_set m k v :
  entries_have_coords m = true -> has_coords v = true ->
  entries_have_coords (Py.dict_set m k v) = true.
Proof.
  unfold entries_have_coords. intros Hm Hv.
  induction m as [|[k' v'] m IH]; simpl in *.
  - now rewrite Hv.
  - apply andb_true_iff in Hm. destruct Hm as [H1 H2].
    destruct (String.eqb k' k); simpl.
    + now rewrite Hv, H2.
    + now rewrite H1, IH.
Qed.

Lemma entries_have_coords_del m k :
  entries_have_coords m = true -> entries_have_coords (Py.dict_del m k) = true.
Proof.
  unfold entries_have_coords. induction m as [|[k' v] m IH]; simpl; auto.
  intros H. apply andb_true_iff in H. destruct H as [H1 H2].
  destruct (String.eqb k' k); simpl; auto. now rewrite H1, IH.
Qed.

Lemma refresh_mappings_ok mappings win :
  entries_have_coords mappings = true ->
  MainWindow.refresh_mappings mappings win
  = (Ret tt,
     MainWindow.Build (MainWindow._mode_badge win) (MainWindow._status win)
                      (map row_of (MainWindow.sorted_items mappings)) None).
Proof.
  intros H. unfold MainWindow.refresh_mappings, bind, modify.
  rewrite fill_ok by (unfold entries_have_coords in *;
                      now rewrite forallb_sorted_items).
  reflexivity.
Qed.

Lemma set_mapping_ok c d m key x y :
  ConfigManager._data c = VDict d ->
  Py.dict_get d "mappings" = Some (VDict m) ->
  ConfigManager.set_mapping key x y c
  = (Ret tt,
     ConfigManager.Build (with_binding d m key x y)
                         (Text (Json.dumps (Some 2%nat) (with_binding d m key x y)))).
Proof.
  intros Hd Hm. destruct c as [data f]. simpl in Hd. subst data.
  unfold ConfigManager.set_mapping, bind, ConfigManager.save, Py.getitem,
    Py.setitem. cbn [ConfigManager._data]. rewrite Hm. reflexivity.
Qed.

Lemma add_mapping_ok w d m key x y :
  ConfigManager._data (config w) = VDict d ->
  Py.dict_get d "mappings" = Some (VDict m) ->
  entries_have_coords m = true ->
  add_mapping key x y w
  = (Ret tt,
     set_window
       (MainWindow.Build
          (MainWindow._mode_badge (window w)) (MainWindow._status (window w))
          (map row_of (MainWindow.sorted_items
                         (Py.dict_set m key (coords_value (x, y)))))
          None)
       (set_config
          (ConfigManager.Build (with_binding d m key x y)
                               (Text (Json.dumps (Some 2%nat) (with_binding d m key x y))))
          w)).
Proof.
  intros Hd Hm He.
  unfold add_mapping, MappingManager.add_mapping, on_config, zoom, bind, ret.
  rewrite (set_mapping_ok _ _ _ _ _ _ Hd Hm).
  cbn [repeat for_each]. unfold bind, _refresh_table, bind, on_config,
    on_window, zoom, MappingManager.get_all_mappings,
    ConfigManager.get_mappings, with_binding, Py.get, ret.
  cbn [config set_config ConfigManager._data].
  rewrite dict_get_set_same. cbn [Py.dict_copy window set_config].
  rewrite refresh_mappings_ok
    by (apply entries_have_coords_set; [exact He | reflexivity]).
  destruct w; reflexivity.
Qed.

Lemma section_of_with_binding d m key x y f :
  section_of "mappings"
    (ConfigManager.Build (with_binding d m key x y) f)
  = Some (Py.dict_set m key (coords_value (x, y))).
Proof.
  unfold section_of, with_binding. cbn [ConfigManager._data].
  now rewrite dict_get_set_same.
Qed.

Lemma section_of_settings_kept d m key x y f f' :
  section_of "settings" (ConfigManager.Build (with_binding d m key x y) f')
  = section_of "settings" (ConfigManager.Build (VDict d) f).
Proof.
  unfold section_of, with_binding. cbn [ConfigManager._data].
  rewrite dict_get_set_other; [reflexivity|discriminate].
Qed.

(** The run of the handler that commits a binding. *)
Lemma mouse_clicked_commit w k d m x y :
  StateMachine._state (state_machine w) = CONFIG_WAIT_CLICK ->
  _pending_key w = Some k ->
  ConfigManager._data (config w) = VDict d ->
  Py.dict_get d "mappings" = Some (VDict m) ->
  entries_have_coords m = true ->
  _on_mouse_clicked x y w
  = (Ret tt,
     Build (ConfigManager.Build (with_binding d m k x y)
              (Text (Json.dumps (Some 2%nat) (with_binding d m k x y))))
           (StateMachine.Build NORMAL)
           (keyboard_listener w) (mouse_capture w)
           (MainWindow.Build NORMAL (StatusMappingSaved k x y)
              (map row_of (MainWindow.sorted_items
                             (Py.dict_set m k (coords_value (x, y)))))
              None)
           None (desktop w)).
Proof.
  intros Hst Hpk Hd Hm He.
  destruct w as [[data f] [st] kl mc win pk dk].
  cbn [state_machine StateMachine._state _pending_key config
       ConfigManager._data keyboard_listener mouse_capture desktop] in *.
  subst st pk data.
  run_ctl.
  match goal with
  | |- context [add_mapping k x y ?w0] =>
      rewrite (add_mapping_ok w0 d m k x y eq_refl Hm He)
  end.
  run_py. reflexivity.
Qed.

(** C2. A mouse-click-captured event at (x, y):
    - outside CONFIG_WAIT_CLICK it is ignored: the handler returns with
      the controller exactly as it was;
    - in CONFIG_WAIT_CLICK with no pending key, the machine goes to
      NORMAL (the window follows) and the store is not touched;
    - in CONFIG_WAIT_CLICK with pending key [k], on a store whose
      mappings all carry coordinates, the pending key is cleared, the
      binding (k, x, y) is in the mappings (replacing an earlier one for
      [k], the others and the settings kept) and the file holds the new
      configuration, the machine is in NORMAL and the window reports
      the saved mapping.
    In both CONFIG_WAIT_CLICK cases a further click event is a no-op. *)
Theorem mouse_click_spec (w : AppController.t) (x y : Z) :
  (StateMachine._state (state_machine w) <> CONFIG_WAIT_CLICK ->
   _on_mouse_clicked x y w = (Ret tt, w))
  /\ (StateMachine._state (state_machine w) = CONFIG_WAIT_CLICK ->
      _pending_key w = None ->
      let (o, w') := _on_mouse_clicked x y w in
      o = Ret tt
      /\ _pending_key w' = None
      /\ StateMachine._state (state_machine w') = NORMAL
      /\ config w' = config w
      /\ window w' = MainWindow.update_state NORMAL (window w)
      /\ keyboard_listener w' = keyboard_listener w
      /\ mouse_capture w' = mouse_capture w
      /\ desktop w' = desktop w
      /\ forall x2 y2, _on_mouse_clicked x2 y2 w' = (Ret tt, w'))
  /\ (forall k d m,
      StateMachine._state (state_machine w) = CONFIG_WAIT_CLICK ->
      _pending_key w = Some k ->
      ConfigManager._data (config w) = VDict d ->
      Py.dict_get d "mappings" = Some (VDict m) ->
      entries_have_coords m = true ->
      let (o, w') := _on_mouse_clicked x y w in
      o = Ret tt
      /\ _pending_key w' = None
      /\ StateMachine._state (state_machine w') = NORMAL
      /\ section_of "mappings" (config w')
         = Some (Py.dict_set m k (coords_value (x, y)))
      /\ ConfigManager.get_mapping k (config w')
         = (Ret (Some (VInt x, VInt y)), config w')
      /\ section_of "settings" (config w') = section_of "settings" (config w)
      /\ ConfigManager._path (config w')
         = Text (Json.dumps (Some 2%nat) (ConfigManager._data (config w')))
      /\ MainWindow._mode_badge (window w') = NORMAL
      /\ MainWindow._status (window w') = StatusMappingSaved k x y
      /\ keyboard_listener w' = keyboard_listener w
      /\ mouse_capture w' = mouse_capture w
      /\ desktop w' = desktop w
      /\ forall x2 y2, _on_mouse_clicked x2 y2 w' = (Ret tt, w')).
Proof.
  split; [|split].
  - destruct w as [cfg [st] kl mc win pk dk].
    cbn [state_machine StateMachine._state]. intros Hst.
    destruct st; try reflexivity. contradiction.
  - destruct w as [cfg [st] kl mc win pk dk].
    cbn [state_machine StateMachine._state _pending_key]. intros -> ->.
    cbn. repeat split.
  - intros k d m Hst Hpk Hd Hm He.
    pose proof (mouse_clicked_commit w k d m x y Hst Hpk Hd Hm He) as Hrun.
    destruct w as [[data f] [st] kl mc win pk dk].
    cbn [state_machine StateMachine._state _pending_key config
         ConfigManager._data keyboard_listener mouse_capture desktop] in *.
    subst st pk data.
    rewrite Hrun.
    cbn [config state_machine _pending_key window keyboard_listener
         mouse_capture desktop StateMachine._state
         MainWindow._mode_badge MainWindow._status].
    split; [reflexivity|]. split; [reflexivity|]. split; [reflexivity|].
    split; [apply section_of_with_binding|].
    split.
    { apply (get_mapping_bound _ (Py.dict_set m k (coords_value (x, y)))).
      - apply section_of_with_binding.
      - apply dict_get_set_same. }
    split; [apply section_of_settings_kept|].
    repeat split.
Qed.

Lemma mouse_click_spec_witness :
  let w := AppController.Build
             (ConfigManager.Build
                (config_value [("f1", (1, 2)%Z)]
                              (BuildSettings true false "Valeton")) Missing)
             (StateMachine.Build CONFIG_WAIT_CLICK)
             (KeyboardListener.Build (Some tt) true)
             (MouseClickCapture.Build (Some false) false)
             (MainWindow.Build CONFIG_WAIT_CLICK (StatusKeyCaptured "f2") [] None)
             (Some "f2")
             (action_executor.BuildDesktop (VInt 7, VInt 8) [] true None) in
  let w' := snd (_on_mouse_clicked 100 200 w) in
  section_of "mappings" (config w')
  = Some (mappings_value [("f1", (1, 2)%Z); ("f2", (100, 200)%Z)])
  /\ _pending_key w' = None
  /\ StateMachine._state (state_machine w') = NORMAL
  /\ _on_mouse_clicked 300 400 w' = (Ret tt, w').
Proof.
  intros w w'.
  pose proof (proj2 (proj2 (mouse_click_spec w 100 200)) "f2" _
                _ eq_refl eq_refl eq_refl eq_refl eq_refl) as H.
  unfold w'. destruct (_on_mouse_clicked 100 200 w) as [o w1]. cbn [snd].
  destruct H as (_ & H2 & H3 & H4 & _ & _ & _ & _ & _ & _ & _ & _ & H13).
  split; [exact H4|]. split; [exact H2|]. split; [exact H3|]. apply H13.
Defined.

(** ** input_listener.py: the one-shot mouse capture *)

Lemma call_on_click_inactive evs l :
  call_on_click evs (MouseClickCapture.Build l false)
  = (MouseClickCapture.Build l false, []).
Proof.
  induction evs as [|[[[x y] b] p] evs IH]; simpl; auto.
  now rewrite IH.
Qed.

Lemma deliver_all_stopped evs l a :
  l <> Some true ->
  deliver_all evs (MouseClickCapture.Build l a)
  = (MouseClickCapture.Build l a, []).
Proof.
  intros Hl. induction evs as [|[[[x y] b] p] evs IH]; simpl; auto.
  unfold MouseClickCapture.deliver. simpl.
  destruct l as [[|]|]; try contradiction; now rewrite IH.
Qed.

(** C9. While the capture is active, a left-button press makes the
    callback emit its position, clear [_active] and answer False, which
    stops the listener; any other button event (a release, or another
    button) emits nothing, leaves the capture as it is and lets the
    listener go on.  Hence over any sequence of button events after an
    activation - whether the callback sees them all or only those a
    running listener delivers - what is emitted is the position of the
    first left-button press, if there is one, and nothing else: never
    more than one signal; and the capture is still active afterwards
    exactly when no left-button press occurred. *)
Theorem one_shot_capture (evs : list button_event) (l : option bool) :
  (forall x y button pressed,
      MouseClickCapture._on_click x y button pressed
        (MouseClickCapture.Build l true)
      = if Button_eqb button left && pressed
        then (Some false, MouseClickCapture.Build l false, [(x, y)])
        else (None, MouseClickCapture.Build l true, []))
  /\ (let (self', emitted) :=
        call_on_click evs (MouseClickCapture.Build l true) in
      emitted = first_left_press evs
      /\ MouseClickCapture._active self' = negb (existsb is_left_press evs))
  /\ (let (self', emitted) :=
        deliver_all evs (MouseClickCapture.start
                           (MouseClickCapture.Build l false)) in
      emitted = first_left_press evs
      /\ MouseClickCapture._active self' = negb (existsb is_left_press evs)
      /\ MouseClickCapture._listener self'
         = Some (negb (existsb is_left_press evs)))
  /\ (List.length (first_left_press evs) <= 1)%nat.
Proof.
  split; [|split; [|split]].
  - intros x y button pressed. unfold MouseClickCapture._on_click. simpl.
    destruct (Button_eqb button left && pressed); reflexivity.
  - induction evs as [|[[[x y] b] p] evs IH].
    + simpl. auto.
    + unfold first_left_press. cbn [call_on_click find existsb is_left_press].
      unfold MouseClickCapture._on_click.
      cbn [MouseClickCapture._active negb MouseClickCapture._listener].
      destruct (Button_eqb b left && p) eqn:E.
      * rewrite call_on_click_inactive. simpl. auto.
      * destruct (call_on_click evs (MouseClickCapture.Build l true))
          as [self' emitted].
        simpl. exact IH.
  - unfold MouseClickCapture.start. cbn [MouseClickCapture._active].
    induction evs as [|[[[x y] b] p] evs IH].
    + simpl. auto.
    + unfold first_left_press. cbn [deliver_all find existsb is_left_press].
      unfold MouseClickCapture.deliver, MouseClickCapture._on_click.
      cbn [MouseClickCapture._active negb MouseClickCapture._listener].
      destruct (Button_eqb b left && p) eqn:E.
      * rewrite deliver_all_stopped by discriminate. simpl. auto.
      * destruct (deliver_all evs (MouseClickCapture.Build (Some true) true))
          as [self' emitted].
        simpl. exact IH.
  - unfold first_left_press. destruct (find is_left_press evs); simpl; lia.
Qed.

(** ** Further properties of the load path and of the configuration flow *)



(** A JSON object that lacks exactly one of the two top-level fields is
    completed in memory with the default for that field, put after the
    fields it has; the field that is present keeps its value, and the
    file is not rewritten. *)
Theorem load_repairs_partial (d0 : value) (content : string)
        (d : list (string * value)) :
  Json.loads content = Ret (VDict d) ->
  Py.dict_has d "mappings" <> Py.dict_has d "settings" ->
  let repaired :=
    if Py.dict_has d "mappings"
    then (d ++ [("settings",
                 VDict [ ("restore_mouse_position", VBool true);
                         ("require_foreground_window", VBool false);
                         ("target_window_title", VStr "Valeton") ])])%list
    else (d ++ [("mappings", VDict [])])%list in
  ConfigManager.load (ConfigManager.Build d0 (Text content))
  = (Ret tt, ConfigManager.Build (VDict repaired) (Text content))
  /\ (forall k, Py.dict_has d k = true ->
                Py.dict_get repaired k = Py.dict_get d k).
Proof.
  intros Hl Hne repaired. split.
  - unfold repaired.
    destruct (Py.dict_has d "mappings") eqn:Em,
             (Py.dict_has d "settings") eqn:Es; try congruence.
    + now apply load_repairs_settings.
    + now apply load_repairs_mappings.
  - intros k Hk. unfold repaired.
    assert (G : forall e, Py.dict_get (d ++ e) k = Py.dict_get d k).
    { intros e. unfold Py.dict_has in Hk. clear -Hk.
      induction d as [|[k' v'] d IH]; simpl in *; [discriminate|].
      destruct (String.eqb k' k); auto. }
    destruct (Py.dict_has d "mappings"); apply G.
Qed.

Lemma load_repairs_partial_witness :
  let content :=
    Json.dumps None (VDict [("mappings", VDict [("f1", coords_value (1, 2)%Z)])]) in
  fst (ConfigManager.load (ConfigManager.Build (VDict []) (Text content)))
  = Ret tt.
Proof.
  intros content.
  assert (Hl : Json.loads content
               = Ret (VDict [("mappings", VDict [("f1", coords_value (1, 2)%Z)])]))
    by (vm_compute; reflexivity).
  assert (Hne : Py.dict_has [("mappings", VDict [("f1", coords_value (1, 2)%Z)])]
                            "mappings"
                <> Py.dict_has [("mappings", VDict [("f1", coords_value (1, 2)%Z)])]
                               "settings")
    by (vm_compute; discriminate).
  destruct (load_repairs_partial (VDict []) content _ Hl Hne) as [H _].
  rewrite H. reflexivity.
Defined.

(** Both encodings the program writes - the compact one of the deep
    copy in [load] and the indented one of [save] - decode to the value
    that was encoded, for every value whose dicts hold each key once. *)
Theorem json_round_trip (v : value) :
  Py.well_keyed v = true ->
  Json.loads (Json.dumps None v) = Ret v
  /\ Json.loads (Json.dumps (Some 2%nat) v) = Ret v.
Proof. intros H. split; now apply JsonFacts.loads_dumps. Qed.

Lemma json_round_trip_witness :
  let v := VDict [("mappings", VDict [("f1", coords_value (-3, 40)%Z)]);
                  ("notes", VList [VNone; VBool true; VStr "a\b"])] in
  Json.loads (Json.dumps None v) = Ret v
  /\ Json.loads (Json.dumps (Some 2%nat) v) = Ret v.
Proof. intros v. apply (json_round_trip v). reflexivity. Defined.

(** The start-configure intent: refused with a notice while DISABLED;
    from NORMAL the machine goes to CONFIG_WAIT_KEY; in CONFIG_WAIT_KEY
    it stays there and only the prompt is shown again; from
    CONFIG_WAIT_CLICK the transition is rejected and nothing changes. *)
Theorem add_key_spec (w : AppController.t) :
  let (o, w') := _on_add_key w in
  o = Ret tt
  /\ match StateMachine._state (state_machine w) with
     | DISABLED =>
         w' = set_window (MainWindow.set_status StatusEnableFirst (window w)) w
     | NORMAL =>
         StateMachine._state (state_machine w') = CONFIG_WAIT_KEY
         /\ window w' = MainWindow.set_status StatusPressKey
                          (MainWindow.update_state CONFIG_WAIT_KEY (window w))
     | CONFIG_WAIT_KEY =>
         w' = set_window (MainWindow.set_status StatusPressKey (window w)) w
     | CONFIG_WAIT_CLICK => w' = w
     end
  /\ config w' = config w
  /\ _pending_key w' = _pending_key w
  /\ mouse_capture w' = mouse_capture w
  /\ desktop w' = desktop w.
Proof.
  destruct w as [cfg [st] kl mc [badge status table sel] pk dk].
  destruct st; cbn; repeat split; try reflexivity.
Qed.

Lemma dict_get_del_other d k k' :
  String.eqb k k' = false ->
  Py.dict_get (Py.dict_del d k) k' = Py.dict_get d k'.
Proof.
  intros Hne. induction d as [|[k0 v0] d IH]; simpl; auto.
  destruct (String.eqb k0 k) eqn:E0; simpl.
  - apply String.eqb_eq in E0. subst k0. now rewrite Hne.
  - now rewrite IH.
Qed.

Lemma dict_get_absent d k :
  existsb (String.eqb k) (map fst d) = false -> Py.dict_get d k = None.
Proof.
  induction d as [|[k0 v0] d IH]; simpl; auto.
  intros H. apply orb_false_iff in H. destruct H as [H1 H2].
  rewrite String.eqb_sym, H1. auto.
Qed.

Lemma dict_get_del_same d k :
  Py.distinct (map fst d) = true -> Py.dict_get (Py.dict_del d k) k = None.
Proof.
  induction d as [|[k0 v0] d IH]; simpl; auto.
  intros H. apply andb_true_iff in H. destruct H as [H1 H2].
  destruct (String.eqb k0 k) eqn:E0; simpl.
  - apply String.eqb_eq in E0. subst k0. apply dict_get_absent.
    now apply negb_true_iff.
  - rewrite E0. auto.
Qed.

Lemma remove_mapping_present c d m key :
  ConfigManager._data c = VDict d ->
  Py.dict_get d "mappings" = Some (VDict m) ->
  Py.dict_has m key = true ->
  let d' := VDict (Py.dict_set d "mappings" (VDict (Py.dict_del m key))) in
  ConfigManager.remove_mapping key c
  = (Ret true, ConfigManager.Build d' (Text (Json.dumps (Some 2%nat) d'))).
Proof.
  intros Hd Hm Hk. destruct c as [data f]. cbn [ConfigManager._data] in Hd.
  subst data.
  unfold ConfigManager.remove_mapping, bind, lift_outcome, ret,
    ConfigManager.data_setitem, ConfigManager.save, Py.getitem, Py.contains,
    Py.delitem, Py.setitem.
  cbn [ConfigManager._data]. rewrite Hm, Hk.
  cbn [ConfigManager._data]. rewrite Hm, Hk. reflexivity.
Qed.

Lemma remove_mapping_absent c d m key :
  ConfigManager._data c = VDict d ->
  Py.dict_get d "mappings" = Some (VDict m) ->
  Py.dict_has m key = false ->
  ConfigManager.remove_mapping key c = (Ret false, c).
Proof.
  intros Hd Hm Hk. destruct c as [data f]. cbn [ConfigManager._data] in Hd.
  subst data.
  unfold ConfigManager.remove_mapping, bind, lift_outcome, ret,
    Py.getitem, Py.contains.
  cbn [ConfigManager._data]. rewrite Hm, Hk. reflexivity.
Qed.

Lemma get_mapping_unbound c m key :
  section_of "mappings" c = Some m ->
  Py.dict_get m key = None ->
  ConfigManager.get_mapping key c = (Ret None, c).
Proof.
  intros Hm Hk. destruct (section_of_data _ _ _ Hm) as (d & Hd & Hg).
  unfold ConfigManager.get_mapping, bind, lift_outcome, ret, Py.getitem, Py.get.
  rewrite Hd, Hg, Hk. reflexivity.
Qed.

Lemma refresh_table_ok w m :
  section_of "mappings" (config w) = Some m ->
  entries_have_coords m = true ->
  _refresh_table w
  = (Ret tt,
     set_window
       (MainWindow.Build
          (MainWindow._mode_badge (window w)) (MainWindow._status (window w))
          (map row_of (MainWindow.sorted_items m)) None)
       w).
Proof.
  intros Hm He. destruct (section_of_data _ _ _ Hm) as (d & Hd & Hg).
  unfold _refresh_table, bind, on_config, on_window, zoom,
    MappingManager.get_all_mappings, ConfigManager.get_mappings, Py.get.
  rewrite Hd, Hg. cbn [Py.dict_copy].
  assert (Hc : set_config (config w) w = w) by (destruct w; reflexivity).
  rewrite Hc. rewrite refresh_mappings_ok by exact He. reflexivity.
Qed.

Lemma remove_mapping_ok w d m key :
  ConfigManager._data (config w) = VDict d ->
  Py.dict_get d "mappings" = Some (VDict m) ->
  entries_have_coords m = true ->
  Py.dict_has m key = true ->
  let d' := VDict (Py.dict_set d "mappings" (VDict (Py.dict_del m key))) in
  remove_mapping key w
  = (Ret true,
     set_window
       (MainWindow.Build
          (MainWindow._mode_badge (window w)) (MainWindow._status (window w))
          (map row_of (MainWindow.sorted_items (Py.dict_del m key))) None)
       (set_config
          (ConfigManager.Build d' (Text (Json.dumps (Some 2%nat) d'))) w)).
Proof.
  intros Hd Hm He Hk d'.
  unfold remove_mapping, on_config, zoom, MappingManager.remove_mapping.
  unfold bind at 1. unfold bind at 1. unfold bind at 1.
  rewrite (remove_mapping_present _ d m key Hd Hm Hk).
  fold d'. cbv beta iota zeta. unfold ret at 1.
  cbn [fst snd repeat for_each]. unfold bind at 1.
  rewrite (refresh_table_ok _ (Py.dict_del m key)).
  - destruct w; reflexivity.
  - destruct w. unfold section_of, d'. cbn. now rewrite dict_get_set_same.
  - now apply entries_have_coords_del.
Qed.

(** The remove intent on a store of the typed data model: without a
    selected row only a notice is shown; a selected key that is bound
    is taken out of the mappings (the other bindings and the settings
    kept), the file is rewritten and the table rebuilt; a selected key
    that is not bound changes nothing but the status line.  The machine
    state, the pending key, the capture and the desktop are left alone
    in every case. *)
Theorem remove_key_spec (w : AppController.t) (d m : list (string * value)) :
  ConfigManager._data (config w) = VDict d ->
  Py.dict_get d "mappings" = Some (VDict m) ->
  entries_have_coords m = true ->
  Py.distinct (map fst m) = true ->
  let (o, w') := _on_remove_key w in
  o = Ret tt
  /\ state_machine w' = state_machine w
  /\ _pending_key w' = _pending_key w
  /\ mouse_capture w' = mouse_capture w
  /\ desktop w' = desktop w
  /\ match MainWindow.selected_key (window w) with
     | None =>
         w' = set_window (MainWindow.set_status StatusSelectFirst (window w)) w
     | Some k =>
         if Py.dict_has m k then
           section_of "mappings" (config w') = Some (Py.dict_del m k)
           /\ ConfigManager.get_mapping k (config w') = (Ret None, config w')
           /\ section_of "settings" (config w') = section_of "settings" (config w)
           /\ ConfigManager._path (config w')
              = Text (Json.dumps (Some 2%nat) (ConfigManager._data (config w')))
           /\ MainWindow._table (window w')
              = map row_of (MainWindow.sorted_items (Py.dict_del m k))
           /\ MainWindow._status (window w') = StatusRemoved k
         else
           w' = set_window (MainWindow.set_status (StatusNotFound k) (window w)) w
     end.
Proof.
  intros Hd Hm He Hdist.
  unfold _on_remove_key, gets. unfold bind at 1.
  destruct (MainWindow.selected_key (window w)) as [k|] eqn:Esel.
  - destruct (Py.dict_has m k) eqn:Ek.
    + unfold bind. rewrite (remove_mapping_ok w d m k Hd Hm He Ek).
      destruct w as [[data f] sm kl mc win pk dk].
      cbn [config ConfigManager._data] in Hd. subst data.
      unfold set_status, on_window, zoom, modify.
      cbn [set_window set_config config state_machine keyboard_listener
           mouse_capture window _pending_key desktop fst snd
           MainWindow.set_status MainWindow._mode_badge MainWindow._status
           MainWindow._table MainWindow.selected
           ConfigManager._data ConfigManager._path].
      assert (Hsec : forall f',
                 section_of "mappings"
                   (ConfigManager.Build
                      (VDict (Py.dict_set d "mappings" (VDict (Py.dict_del m k))))
                      f')
                 = Some (Py.dict_del m k)).
      { intros f'. unfold section_of. cbn [ConfigManager._data].
        now rewrite dict_get_set_same. }
      repeat split.
      * apply Hsec.
      * apply (get_mapping_unbound _ (Py.dict_del m k)); [apply Hsec|].
        now apply dict_get_del_same.
      * unfold section_of. cbn [ConfigManager._data].
        now rewrite dict_get_set_other by discriminate.
    + unfold remove_mapping, on_config, zoom, MappingManager.remove_mapping.
      unfold bind.
      rewrite (remove_mapping_absent _ d m k Hd Hm Ek).
      destruct w; cbn. repeat split.
  - destruct w; cbn. repeat split.
Qed.

Lemma remove_key_spec_witness :
  let w := AppController.Build
             (ConfigManager.Build
                (config_value [("f1", (1, 2)%Z); ("f2", (3, 4)%Z)]
                              (BuildSettings true false "Valeton")) Missing)
             (StateMachine.Build NORMAL)
             (KeyboardListener.Build (Some tt) true)
             (MouseClickCapture.Build None false)
             (MainWindow.Build NORMAL StatusReady [] (Some "f1"))
             None
             (action_executor.BuildDesktop (VInt 0, VInt 0) [] false None) in
  let w' := snd (_on_remove_key w) in
  section_of "mappings" (config w') = Some (mappings_value [("f2", (3, 4)%Z)])
  /\ MainWindow._status (window w') = StatusRemoved "f1".
Proof.
  intros w w'.
  pose proof (remove_key_spec w _ (mappings_value [("f1", (1, 2)%Z); ("f2", (3, 4)%Z)])
                eq_refl eq_refl eq_refl eq_refl) as H.
  unfold w'. destruct (_on_remove_key w) as [o w1]. cbn [snd].
  destruct H as (_ & _ & _ & _ & _ & H).
  change (MainWindow.selected_key (window w)) with (Some "f1") in H.
  cbv iota in H.
  change (Py.dict_has (mappings_value [("f1", (1, 2)%Z); ("f2", (3, 4)%Z)]) "f1")
    with true in H.
  cbv iota in H.
  destruct H as (H1 & _ & _ & _ & _ & H6). split; assumption.
Defined.

Lemma update_setting_ok c d s key v :
  ConfigManager._data c = VDict d ->
  Py.dict_get d "settings" = Some (VDict s) ->
  let d' := VDict (Py.dict_set d "settings" (VDict (Py.dict_set s key v))) in
  ConfigManager.update_setting key v c
  = (Ret tt, ConfigManager.Build d' (Text (Json.dumps (Some 2%nat) d'))).
Proof.
  intros Hd Hs d'. destruct c as [data f]. cbn [ConfigManager._data] in Hd.
  subst data.
  unfold ConfigManager.update_setting, bind, lift_outcome, ConfigManager.save,
    Py.setdefault, Py.setitem.
  cbn [ConfigManager._data]. rewrite Hs. reflexivity.
Qed.

(** A settings toggle from the window, on a store whose settings are a
    dict: the value is stored under its key (the other settings and the
    mappings kept), the file is rewritten, [get_setting] answers the new
    value, and nothing else changes but the status line. *)
Theorem setting_changed_spec (w : AppController.t) (d s : list (string * value))
        (key : string) (v : value) :
  ConfigManager._data (config w) = VDict d ->
  Py.dict_get d "settings" = Some (VDict s) ->
  let (o, w') := _on_setting_changed key v w in
  o = Ret tt
  /\ section_of "settings" (config w') = Some (Py.dict_set s key v)
  /\ (forall default,
        ConfigManager.get_setting key default (config w') = (Ret v, config w'))
  /\ section_of "mappings" (config w') = section_of "mappings" (config w)
  /\ ConfigManager._path (config w')
     = Text (Json.dumps (Some 2%nat) (ConfigManager._data (config w')))
  /\ window w' = MainWindow.set_status (StatusSettingUpdated key v) (window w)
  /\ state_machine w' = state_machine w
  /\ _pending_key w' = _pending_key w
  /\ keyboard_listener w' = keyboard_listener w
  /\ mouse_capture w' = mouse_capture w
  /\ desktop w' = desktop w.
Proof.
  intros Hd Hs.
  unfold _on_setting_changed, on_config, zoom, bind.
  rewrite (update_setting_ok _ d s key v Hd Hs).
  destruct w as [[data f] sm kl mc win pk dk].
  cbn [config ConfigManager._data] in Hd. subst data.
  unfold set_status, on_window, zoom, modify.
  cbn [set_window set_config config state_machine keyboard_listener
       mouse_capture window _pending_key desktop fst snd
       ConfigManager._data ConfigManager._path].
  assert (Hsec : forall f',
             section_of "settings"
               (ConfigManager.Build
                  (VDict (Py.dict_set d "settings" (VDict (Py.dict_set s key v))))
                  f')
             = Some (Py.dict_set s key v)).
  { intros f'. unfold section_of. cbn [ConfigManager._data].
    now rewrite dict_get_set_same. }
  repeat split.
  - apply Hsec.
  - intros default.
    rewrite (get_setting_found _ (Py.dict_set s key v) key default (Hsec _)).
    now rewrite dict_get_set_same.
  - unfold section_of. cbn [ConfigManager._data].
    now rewrite dict_get_set_other by discriminate.
Qed.

Lemma setting_changed_spec_witness :
  let w := AppController.Build
             (ConfigManager.Build DEFAULT_CONFIG Missing)
             (StateMachine.Build NORMAL)
             (KeyboardListener.Build (Some tt) true)
             (MouseClickCapture.Build None false)
             (MainWindow.Build NORMAL StatusReady [] None)
             None
             (action_executor.BuildDesktop (VInt 0, VInt 0) [] false None) in
  let w' := snd (_on_setting_changed "require_foreground_window" (VBool true) w) in
  ConfigManager.get_setting "require_foreground_window" (VBool false) (config w')
  = (Ret (VBool true), config w').
Proof.
  intros w w'.
  pose proof (setting_changed_spec w _ _ "require_foreground_window" (VBool true)
                eq_refl eq_refl) as H.
  unfold w'.
  destruct (_on_setting_changed "require_foreground_window" (VBool true) w)
    as [o w1].
  cbn [snd]. destruct H as (_ & _ & H & _). apply H.
Defined.
(** ** Frames: what a computation leaves related *)

Section Frames.

Context {S : Type} (R : S -> S -> Prop).
Hypothesis R_refl : forall s, R s s.
Hypothesis R_trans : forall a b c, R a b -> R b c -> R a c.

Lemma keeps_ret {A} (a : A) : keeps R (ret a).
Proof. intros s. apply R_refl. Qed.

Lemma keeps_gets {A} (f : S -> A) : keeps R (gets f).
Proof. intros s. apply R_refl. Qed.

Lemma keeps_bind {A B} (m : M S A) (k : A -> M S B) :
  keeps R m -> (forall a, keeps R (k a)) -> keeps R (bind m k).
Proof.
  intros Hm Hk s. unfold bind. specialize (Hm s).
  destruct (m s) as [[a|e|] s1]; simpl in *; auto.
  eapply R_trans; [exact Hm | apply Hk].
Qed.

Lemma keeps_for_each {A} (l : list A) (f : A -> M S unit) :
  (forall a, keeps R (f a)) -> keeps R (for_each l f).
Proof.
  intros Hf. induction l as [|a l IH]; simpl.
  - apply keeps_ret.
  - apply keeps_bind; auto.
Qed.

Lemma keeps_if {A} (b : bool) (m1 m2 : M S A) :
  keeps R m1 -> keeps R m2 -> keeps R (if b then m1 else m2).
Proof. destruct b; auto. Qed.

End Frames.

(** ** The configuration flow over whole runs *)

Lemma same_flow_refl w : same_flow w w.
Proof. repeat split. Qed.

Lemma same_flow_trans w1 w2 w3 :
  same_flow w1 w2 -> same_flow w2 w3 -> same_flow w1 w3.
Proof.
  intros (A1 & A2 & A3 & A4) (B1 & B2 & B3 & B4).
  repeat split; congruence.
Qed.

Lemma same_flow_invariant w w' :
  same_flow w w' -> flow_invariant w -> flow_invariant w'.
Proof.
  intros (A1 & A2 & A3 & A4) (I1 & I2 & I3 & I4).
  unfold flow_invariant. rewrite A1, A2, A3, A4. auto.
Qed.

Lemma keeps_flow_ret {A} (a : A) : keeps_flow (ret a).
Proof. apply keeps_ret, same_flow_refl. Qed.

Lemma keeps_flow_bind {A B} (m : M AppController.t A)
      (k : A -> M AppController.t B) :
  keeps_flow m -> (forall a, keeps_flow (k a)) -> keeps_flow (bind m k).
Proof. apply keeps_bind, same_flow_trans. Qed.

Lemma keeps_flow_gets {A} (f : AppController.t -> A) : keeps_flow (gets f).
Proof. apply keeps_gets, same_flow_refl. Qed.

Lemma keeps_flow_on_config {A} (m : M ConfigManager.t A) :
  keeps_flow (on_config m).
Proof.
  intros w. unfold on_config, zoom. destruct (m (config w)) as [o c].
  destruct w; repeat split.
Qed.

Lemma keeps_flow_for_each {A} (l : list A) (f : A -> M AppController.t unit) :
  (forall a, keeps_flow (f a)) -> keeps_flow (for_each l f).
Proof. apply keeps_for_each; [apply same_flow_refl | apply same_flow_trans]. Qed.

(** Filling the table leaves the badge alone, also when it fails. *)
Lemma fill_badge items win :
  MainWindow._mode_badge (snd (MainWindow.fill items win))
  = MainWindow._mode_badge win.
Proof.
  revert win. induction items as [|[key coords] items IH]; intros win; auto.
  cbn [MainWindow.fill]. unfold bind, modify, lift_outcome.
  destruct (Py.getitem coords "x") as [x|e|]; auto.
  destruct (Py.getitem coords "y") as [y|e|]; auto.
  rewrite IH. reflexivity.
Qed.

Lemma keeps_flow_refresh_table : keeps_flow _refresh_table.
Proof.
  unfold _refresh_table. apply keeps_flow_bind.
  - apply keeps_flow_on_config.
  - intros mappings w. unfold on_window, zoom.
    pose proof (fill_badge (MainWindow.sorted_items mappings)
                  (MainWindow.Build (MainWindow._mode_badge (window w))
                                    (MainWindow._status (window w)) [] None))
      as Hb.
    unfold MainWindow.refresh_mappings, bind, modify.
    destruct (MainWindow.fill _ _) as [o win']. simpl in Hb.
    destruct w; repeat split. exact Hb.
Qed.

Lemma keeps_flow_set_status text : keeps_flow (set_status text).
Proof. intros w. destruct w; repeat split. Qed.

Lemma keeps_flow_add_mapping key x y : keeps_flow (add_mapping key x y).
Proof.
  unfold add_mapping. apply keeps_flow_bind.
  - apply keeps_flow_on_config.
  - intros n. apply keeps_flow_for_each. intros _.
    apply keeps_flow_refresh_table.
Qed.

Lemma keeps_flow_remove_key : keeps_flow _on_remove_key.
Proof.
  unfold _on_remove_key. apply keeps_flow_bind; [apply keeps_flow_gets|].
  intros [k|]; [|apply keeps_flow_set_status].
  apply keeps_flow_bind.
  - unfold remove_mapping. apply keeps_flow_bind; [apply keeps_flow_on_config|].
    intros r. apply keeps_flow_bind; [|intros; apply keeps_flow_ret].
    apply keeps_flow_for_each. intros _. apply keeps_flow_refresh_table.
  - intros []; apply keeps_flow_set_status.
Qed.

Lemma keeps_flow_setting_changed key v : keeps_flow (_on_setting_changed key v).
Proof.
  unfold _on_setting_changed. apply keeps_flow_bind.
  - apply keeps_flow_on_config.
  - intros _. apply keeps_flow_set_status.
Qed.

(** A captured click handled to the end in CONFIG_WAIT_CLICK leaves the
    machine in NORMAL with no pending key. *)
Lemma mouse_clicked_completes x y w w' :
  StateMachine._state (state_machine w) = CONFIG_WAIT_CLICK ->
  _on_mouse_clicked x y w = (Ret tt, w') ->
  StateMachine._state (state_machine w') = NORMAL
  /\ MainWindow._mode_badge (window w') = NORMAL
  /\ _pending_key w' = None
  /\ mouse_capture w' = mouse_capture w.
Proof.
  intros Hst.
  assert (Htr : forall w1,
             StateMachine._state (state_machine w1) = CONFIG_WAIT_CLICK ->
             _pending_key w1 = None ->
             forall w2,
               bind (transition NORMAL) (fun _ => ret tt) w1 = (Ret tt, w2) ->
               StateMachine._state (state_machine w2) = NORMAL
               /\ MainWindow._mode_badge (window w2) = NORMAL
               /\ _pending_key w2 = None
               /\ mouse_capture w2 = mouse_capture w1).
  { intros [c1 [s1] k1 m1 win1 p1 d1]. cbn. intros -> -> w2 [= <-].
    repeat split. }
  destruct w as [cfg [st] kl mc win pk dk].
  cbn [state_machine StateMachine._state] in Hst. subst st.
  unfold _on_mouse_clicked, state, gets.
  unfold bind at 1. cbn [state_machine StateMachine._state AppState_eqb negb].
  unfold bind at 1. cbn [_pending_key].
  unfold bind at 1, modify. cbn [set_pending_key config state_machine
    keyboard_listener mouse_capture window desktop].
  destruct pk as [k|].
  - unfold bind at 1. unfold bind at 1.
    pose proof (keeps_flow_add_mapping k x y
                  (Build cfg (StateMachine.Build CONFIG_WAIT_CLICK)
                         kl mc win None dk)) as Hk.
    destruct (add_mapping k x y _) as [o1 w1]. simpl in Hk.
    destruct Hk as (K1 & K2 & K3 & K4).
    destruct o1 as [[]|e|]; try discriminate.
    pose proof (keeps_flow_set_status (StatusMappingSaved k x y) w1) as Hs.
    destruct (set_status (StatusMappingSaved k x y) w1) as [o2 w2] eqn:E2.
    simpl in Hs. destruct Hs as (S1 & S2 & S3 & S4).
    assert (o2 = Ret tt) by (unfold set_status, on_window, zoom, modify in E2;
                             now injection E2).
    subst o2. intros H.
    destruct (Htr w2) with (w2 := w') as (R1 & R2 & R3 & R4); auto.
    + rewrite S1, K1. reflexivity.
    + rewrite S3, K3. reflexivity.
    + repeat split; auto. rewrite R4, S2, K2. reflexivity.
  - unfold bind at 1. unfold ret at 1. intros H.
    eapply Htr in H; [exact H | reflexivity | reflexivity].
Qed.

(** The key captured in CONFIG_WAIT_KEY is pending when the capture
    starts. *)
Lemma key_captured_keeps_invariant key_name w w' :
  StateMachine._state (state_machine w) = CONFIG_WAIT_KEY ->
  flow_invariant w ->
  _on_key_pressed key_name w = (Ret tt, w') -> flow_invariant w'.
Proof.
  destruct w as [cfg [st] kl [l a] win pk dk].
  cbn [state_machine StateMachine._state]. intros -> (I1 & I2 & I3 & I4).
  cbn in I2. subst a. cbn. intros [= <-].
  repeat split; try discriminate.
Qed.

Lemma toggle_keeps_invariant w w' :
  flow_invariant w -> _on_toggle_system w = (Ret tt, w') -> flow_invariant w'.
Proof.
  destruct w as [cfg [st] kl [l a] win pk dk].
  intros (I1 & I2 & I3 & I4). cbn in I1, I2, I3, I4.
  destruct st; cbn; intros [= <-]; cbn; repeat split; auto; discriminate.
Qed.

Lemma add_key_keeps_invariant w w' :
  flow_invariant w -> _on_add_key w = (Ret tt, w') -> flow_invariant w'.
Proof.
  destruct w as [cfg [st] kl [l a] win pk dk].
  intros (I1 & I2 & I3 & I4). cbn in I1, I2, I3, I4.
  destruct st; cbn; intros [= <-]; cbn; repeat split; auto; discriminate.
Qed.

(** Every handler keeps the flow invariant when it returns normally. *)
Lemma handle_keeps_invariant e w w' :
  flow_invariant w -> handle e w = (Ret tt, w') -> flow_invariant w'.
Proof.
  intros Hinv Hstep. destruct e as [key|x y b p| | | |key v|sel]; simpl in Hstep.
  - (* a key goes down *)
    unfold key_event, gets, bind, KeyboardListener._on_press in Hstep.
    destruct (KeyboardListener._running (keyboard_listener w)); simpl in Hstep;
      [|injection Hstep as <-; exact Hinv].
    unfold bind in Hstep.
    destruct (_on_key_pressed (normalise_key key) w) as [o w1] eqn:E.
    assert (o = Ret tt /\ w1 = w') as [-> ->]
        by (destruct o as [[]|e|]; cbv [ret for_each bind] in Hstep;
            split; congruence).
    clear Hstep.
    destruct (StateMachine._state (state_machine w)) eqn:Est.
    + pose proof (normal_dispatch_cases w (normalise_key key) Est) as H.
      rewrite E in H.
      destruct H as [-> | (x & y & _ & _ & Hf & _)]; [exact Hinv|].
      apply (same_flow_invariant w); [|exact Hinv].
      destruct Hf as (F1 & F2 & F3 & F4 & F5 & F6 & _).
      repeat split; auto.
    + exact (key_captured_keeps_invariant _ _ _ Est Hinv E).
    + destruct w as [cfg [st] kl mc win pk dk]. simpl in Est. subst st.
      cbn in E. injection E as <-. exact Hinv.
    + destruct w as [cfg [st] kl mc win pk dk]. simpl in Est. subst st.
      cbn in E. injection E as <-. exact Hinv.
  - (* a mouse button event *)
    destruct Hinv as (I1 & I2 & I3 & I4).
    unfold click_event, MouseClickCapture.deliver,
      MouseClickCapture._on_click in Hstep.
    destruct w as [cfg [st] kl [l a] win pk dk].
    cbn [mouse_capture MouseClickCapture._listener MouseClickCapture._active
         state_machine StateMachine._state window _pending_key] in *.
    destruct l as [[|]|]; try (injection Hstep as <-; repeat split; auto).
    destruct a; cbn [negb] in Hstep.
    + destruct (Button_eqb b left && p); cbn [for_each] in Hstep.
      * (* the one left press *)
        destruct st; try discriminate I2.
        unfold bind in Hstep. cbn [fst snd set_mouse_capture config
          state_machine keyboard_listener mouse_capture window _pending_key
          desktop] in Hstep.
        destruct (_on_mouse_clicked x y _) as [o w1] eqn:E.
        assert (o = Ret tt /\ w1 = w') as [-> ->]
            by (destruct o as [[]|e|]; cbv [ret for_each bind] in Hstep;
            split; congruence).
        apply mouse_clicked_completes in E; [|reflexivity].
        destruct E as (R1 & R2 & R3 & R4).
        unfold flow_invariant. rewrite R1, R2, R3, R4. cbn.
        repeat split; discriminate.
      * injection Hstep as <-. repeat split; auto.
    + injection Hstep as <-. cbn. repeat split; auto; discriminate.
  - (* start configure *)
    exact (add_key_keeps_invariant _ _ Hinv Hstep).
  - (* remove selected *)
    pose proof (keeps_flow_remove_key w) as H. rewrite Hstep in H.
    exact (same_flow_invariant _ _ H Hinv).
  - (* toggle *)
    exact (toggle_keeps_invariant _ _ Hinv Hstep).
  - (* a setting changed *)
    pose proof (keeps_flow_setting_changed key v w) as H. rewrite Hstep in H.
    exact (same_flow_invariant _ _ H Hinv).
  - (* a row selected *)
    injection Hstep as <-. apply (same_flow_invariant w); [|exact Hinv].
    destruct w; repeat split.
Qed.


(** ** The store over whole runs *)

Lemma store_kept_refl c : store_kept c c.
Proof. intros H; exact H. Qed.

Lemma store_kept_trans a b c : store_kept a b -> store_kept b c -> store_kept a c.
Proof. unfold store_kept. auto. Qed.

Lemma same_store_refl w : same_store w w.
Proof. apply store_kept_refl. Qed.

Lemma same_store_trans a b c : same_store a b -> same_store b c -> same_store a c.
Proof. unfold same_store. intros. eapply store_kept_trans; eauto. Qed.

Lemma store_ok_inv c :
  store_ok c = true ->
  exists d m, ConfigManager._data c = VDict d
              /\ Py.dict_get d "mappings" = Some (VDict m)
              /\ entries_have_coords m = true.
Proof.
  unfold store_ok, section_of. intros H.
  destruct (ConfigManager._data c) as [| | | | |d]; try discriminate H.
  destruct (Py.dict_get d "mappings") as [[| | | | |m]|] eqn:Hm;
    try discriminate H.
  exists d, m. auto.
Qed.

Lemma keeps_store_set_mapping key x y :
  keeps store_kept (ConfigManager.set_mapping key x y).
Proof.
  intros c H. destruct (store_ok_inv c H) as (d & m & Hd & Hm & He).
  rewrite (set_mapping_ok c d m key x y Hd Hm). cbn [snd].
  unfold store_ok. rewrite section_of_with_binding.
  apply entries_have_coords_set; auto.
Qed.

Lemma keeps_store_remove_mapping key :
  keeps store_kept (ConfigManager.remove_mapping key).
Proof.
  intros c H. destruct (store_ok_inv c H) as (d & m & Hd & Hm & He).
  destruct c as [data f]. cbn [ConfigManager._data] in Hd. subst data.
  unfold ConfigManager.remove_mapping, bind, lift_outcome, ret,
    ConfigManager.data_setitem, ConfigManager.save, Py.getitem, Py.contains,
    Py.delitem, Py.setitem.
  cbn [ConfigManager._data]. rewrite Hm.
  destruct (Py.dict_has m key) eqn:Ek; cbn [snd]; [|exact H].
  cbn [ConfigManager._data]. rewrite Hm, Ek.
  unfold store_ok, section_of, ConfigManager.set_path, ConfigManager.set_data.
  cbn [ConfigManager._data snd]. rewrite dict_get_set_same.
  now apply entries_have_coords_del.
Qed.

Lemma keeps_store_update_setting key v :
  keeps store_kept (ConfigManager.update_setting key v).
Proof.
  intros c H. destruct (store_ok_inv c H) as (d & m & Hd & Hm & He).
  destruct c as [data f]. cbn [ConfigManager._data] in Hd. subst data.
  unfold ConfigManager.update_setting, bind, lift_outcome,
    ConfigManager.save, Py.setdefault, Py.setitem.
  cbn [ConfigManager._data fst snd].
  destruct (Py.dict_get d "settings") as [s|] eqn:Es; cbn [fst snd].
  - destruct s; try exact H. cbn [snd].
    unfold store_ok, section_of, ConfigManager.set_path, ConfigManager.set_data.
    cbn [ConfigManager._data].
    rewrite dict_get_set_other by discriminate. now rewrite Hm.
  - unfold store_ok, section_of, ConfigManager.set_path, ConfigManager.set_data.
    cbn [ConfigManager._data].
    rewrite !dict_get_set_other by discriminate. now rewrite Hm.
Qed.

Lemma keeps_store_reads {A} (m : M ConfigManager.t A) :
  (forall c, snd (m c) = c) -> keeps store_kept m.
Proof. intros Hm c. rewrite Hm. apply store_kept_refl. Qed.

Lemma get_mappings_reads c : snd (ConfigManager.get_mappings c) = c.
Proof.
  unfold ConfigManager.get_mappings.
  destruct (Py.get (ConfigManager._data c) "mappings" (VDict [])); reflexivity.
Qed.

Lemma keeps_store_on_config {A} (m : M ConfigManager.t A) :
  keeps store_kept m -> keeps same_store (on_config m).
Proof.
  intros Hm w. unfold on_config, zoom, same_store. specialize (Hm (config w)).
  destruct (m (config w)) as [o c]. destruct w; exact Hm.
Qed.

Lemma keeps_store_on_window {A} (m : M MainWindow.t A) :
  keeps same_store (on_window m).
Proof.
  intros w. unfold on_window, zoom. destruct (m (window w)) as [o win].
  destruct w; apply store_kept_refl.
Qed.

Lemma keeps_store_on_desktop {A} (m : M action_executor.Desktop A) :
  keeps same_store (on_desktop m).
Proof.
  intros w. unfold on_desktop, zoom. destruct (m (desktop w)) as [o dk].
  destruct w; apply store_kept_refl.
Qed.

Lemma keeps_store_modify (f : AppController.t -> AppController.t) :
  (forall w, config (f w) = config w) -> keeps same_store (modify f).
Proof.
  intros Hf w. unfold modify, same_store. cbn [snd]. rewrite Hf.
  apply store_kept_refl.
Qed.

(** One step through a [bind] of the controller. *)
Ltac store_bind :=
  apply (keeps_bind same_store same_store_trans).

(** A leaf that does not touch the store. *)
Ltac store_step :=
  first
    [ apply (keeps_ret same_store same_store_refl)
    | apply (keeps_gets same_store same_store_refl)
    | apply keeps_store_on_window
    | apply keeps_store_on_desktop
    | apply (keeps_if same_store)
    | apply (keeps_for_each same_store same_store_refl same_store_trans)
    | apply (keeps_bind same_store same_store_trans) ].

Lemma keeps_store_set_status text : keeps same_store (set_status text).
Proof. apply keeps_store_on_window. Qed.

Lemma keeps_store_transition new_state : keeps same_store (transition new_state).
Proof.
  intros w. unfold transition.
  destruct (StateMachine.transition new_state (state_machine w))
    as [[ok sm] emitted].
  apply (same_store_trans _ (set_state_machine sm w)).
  - destruct w; apply store_kept_refl.
  - assert (H : keeps same_store
                  (for_each emitted _on_state_changed ;; ret ok)).
    { store_bind; [|intros; store_step].
      apply (keeps_for_each same_store same_store_refl same_store_trans).
      intros s. apply keeps_store_on_window. }
    apply H.
Qed.

Lemma keeps_store_refresh_table : keeps same_store _refresh_table.
Proof.
  unfold _refresh_table. store_bind.
  - apply keeps_store_on_config, keeps_store_reads, get_mappings_reads.
  - intros mappings. apply keeps_store_on_window.
Qed.

Lemma keeps_store_get_setting key default :
  keeps same_store (get_setting key default).
Proof.
  apply keeps_store_on_config, keeps_store_reads, get_setting_reads.
Qed.

Lemma keeps_store_key_pressed key_name :
  keeps same_store (_on_key_pressed key_name).
Proof.
  unfold _on_key_pressed, state.
  store_bind; [store_step|]. intros st.
  apply keeps_if; [|apply keeps_if; [|store_step]].
  - store_bind; [apply keeps_store_modify; reflexivity|]. intros _.
    store_bind; [apply keeps_store_transition|]. intros _.
    store_bind; [apply keeps_store_set_status|]. intros _.
    apply keeps_store_modify. reflexivity.
  - store_bind.
    { apply keeps_store_on_config, keeps_store_reads, get_mapping_reads. }
    intros [[x y]|]; [|store_step].
    store_bind; [apply keeps_store_get_setting|]. intros required.
    store_bind.
    { apply keeps_if; [|store_step].
      store_bind; [apply keeps_store_get_setting|]. intros title.
      apply keeps_store_on_desktop. }
    intros in_focus. apply keeps_if; [store_step|].
    store_bind; [apply keeps_store_get_setting|]. intros restore.
    store_bind; [apply keeps_store_on_desktop|]. intros _.
    apply keeps_store_set_status.
Qed.

Lemma keeps_store_add_mapping key x y : keeps same_store (add_mapping key x y).
Proof.
  unfold add_mapping. store_bind.
  - apply keeps_store_on_config. unfold MappingManager.add_mapping.
    apply (keeps_bind store_kept store_kept_trans).
    + apply keeps_store_set_mapping.
    + intros _. apply (keeps_ret store_kept store_kept_refl).
  - intros n. apply (keeps_for_each same_store same_store_refl same_store_trans).
    intros _. apply keeps_store_refresh_table.
Qed.

Lemma keeps_store_mouse_clicked x y : keeps same_store (_on_mouse_clicked x y).
Proof.
  unfold _on_mouse_clicked, state.
  store_bind; [store_step|]. intros st.
  apply keeps_if; [store_step|].
  store_bind; [store_step|]. intros key.
  store_bind; [apply keeps_store_modify; reflexivity|]. intros _.
  store_bind.
  { destruct key as [k|]; [|store_step].
    store_bind; [apply keeps_store_add_mapping|]. intros _.
    apply keeps_store_set_status. }
  intros _. store_bind; [apply keeps_store_transition|]. intros _. store_step.
Qed.

Lemma keeps_store_remove_key : keeps same_store _on_remove_key.
Proof.
  unfold _on_remove_key. store_bind; [store_step|].
  intros [k|]; [|apply keeps_store_set_status].
  store_bind.
  - unfold remove_mapping. store_bind.
    + apply keeps_store_on_config. unfold MappingManager.remove_mapping.
      apply (keeps_bind store_kept store_kept_trans).
      * apply keeps_store_remove_mapping.
      * intros []; apply (keeps_ret store_kept store_kept_refl).
    + intros r. store_bind; [|intros; store_step].
      apply (keeps_for_each same_store same_store_refl same_store_trans).
      intros _. apply keeps_store_refresh_table.
  - intros []; apply keeps_store_set_status.
Qed.

Lemma keeps_store_add_key : keeps same_store _on_add_key.
Proof.
  unfold _on_add_key, state. store_bind; [store_step|]. intros st.
  apply keeps_if; [apply keeps_store_set_status|].
  store_bind; [apply keeps_store_transition|].
  intros []; [apply keeps_store_set_status | store_step].
Qed.

Lemma keeps_store_toggle_system : keeps same_store _on_toggle_system.
Proof.
  unfold _on_toggle_system. store_bind; [store_step|]. intros disabled.
  apply keeps_if.
  - store_bind; [apply keeps_store_transition|]. intros _.
    apply keeps_store_set_status.
  - store_bind; [store_step|]. intros normal. apply keeps_if; [|store_step].
    store_bind; [apply keeps_store_transition|]. intros _.
    apply keeps_store_set_status.
Qed.

Lemma keeps_store_setting_changed key v :
  keeps same_store (_on_setting_changed key v).
Proof.
  unfold _on_setting_changed. store_bind.
  - apply keeps_store_on_config, keeps_store_update_setting.
  - intros _. apply keeps_store_set_status.
Qed.

Lemma keeps_store_handle e : keeps same_store (handle e).
Proof.
  destruct e as [key|x y b p| | | |key v|sel]; cbn [handle].
  - unfold key_event. store_bind; [store_step|]. intros names.
    apply (keeps_for_each same_store same_store_refl same_store_trans).
    apply keeps_store_key_pressed.
  - intros w. unfold click_event.
    destruct (MouseClickCapture.deliver x y b p (mouse_capture w))
      as [mc emitted].
    apply (same_store_trans _ (set_mouse_capture mc w)).
    + destruct w; apply store_kept_refl.
    + apply (keeps_for_each same_store same_store_refl same_store_trans).
      intros xy. apply keeps_store_mouse_clicked.
  - apply keeps_store_add_key.
  - apply keeps_store_remove_key.
  - apply keeps_store_toggle_system.
  - apply keeps_store_setting_changed.
  - apply keeps_store_on_window.
Qed.

(** ** Whole runs *)

(** The stores the program starts from are of the typed data model: the
    default configuration, and any configuration of bindings and
    settings. *)
Lemma store_ok_default f :
  store_ok (ConfigManager.Build DEFAULT_CONFIG f) = true.
Proof. reflexivity. Qed.

Lemma store_ok_config_value m s f :
  store_ok (ConfigManager.Build (config_value m s) f) = true.
Proof.
  unfold store_ok, section_of, config_value. cbn.
  unfold entries_have_coords, mappings_value.
  induction m as [|[k xy] m IH]; cbn; auto.
Qed.

Lemma reachable_flow w0 w :
  flow_invariant w0 -> reachable w0 w -> flow_invariant w.
Proof.
  intros H0 Hr. induction Hr as [|w e w' Hr IH Hstep]; [exact H0|].
  eapply handle_keeps_invariant; eauto.
Qed.

Lemma reachable_store w0 w :
  store_ok (config w0) = true -> reachable w0 w -> store_ok (config w) = true.
Proof.
  intros H0 Hr. induction Hr as [|w e w' Hr IH Hstep]; [exact H0|].
  pose proof (keeps_store_handle e w IH) as H. now rewrite Hstep in H.
Qed.

(** Over every run that starts with the flow invariant (as the
    constructor leaves things: NORMAL shown, capture idle), the
    invariant holds throughout; in particular whenever the machine is in
    CONFIG_WAIT_CLICK a key is pending, so the branch of
    [_on_mouse_clicked] for an empty pending key is never taken. *)
Theorem flow_invariant_reachable (w0 w : AppController.t) :
  flow_invariant w0 -> reachable w0 w ->
  flow_invariant w
  /\ (StateMachine._state (state_machine w) = CONFIG_WAIT_CLICK ->
      exists k, _pending_key w = Some k).
Proof.
  intros H0 Hr. pose proof (reachable_flow _ _ H0 Hr) as Hinv.
  split; [exact Hinv|].
  intros Hst. destruct Hinv as (_ & _ & _ & I4).
  specialize (I4 Hst). destruct (_pending_key w) as [k|]; [eauto|contradiction].
Qed.

Lemma flow_invariant_reachable_witness :
  let w0 := AppController.Build
              (ConfigManager.Build DEFAULT_CONFIG Missing)
              (StateMachine.Build NORMAL)
              (KeyboardListener.Build (Some tt) true)
              (MouseClickCapture.Build None false)
              (MainWindow.Build NORMAL StatusReady [] None)
              None
              (action_executor.BuildDesktop (VInt 0, VInt 0) [] false None) in
  let w2 := snd (handle (KeyDown (Key "space"))
                        (snd (handle AddKeyRequested w0))) in
  exists k, _pending_key w2 = Some k.
Proof.
  intros w0 w2.
  assert (H0 : flow_invariant w0) by (repeat split; discriminate).
  assert (Hr : reachable w0 w2).
  { apply (reachable_step w0 (snd (handle AddKeyRequested w0))
                          (KeyDown (Key "space"))).
    - apply (reachable_step w0 w0 AddKeyRequested).
      + apply reachable_start.
      + reflexivity.
    - reflexivity. }
  exact (proj2 (flow_invariant_reachable w0 w2 H0 Hr) eq_refl).
Defined.



(** In every state reached from a start that has the flow invariant and
    a store of the typed data model, if the machine is in
    CONFIG_WAIT_CLICK then a key is pending and the next left-button
    press is captured and handled to the end: the binding of the
    pending key to the position of the press is stored, the machine is
    back in NORMAL with no pending key and the capture is over. *)
Theorem captured_click_commits (w0 w : AppController.t) (x y : Z) :
  flow_invariant w0 -> store_ok (config w0) = true -> reachable w0 w ->
  StateMachine._state (state_machine w) = CONFIG_WAIT_CLICK ->
  exists k w',
    _pending_key w = Some k
    /\ handle (ButtonEvent x y left true) w = (Ret tt, w')
    /\ ConfigManager.get_mapping k (config w')
       = (Ret (Some (VInt x, VInt y)), config w')
    /\ StateMachine._state (state_machine w') = NORMAL
    /\ _pending_key w' = None
    /\ MouseClickCapture._active (mouse_capture w') = false
    /\ store_ok (config w') = true.
Proof.
  intros Hf0 Hs0 Hr Hst.
  pose proof (reachable_flow _ _ Hf0 Hr) as (I1 & I2 & I3 & I4).
  pose proof (reachable_store _ _ Hs0 Hr) as Hs.
  destruct (store_ok_inv _ Hs) as (d & m & Hd & Hm & He).
  destruct (_pending_key w) as [k|] eqn:Hpk; [|now destruct (I4 Hst)].
  rewrite Hst in I2. cbn in I2. specialize (I3 I2).
  exists k.
  set (mc' := MouseClickCapture.Build (Some false) false).
  assert (Hrun := mouse_clicked_commit (set_mouse_capture mc' w) k d m x y).
  destruct w as [cfg sm kl mc win pk dk].
  cbn [set_mouse_capture config state_machine keyboard_listener mouse_capture
       window _pending_key desktop] in *.
  specialize (Hrun Hst Hpk Hd Hm He).
  eexists. split; [reflexivity|]. split.
  { cbn [handle]. unfold click_event, MouseClickCapture.deliver,
      MouseClickCapture._on_click.
    cbn [set_mouse_capture config state_machine keyboard_listener mouse_capture
       window _pending_key desktop].
    rewrite I3, I2.
    cbn [negb Button_eqb andb for_each fst snd MouseClickCapture._active
         MouseClickCapture._listener set_mouse_capture config state_machine
         keyboard_listener mouse_capture window _pending_key desktop].
    fold mc'. unfold bind. rewrite Hrun. reflexivity. }
  cbn [config state_machine _pending_key mouse_capture StateMachine._state].
  split.
  { apply (get_mapping_bound _ (Py.dict_set m k (coords_value (x, y)))).
    - apply section_of_with_binding.
    - apply dict_get_set_same. }
  split; [reflexivity|]. split; [reflexivity|].
  split; [reflexivity|].
  unfold store_ok. rewrite section_of_with_binding.
  now apply entries_have_coords_set.
Qed.

Lemma captured_click_commits_witness :
  let w0 := AppController.Build
              (ConfigManager.Build DEFAULT_CONFIG Missing)
              (StateMachine.Build NORMAL)
              (KeyboardListener.Build (Some tt) true)
              (MouseClickCapture.Build None false)
              (MainWindow.Build NORMAL StatusReady [] None)
              None
              (action_executor.BuildDesktop (VInt 0, VInt 0) [] false None) in
  let w2 := snd (handle (KeyDown (Key "space"))
                        (snd (handle AddKeyRequested w0))) in
  exists k w',
    _pending_key w2 = Some k
    /\ handle (ButtonEvent 100 200 left true) w2 = (Ret tt, w')
    /\ ConfigManager.get_mapping k (config w')
       = (Ret (Some (VInt 100, VInt 200)), config w')
    /\ StateMachine._state (state_machine w') = NORMAL
    /\ _pending_key w' = None
    /\ MouseClickCapture._active (mouse_capture w') = false
    /\ store_ok (config w') = true.
Proof.
  intros w0 w2.
  apply (captured_click_commits w0 w2 100 200).
  - repeat split; discriminate.
  - reflexivity.
  - apply (reachable_step w0 (snd (handle AddKeyRequested w0))
                          (KeyDown (Key "space"))).
    + apply (reachable_step w0 w0 AddKeyRequested).
      * apply reachable_start.
      * reflexivity.
    + reflexivity.
  - reflexivity.
Defined.
(** ** state_machine.py: repeated and failed requests *)

(** Asking for the same transition twice is asking once: the second
    call answers what the first answered, leaves the state where the
    first left it and notifies nobody.  A call notifies at most once,
    and only of a state other than the one it started from.  NORMAL is
    accepted from every state, so no state of the machine is a trap. *)
Theorem transition_twice (S T : AppState) :
  let '(ok1, s1, e1) := StateMachine.transition T (StateMachine.Build S) in
  let '(ok2, s2, e2) := StateMachine.transition T s1 in
  ok2 = ok1 /\ s2 = s1 /\ e2 = []
  /\ (List.length e1 <= 1)%nat
  /\ ~ In S e1
  /\ fst (fst (StateMachine.transition NORMAL (StateMachine.Build S))) = true.
Proof.
  destruct S, T; cbn; repeat split; auto;
    intros H; repeat (destruct H as [H|H]; try discriminate H); exact H.
Qed.
(** ** config_manager.py: the store as a map, and its durability *)

Lemma get_mapping_section c m key :
  section_of "mappings" c = Some m ->
  ConfigManager.get_mapping key c
  = (match Py.dict_get m key with
     | None => Ret None
     | Some e =>
         if Py.truthy e then
           match Py.getitem e "x" with
           | Ret x => match Py.getitem e "y" with
                      | Ret y => Ret (Some (x, y))
                      | Raise ex => Raise ex
                      | Unmodelled => Unmodelled
                      end
           | Raise ex => Raise ex
           | Unmodelled => Unmodelled
           end
         else Ret None
     end, c).
Proof.
  intros Hsec. destruct (section_of_data _ _ _ Hsec) as (d & Hd & Hm).
  unfold ConfigManager.get_mapping, bind, lift_outcome, ret, Py.get.
  unfold Py.getitem at 1. rewrite Hd, Hm.
  destruct (Py.dict_get m key) as [e|]; [|reflexivity].
  destruct (Py.truthy e); [|reflexivity].
  destruct (Py.getitem e "x") as [x|ex|]; try reflexivity.
  destruct (Py.getitem e "y") as [y|ex|]; reflexivity.
Qed.

(** [set_mapping] is the update of a finite map as seen through
    [get_mapping]: the key just set answers the new coordinates, every
    other key answers as before, and the settings are not touched. *)
Theorem set_mapping_lookup (c : ConfigManager.t) (m : list (string * value))
        (key : string) (x y : Z) :
  section_of "mappings" c = Some m ->
  let c' := snd (ConfigManager.set_mapping key x y c) in
  fst (ConfigManager.set_mapping key x y c) = Ret tt
  /\ ConfigManager.get_mappings c'
     = (Ret (Py.dict_set m key (coords_value (x, y))), c')
  /\ (forall k,
        fst (ConfigManager.get_mapping k c')
        = if String.eqb k key then Ret (Some (VInt x, VInt y))
          else fst (ConfigManager.get_mapping k c))
  /\ (forall k default,
        fst (ConfigManager.get_setting k default c')
        = fst (ConfigManager.get_setting k default c)).
Proof.
  intros Hm c'. destruct (section_of_data _ _ _ Hm) as (d & Hd & Hg).
  unfold c'. rewrite (set_mapping_ok c d m key x y Hd Hg). cbn [fst snd].
  set (f' := Text _).
  assert (Hsec : section_of "mappings"
                   (ConfigManager.Build (with_binding d m key x y) f')
                 = Some (Py.dict_set m key (coords_value (x, y))))
    by apply section_of_with_binding.
  split; [reflexivity|]. split; [|split].
  - unfold ConfigManager.get_mappings, with_binding, Py.get.
    cbn [ConfigManager._data]. now rewrite dict_get_set_same.
  - intros k.
    rewrite (get_mapping_section _ _ k Hsec).
    rewrite (get_mapping_section c m k Hm). cbn [fst].
    destruct (String.eqb k key) eqn:E.
    + apply String.eqb_eq in E. subst k. now rewrite dict_get_set_same.
    + rewrite dict_get_set_other; [reflexivity|].
      intros ->. now rewrite String.eqb_refl in E.
  - intros k default.
    unfold ConfigManager.get_setting, bind, lift_outcome, with_binding, Py.get.
    cbn [ConfigManager._data]. rewrite Hd.
    now rewrite dict_get_set_other by discriminate.
Qed.

Lemma set_mapping_lookup_witness :
  let c := ConfigManager.Build
             (config_value [("f1", (1, 2)%Z)] (BuildSettings true false "Valeton"))
             Missing in
  let c' := snd (ConfigManager.set_mapping "f2" 30 40 c) in
  fst (ConfigManager.get_mapping "f2" c') = Ret (Some (VInt 30, VInt 40))
  /\ fst (ConfigManager.get_mapping "f1" c')
     = fst (ConfigManager.get_mapping "f1" c).
Proof.
  intros c c'.
  destruct (set_mapping_lookup c (mappings_value [("f1", (1, 2)%Z)]) "f2" 30 40
              eq_refl) as (_ & _ & H & _).
  split; [exact (H "f2") | exact (H "f1")].
Defined.

(** [remove_mapping] answers whether the key was bound; an unbound key
    leaves the manager and its file exactly as they were; after the
    removal of a bound key that key is unbound and every other key
    answers as before. *)
Theorem remove_mapping_lookup (c : ConfigManager.t) (m : list (string * value))
        (key : string) :
  section_of "mappings" c = Some m ->
  Py.distinct (map fst m) = true ->
  let c' := snd (ConfigManager.remove_mapping key c) in
  fst (ConfigManager.remove_mapping key c) = Ret (Py.dict_has m key)
  /\ (Py.dict_has m key = false -> c' = c)
  /\ ConfigManager.get_mappings c' = (Ret (Py.dict_del m key), c')
  /\ (forall k,
        fst (ConfigManager.get_mapping k c')
        = if String.eqb k key then Ret None
          else fst (ConfigManager.get_mapping k c))
  /\ (forall k default,
        fst (ConfigManager.get_setting k default c')
        = fst (ConfigManager.get_setting k default c)).
Proof.
  intros Hm Hdist c'. destruct (section_of_data _ _ _ Hm) as (d & Hd & Hg).
  assert (Hdel0 : Py.dict_has m key = false -> Py.dict_del m key = m).
  { clear. unfold Py.dict_has. induction m as [|[k0 v0] m IH]; simpl; auto.
    destruct (String.eqb k0 key); [discriminate|]. intros H. now rewrite IH. }
  unfold c'. destruct (Py.dict_has m key) eqn:Ek.
  - rewrite (remove_mapping_present c d m key Hd Hg Ek). cbn [fst snd].
    set (f' := Text _).
    assert (Hsec : section_of "mappings"
                     (ConfigManager.Build
                        (VDict (Py.dict_set d "mappings"
                                            (VDict (Py.dict_del m key)))) f')
                   = Some (Py.dict_del m key)).
    { unfold section_of. cbn [ConfigManager._data].
      now rewrite dict_get_set_same. }
    split; [reflexivity|]. split; [discriminate|]. split; [|split].
    + unfold ConfigManager.get_mappings, Py.get. cbn [ConfigManager._data].
      now rewrite dict_get_set_same.
    + intros k.
      rewrite (get_mapping_section _ _ k Hsec).
      rewrite (get_mapping_section c m k Hm). cbn [fst].
      destruct (String.eqb k key) eqn:E.
      * apply String.eqb_eq in E. subst k. now rewrite dict_get_del_same.
      * rewrite dict_get_del_other; [reflexivity|].
        now rewrite String.eqb_sym.
    + intros k default.
      unfold ConfigManager.get_setting, bind, lift_outcome, Py.get.
      cbn [ConfigManager._data]. rewrite Hd.
      now rewrite dict_get_set_other by discriminate.
  - rewrite (remove_mapping_absent c d m key Hd Hg Ek). cbn [fst snd].
    split; [reflexivity|]. split; [reflexivity|]. split; [|split].
    + unfold ConfigManager.get_mappings, Py.get. rewrite Hd, Hg.
      now rewrite Hdel0.
    + intros k. destruct (String.eqb k key) eqn:E; [|reflexivity].
      apply String.eqb_eq in E. subst k.
      rewrite (get_mapping_section c m key Hm).
      unfold Py.dict_has in Ek. now destruct (Py.dict_get m key).
    + reflexivity.
Qed.

Lemma remove_mapping_lookup_witness :
  let c := ConfigManager.Build
             (config_value [("f1", (1, 2)%Z); ("f2", (3, 4)%Z)]
                           (BuildSettings true false "Valeton"))
             Missing in
  let c' := snd (ConfigManager.remove_mapping "f1" c) in
  fst (ConfigManager.get_mapping "f1" c') = Ret None
  /\ fst (ConfigManager.get_mapping "f2" c')
     = fst (ConfigManager.get_mapping "f2" c).
Proof.
  intros c c'.
  destruct (remove_mapping_lookup c
              (mappings_value [("f1", (1, 2)%Z); ("f2", (3, 4)%Z)]) "f1"
              eq_refl eq_refl) as (_ & _ & _ & H & _).
  split; [exact (H "f1") | exact (H "f2")].
Defined.

(** *** Well-keyed dicts under update and removal *)

Lemma keys_dict_set_absent d k v k' :
  String.eqb k' k = false ->
  existsb (String.eqb k') (map fst d) = false ->
  existsb (String.eqb k') (map fst (Py.dict_set d k v)) = false.
Proof.
  intros Hne. induction d as [|[k0 v0] d IH]; simpl.
  - intros _. now rewrite Hne.
  - intros H. apply orb_false_iff in H. destruct H as [H1 H2].
    destruct (String.eqb k0 k); simpl; rewrite H1; auto.
Qed.

Lemma distinct_dict_set d k v :
  Py.distinct (map fst d) = true ->
  Py.distinct (map fst (Py.dict_set d k v)) = true.
Proof.
  induction d as [|[k0 v0] d IH]; simpl; auto.
  intros H. apply andb_true_iff in H. destruct H as [H1 H2].
  destruct (String.eqb k0 k) eqn:E; simpl.
  - now rewrite H1, H2.
  - rewrite IH by exact H2. rewrite andb_true_r.
    apply negb_true_iff. apply keys_dict_set_absent; [exact E|].
    now apply negb_true_iff.
Qed.

Lemma well_keyed_dict_set d k v :
  Py.well_keyed (VDict d) = true -> Py.well_keyed v = true ->
  Py.well_keyed (VDict (Py.dict_set d k v)) = true.
Proof.
  cbn [Py.well_keyed]. intros H Hv.
  apply andb_true_iff in H. destruct H as [H1 H2].
  rewrite distinct_dict_set by exact H1. cbn [andb].
  clear H1. induction d as [|[k0 v0] d IH]; simpl in *.
  - now rewrite Hv.
  - apply andb_true_iff in H2. destruct H2 as [Ha Hb].
    destruct (String.eqb k0 k); simpl.
    + now rewrite Hv, Hb.
    + now rewrite Ha, IH.
Qed.

Lemma keys_dict_del_absent d k k' :
  existsb (String.eqb k') (map fst d) = false ->
  existsb (String.eqb k') (map fst (Py.dict_del d k)) = false.
Proof.
  induction d as [|[k0 v0] d IH]; simpl; auto.
  intros H. apply orb_false_iff in H. destruct H as [H1 H2].
  destruct (String.eqb k0 k); simpl; auto. rewrite H1. auto.
Qed.

Lemma well_keyed_dict_del d k :
  Py.well_keyed (VDict d) = true ->
  Py.well_keyed (VDict (Py.dict_del d k)) = true.
Proof.
  cbn [Py.well_keyed]. induction d as [|[k0 v0] d IH]; simpl; auto.
  intros H. apply andb_true_iff in H. destruct H as [H1 H2].
  apply andb_true_iff in H1. destruct H1 as [Ha Hb].
  apply andb_true_iff in H2. destruct H2 as [Hc Hd].
  destruct (String.eqb k0 k); simpl.
  - now rewrite Hb, Hd.
  - assert (IH' := IH ltac:(now rewrite Hb, Hd)).
    apply andb_true_iff in IH'. destruct IH' as [I1 I2].
    rewrite I1, I2, Hc, !andb_true_r.
    apply negb_true_iff, keys_dict_del_absent. now apply negb_true_iff.
Qed.

Lemma well_keyed_dict_get d k v :
  Py.well_keyed (VDict d) = true -> Py.dict_get d k = Some v ->
  Py.well_keyed v = true.
Proof.
  cbn [Py.well_keyed]. intros H. apply andb_true_iff in H.
  destruct H as [_ H]. induction d as [|[k0 v0] d IH]; simpl in *;
    [discriminate|].
  apply andb_true_iff in H. destruct H as [Ha Hb].
  destruct (String.eqb k0 k); [intros [= <-]; exact Ha | auto].
Qed.

Lemma dict_has_set d k v k' :
  Py.dict_has d k' = true -> Py.dict_has (Py.dict_set d k v) k' = true.
Proof.
  unfold Py.dict_has. destruct (String.eqb k k') eqn:E.
  - apply String.eqb_eq in E. subst k'. now rewrite dict_get_set_same.
  - rewrite dict_get_set_other; auto.
    intros ->. now rewrite String.eqb_refl in E.
Qed.

(** A save of a well-keyed document that has both sections is read back
    by a new manager as the very same object. *)
Lemma saved_reloads d :
  Py.well_keyed (VDict d) = true ->
  Py.dict_has d "mappings" = true ->
  Py.dict_has d "settings" = true ->
  ConfigManager.init (Text (Json.dumps (Some 2%nat) (VDict d)))
  = (Ret tt, ConfigManager.Build (VDict d)
                                 (Text (Json.dumps (Some 2%nat) (VDict d)))).
Proof.
  intros Hwk Hm Hs.
  exact (proj2 (proj2 (save_then_load d Missing Hwk Hm Hs))).
Qed.

(** Every mutation is durable: after [set_mapping], after a
    [remove_mapping] that removed something and after [update_setting],
    a new manager on the file just written loads without error and is
    equal to the one in memory, data and file. *)
Theorem mutations_are_durable (c : ConfigManager.t)
        (d m s : list (string * value)) :
  ConfigManager._data c = VDict d ->
  Py.well_keyed (VDict d) = true ->
  Py.dict_get d "mappings" = Some (VDict m) ->
  Py.dict_get d "settings" = Some (VDict s) ->
  (forall key x y,
      let c' := snd (ConfigManager.set_mapping key x y c) in
      ConfigManager.init (ConfigManager._path c') = (Ret tt, c'))
  /\ (forall key,
      Py.dict_has m key = true ->
      let c' := snd (ConfigManager.remove_mapping key c) in
      ConfigManager.init (ConfigManager._path c') = (Ret tt, c'))
  /\ (forall key v,
      Py.well_keyed v = true ->
      let c' := snd (ConfigManager.update_setting key v c) in
      ConfigManager.init (ConfigManager._path c') = (Ret tt, c')).
Proof.
  intros Hd Hwk Hm Hs.
  assert (Hhm : Py.dict_has d "mappings" = true)
    by (unfold Py.dict_has; now rewrite Hm).
  assert (Hhs : Py.dict_has d "settings" = true)
    by (unfold Py.dict_has; now rewrite Hs).
  pose proof (well_keyed_dict_get _ _ _ Hwk Hm) as Hwm.
  pose proof (well_keyed_dict_get _ _ _ Hwk Hs) as Hws.
  split; [|split].
  - intros key x y c'. unfold c'.
    rewrite (set_mapping_ok c d m key x y Hd Hm). cbn [snd ConfigManager._path].
    unfold with_binding. apply saved_reloads.
    + apply well_keyed_dict_set; [exact Hwk|].
      apply well_keyed_dict_set; [exact Hwm | reflexivity].
    + now apply dict_has_set.
    + now apply dict_has_set.
  - intros key Hk c'. unfold c'.
    rewrite (remove_mapping_present c d m key Hd Hm Hk).
    cbn [snd ConfigManager._path]. apply saved_reloads.
    + apply well_keyed_dict_set; [exact Hwk|]. now apply well_keyed_dict_del.
    + now apply dict_has_set.
    + now apply dict_has_set.
  - intros key v Hv c'. unfold c'.
    rewrite (update_setting_ok c d s key v Hd Hs).
    cbn [snd ConfigManager._path]. apply saved_reloads.
    + apply well_keyed_dict_set; [exact Hwk|].
      now apply well_keyed_dict_set.
    + now apply dict_has_set.
    + now apply dict_has_set.
Qed.

Lemma mutations_are_durable_witness :
  let c := ConfigManager.Build
             (config_value [("f1", (1, 2)%Z)] (BuildSettings true false "Valeton"))
             Missing in
  let c' := snd (ConfigManager.set_mapping "f2" 30 40 c) in
  ConfigManager.init (ConfigManager._path c') = (Ret tt, c').
Proof.
  intros c c'.
  exact (proj1 (mutations_are_durable c _ _ _ eq_refl eq_refl eq_refl eq_refl)
               "f2" 30%Z 40%Z).
Defined.
(** ** config_manager.py: what [load] does with every document *)

Lemma load_default_file d :
  ConfigManager.load
    (ConfigManager.Build d (Text (Json.dumps (Some 2%nat) DEFAULT_CONFIG)))
  = (Ret tt, ConfigManager.Build DEFAULT_CONFIG
                                 (Text (Json.dumps (Some 2%nat) DEFAULT_CONFIG))).
Proof.
  apply (load_complete d
           (Json.dumps (Some 2%nat) DEFAULT_CONFIG)
           [ ("mappings", VDict []);
             ("settings",
              VDict [ ("restore_mouse_position", VBool true);
                      ("require_foreground_window", VBool false);
                      ("target_window_title", VStr "Valeton") ]) ]);
    [|reflexivity|reflexivity].
  apply (JsonFacts.loads_dumps (Some 2%nat) DEFAULT_CONFIG). reflexivity.
Qed.

(** An object is completed and kept; the file is left as it is. *)
Lemma load_object d0 content d :
  Json.loads content = Ret (VDict d) ->
  ConfigManager.load (ConfigManager.Build d0 (Text content))
  = (Ret tt, ConfigManager.Build (VDict (repaired d)) (Text content)).
Proof.
  intros Hl.
  unfold ConfigManager.load, bind, try_except, ConfigManager.read_json,
    modify, ret, ConfigManager.data_setitem, lift_outcome.
  cbn [ConfigManager.path_exists ConfigManager._path ConfigManager._data
       ConfigManager.set_data fst snd]. rewrite Hl.
  cbn [ConfigManager.path_exists ConfigManager._path ConfigManager._data
       ConfigManager.set_data fst snd].
  unfold repaired. cbn [Py.contains].
  destruct (Py.dict_has d "mappings");
    cbn [negb ConfigManager._data ConfigManager.set_data fst snd Py.contains
         Py.setitem ConfigManager._path].
  - destruct (Py.dict_has d "settings"); reflexivity.
  - destruct (Py.dict_has (Py.dict_set d "mappings" (VDict [])) "settings");
      reflexivity.
Qed.

(** Any other document is kept if both membership tests answer True,
    and otherwise a TypeError leaves [load]. *)
Lemma load_non_object d0 content v :
  Json.loads content = Ret v ->
  match v with VDict _ => False | _ => True end ->
  ConfigManager.load (ConfigManager.Build d0 (Text content))
  = (match Py.contains "mappings" v, Py.contains "settings" v with
     | Ret true, Ret true => Ret tt
     | _, _ => Raise TypeError
     end, ConfigManager.Build v (Text content)).
Proof.
  intros Hl Hv.
  unfold ConfigManager.load, bind, try_except, ConfigManager.read_json,
    modify, ret, ConfigManager.data_setitem, lift_outcome.
  cbn [ConfigManager.path_exists ConfigManager._path ConfigManager._data
       ConfigManager.set_data fst snd]. rewrite Hl.
  cbn [ConfigManager.path_exists ConfigManager._path ConfigManager._data
       ConfigManager.set_data fst snd].
  destruct v as [|b|z|s|l|d]; try contradiction; try reflexivity.
  - cbn [Py.contains].
    destruct (Py.str_contains "mappings" s); [|reflexivity].
    cbn [negb ConfigManager._data ConfigManager.set_data fst snd Py.contains].
    destruct (Py.str_contains "settings" s); reflexivity.
  - cbn [Py.contains].
    destruct (existsb (Py.is_str "mappings") l); [|reflexivity].
    cbn [negb ConfigManager._data ConfigManager.set_data fst snd Py.contains].
    destruct (existsb (Py.is_str "settings") l); reflexivity.
Qed.

(** What [load] does with a file that holds a JSON document, by the kind
    of the document.  An object is completed and kept, the file left as
    it is.  [null], booleans and numbers make the membership test raise
    TypeError.  An array or a string is kept as the configuration when
    it contains both "mappings" and "settings" (as elements, or as
    substrings), and otherwise the item assignment raises TypeError.
    No TypeError is caught, and none of these cases writes the file. *)
Theorem load_document_cases (d0 : value) (content : string) (v : value) :
  Json.loads content = Ret v ->
  ConfigManager.load (ConfigManager.Build d0 (Text content))
  = (match v with
     | VDict d => (Ret tt, ConfigManager.Build (VDict (repaired d)) (Text content))
     | VList l =>
         (if existsb (Py.is_str "mappings") l && existsb (Py.is_str "settings") l
          then Ret tt else Raise TypeError,
          ConfigManager.Build v (Text content))
     | VStr s =>
         (if Py.str_contains "mappings" s && Py.str_contains "settings" s
          then Ret tt else Raise TypeError,
          ConfigManager.Build v (Text content))
     | VNone | VBool _ | VInt _ =>
         (Raise TypeError, ConfigManager.Build v (Text content))
     end).
Proof.
  intros Hl. destruct v as [|b|z|s|l|d];
    try (rewrite (load_non_object d0 content _ Hl I); cbn [Py.contains]).
  - reflexivity.
  - reflexivity.
  - reflexivity.
  - destruct (Py.str_contains "mappings" s), (Py.str_contains "settings" s);
      reflexivity.
  - destruct (existsb (Py.is_str "mappings") l),
             (existsb (Py.is_str "settings") l); reflexivity.
  - apply load_object, Hl.
Qed.

Lemma load_document_cases_witness :
  let doc := VList [VStr "mappings"; VStr "settings"] in
  let content := Json.dumps None doc in
  ConfigManager.load (ConfigManager.Build (VDict []) (Text content))
  = (Ret tt, ConfigManager.Build doc (Text content)).
Proof.
  intros doc content.
  rewrite (load_document_cases (VDict []) content doc).
  - reflexivity.
  - apply JsonFacts.loads_dumps. reflexivity.
Defined.

Lemma repaired_has_mappings d : Py.dict_has (repaired d) "mappings" = true.
Proof.
  unfold repaired.
  destruct (Py.dict_has d "mappings") eqn:Em.
  - destruct (Py.dict_has d "settings"); [exact Em|].
    now apply dict_has_set.
  - assert (H : Py.dict_has (Py.dict_set d "mappings" (VDict [])) "mappings" = true)
      by (unfold Py.dict_has; now rewrite dict_get_set_same).
    destruct (Py.dict_has (Py.dict_set d "mappings" (VDict [])) "settings");
      [exact H|]. now apply dict_has_set.
Qed.

Lemma repaired_has_settings d : Py.dict_has (repaired d) "settings" = true.
Proof.
  unfold repaired.
  set (d1 := if Py.dict_has d "mappings" then d else _).
  destruct (Py.dict_has d1 "settings") eqn:Es; [exact Es|].
  unfold Py.dict_has. now rewrite dict_get_set_same.
Qed.

Lemma loads_raises_decode_error content e :
  Json.loads content = Raise e -> e = JSONDecodeError.
Proof.
  unfold Json.loads.
  destruct (Json.scan_value _ _) as [v rest| | |]; try discriminate.
  - destruct (Json.skip_ws rest); [discriminate|]. now intros [= <-].
  - now intros [= <-].
Qed.

(** A [load] that returned has both required keys in its data. *)
Lemma load_ensures_keys c :
  fst (ConfigManager.load c) = Ret tt ->
  Py.contains "mappings" (ConfigManager._data (snd (ConfigManager.load c)))
  = Ret true
  /\ Py.contains "settings" (ConfigManager._data (snd (ConfigManager.load c)))
     = Ret true.
Proof.
  destruct c as [d0 [| |content]].
  - rewrite load_missing. intros _. split; reflexivity.
  - rewrite load_unreadable. intros _. split; reflexivity.
  - destruct (Json.loads content) as [v|e|] eqn:Hl.
    + destruct v as [|b|z|s|l|d];
        try (rewrite (load_non_object d0 content _ Hl I);
             cbn [fst snd ConfigManager._data];
             destruct (Py.contains "mappings" _) as [[|]|e|];
             try (intros H; discriminate H);
             destruct (Py.contains "settings" _) as [[|]|e|];
             try (intros H; discriminate H);
             intros _; split; reflexivity).
      rewrite (load_object d0 content d Hl). intros _.
      cbn [fst snd ConfigManager._data Py.contains].
      now rewrite repaired_has_mappings, repaired_has_settings.
    + rewrite (load_malformed d0 content).
      * intros _. split; reflexivity.
      * rewrite Hl. f_equal. now apply loads_raises_decode_error in Hl.
    + unfold ConfigManager.load, bind, try_except, ConfigManager.read_json.
      cbn [ConfigManager.path_exists ConfigManager._path fst snd].
      rewrite Hl. intros H. discriminate H.
Qed.

(** A [load] that returns normally has made sure that both required
    top-level keys are there, and loading again changes nothing: the
    manager and the file stay as they are. *)
Theorem load_postcondition (c : ConfigManager.t) :
  fst (ConfigManager.load c) = Ret tt ->
  let c' := snd (ConfigManager.load c) in
  Py.contains "mappings" (ConfigManager._data c') = Ret true
  /\ Py.contains "settings" (ConfigManager._data c') = Ret true
  /\ ConfigManager.load c' = (Ret tt, c').
Proof.
  intros Hret c'. destruct (load_ensures_keys c Hret) as [Hm Hs].
  split; [exact Hm|]. split; [exact Hs|]. unfold c' in *. clear c'.
  destruct c as [d0 [| |content]].
  - rewrite load_missing. apply load_default_file.
  - rewrite load_unreadable. apply load_default_file.
  - destruct (Json.loads content) as [v|e|] eqn:Hl.
    + (* a document was read: loading again reads it again *)
      destruct v as [|b|z|s|l|d].
      1-5: rewrite (load_non_object d0 content _ Hl I) in Hret |- *;
           cbn [fst snd] in *;
           rewrite (load_non_object _ content _ Hl I);
           now rewrite Hret.
      rewrite (load_object d0 content d Hl). cbn [snd].
      apply (load_object _ content d Hl).
    + rewrite (load_malformed d0 content).
      * apply load_default_file.
      * rewrite Hl. f_equal. now apply loads_raises_decode_error in Hl.
    + unfold ConfigManager.load, bind, try_except, ConfigManager.read_json
        in Hret.
      cbn [ConfigManager.path_exists ConfigManager._path fst snd] in Hret.
      rewrite Hl in Hret. discriminate Hret.
Qed.

Lemma load_postcondition_witness :
  let c' := snd (ConfigManager.load (ConfigManager.Build (VDict []) Unreadable)) in
  Py.contains "mappings" (ConfigManager._data c') = Ret true
  /\ Py.contains "settings" (ConfigManager._data c') = Ret true
  /\ ConfigManager.load c' = (Ret tt, c').
Proof.
  apply (load_postcondition (ConfigManager.Build (VDict []) Unreadable)).
  reflexivity.
Defined.
(** ** main.py: starting the controller *)

Lemma getitem_has_coords v x y :
  Py.getitem v "x" = Ret x -> Py.getitem v "y" = Ret y -> has_coords v = true.
Proof.
  destruct v as [| | | | |c]; try discriminate.
  unfold Py.getitem, has_coords, Py.dict_has.
  destruct (Py.dict_get c "x"); [|discriminate].
  destruct (Py.dict_get c "y"); [|discriminate]. reflexivity.
Qed.

(** A table refresh that went through has found the coordinates of
    every entry. *)
Lemma fill_ret items :
  forall win win',
    MainWindow.fill items win = (Ret tt, win') ->
    entries_have_coords items = true.
Proof.
  induction items as [|[key coords] items IH]; intros win win'; [reflexivity|].
  cbn [MainWindow.fill]. unfold bind, modify, lift_outcome.
  destruct (Py.getitem coords "x") as [x|e|] eqn:Hx; try discriminate.
  destruct (Py.getitem coords "y") as [y|e|] eqn:Hy; try discriminate.
  intros H. apply IH in H. unfold entries_have_coords in *.
  cbn [forallb snd]. now rewrite (getitem_has_coords coords x y Hx Hy), H.
Qed.

Lemma refresh_mappings_ret mappings win win' :
  MainWindow.refresh_mappings mappings win = (Ret tt, win') ->
  entries_have_coords mappings = true.
Proof.
  unfold MainWindow.refresh_mappings, bind, modify. intros H.
  apply fill_ret in H. unfold entries_have_coords in *.
  now rewrite forallb_sorted_items in H.
Qed.

(** The controller [_initialize_ui] and the start of the keyboard
    listener make of a fresh one, when the configuration is of the
    typed data model and the two check-box settings are booleans. *)
Lemma initialize_ui_ok cfg dk d m s :
  ConfigManager._data cfg = VDict d ->
  Py.dict_get d "mappings" = Some (VDict m) ->
  entries_have_coords m = true ->
  Py.dict_get d "settings" = Some (VDict s) ->
  (exists b, settings_get s "restore_mouse_position" (VBool true) = VBool b) ->
  (exists b, settings_get s "require_foreground_window" (VBool false) = VBool b) ->
  _initialize_ui (fresh_controller cfg dk)
  = (Ret tt,
     AppController.Build cfg
       (StateMachine.Build NORMAL)
       (KeyboardListener.Build None false)
       (MouseClickCapture.Build None false)
       (MainWindow.Build NORMAL StatusReady
          (map row_of (MainWindow.sorted_items m)) None)
       None dk).
Proof.
  intros Hd Hm He Hs [b1 H1] [b2 H2].
  destruct cfg as [data f]. cbn [ConfigManager._data] in Hd. subst data.
  unfold _initialize_ui, on_config, zoom, ConfigManager.get_settings, Py.get.
  unfold bind at 1. cbn [fresh_controller config ConfigManager._data].
  rewrite Hs.
  cbn [Py.dict_copy set_config config state_machine keyboard_listener
       mouse_capture window _pending_key desktop].
  unfold bind at 1, on_window, zoom. rewrite H1, H2.
  cbn [set_settings_ui ret window set_window config state_machine
       keyboard_listener mouse_capture _pending_key desktop].
  unfold bind at 1.
  rewrite (refresh_table_ok _ m);
    [|unfold section_of;
      cbn [config set_window set_config state_machine keyboard_listener
           mouse_capture window _pending_key desktop ConfigManager._data];
      now rewrite Hm
     | exact He].
  reflexivity.
Qed.

Lemma init_with_config f cfg dk d m s :
  ConfigManager.init f = (Ret tt, cfg) ->
  ConfigManager._data cfg = VDict d ->
  Py.dict_get d "mappings" = Some (VDict m) ->
  entries_have_coords m = true ->
  Py.dict_get d "settings" = Some (VDict s) ->
  (exists b, settings_get s "restore_mouse_position" (VBool true) = VBool b) ->
  (exists b, settings_get s "require_foreground_window" (VBool false) = VBool b) ->
  AppController__init__ f dk
  = Ret (AppController.Build cfg
           (StateMachine.Build NORMAL)
           (KeyboardListener.Build (Some tt) true)
           (MouseClickCapture.Build None false)
           (MainWindow.Build NORMAL StatusReady
              (map row_of (MainWindow.sorted_items m)) None)
           None dk).
Proof.
  intros Hi Hd Hm He Hs H1 H2. unfold AppController__init__. rewrite Hi.
  unfold bind at 1.
  rewrite (initialize_ui_ok cfg dk d m s Hd Hm He Hs H1 H2). reflexivity.
Qed.



(** On the file a manager saved for a well-typed binding set and
    settings record, the application starts holding exactly that
    configuration, and the table shows one row per binding, in key
    order, with its coordinates. *)
Theorem start_on_saved_config (m : binding_set) (s : settings_record)
        (dk : action_executor.Desktop) :
  Py.distinct (map fst m) = true ->
  let f := Text (Json.dumps (Some 2%nat) (config_value m s)) in
  AppController__init__ f dk
  = Ret (AppController.Build
           (ConfigManager.Build (config_value m s) f)
           (StateMachine.Build NORMAL)
           (KeyboardListener.Build (Some tt) true)
           (MouseClickCapture.Build None false)
           (MainWindow.Build NORMAL StatusReady
              (map row_of (MainWindow.sorted_items (mappings_value m))) None)
           None dk).
Proof.
  intros Hkeys f.
  pose proof (config_value_well_keyed m s Hkeys) as Hwk.
  assert (Hi : ConfigManager.init f
               = (Ret tt, ConfigManager.Build (config_value m s) f))
    by (apply saved_reloads; [exact Hwk | reflexivity | reflexivity]).
  apply (init_with_config f _ dk _ (mappings_value m) (settings_value s) Hi
           eq_refl eq_refl).
  - pose proof (store_ok_config_value m s f) as H. exact H.
  - reflexivity.
  - now exists (restore_mouse_position s).
  - now exists (require_foreground_window s).
Qed.

Lemma start_on_saved_config_witness :
  let m := [("space", (5, 6)%Z); ("f1", (100, 200)%Z)] in
  let s := BuildSettings true false "Valeton" in
  exists w,
    AppController__init__ (Text (Json.dumps (Some 2%nat) (config_value m s)))
      (action_executor.BuildDesktop (VInt 0, VInt 0) [] false None) = Ret w
    /\ MainWindow._table (window w)
       = [("f1", Some (VInt 100), Some (VInt 200));
          ("space", Some (VInt 5), Some (VInt 6))].
Proof.
  intros m s. eexists. split.
  - apply (start_on_saved_config m s). reflexivity.
  - reflexivity.
Defined.
(** *** The keyboard listener through the handlers *)

Lemma same_listener_refl w : same_listener w w.
Proof. reflexivity. Qed.

Lemma same_listener_trans a b c :
  same_listener a b -> same_listener b c -> same_listener a c.
Proof. unfold same_listener. congruence. Qed.

Lemma keeps_listener_on_config {A} (m : M ConfigManager.t A) :
  keeps same_listener (on_config m).
Proof.
  intros w. unfold on_config, zoom. destruct (m (config w)). now destruct w.
Qed.

Lemma keeps_listener_on_window {A} (m : M MainWindow.t A) :
  keeps same_listener (on_window m).
Proof.
  intros w. unfold on_window, zoom. destruct (m (window w)). now destruct w.
Qed.

Lemma keeps_listener_on_desktop {A} (m : M action_executor.Desktop A) :
  keeps same_listener (on_desktop m).
Proof.
  intros w. unfold on_desktop, zoom. destruct (m (desktop w)). now destruct w.
Qed.

Lemma keeps_listener_modify (f : AppController.t -> AppController.t) :
  (forall w, keyboard_listener (f w) = keyboard_listener w) ->
  keeps same_listener (modify f).
Proof. intros Hf w. apply Hf. Qed.

Lemma keeps_listener_transition new_state :
  keeps same_listener (transition new_state).
Proof.
  intros w. unfold transition.
  destruct (StateMachine.transition new_state (state_machine w))
    as [[ok sm] emitted].
  apply (same_listener_trans _ (set_state_machine sm w)); [now destruct w|].
  assert (H : keeps same_listener
                (for_each emitted _on_state_changed ;; ret ok)).
  { apply (keeps_bind _ same_listener_trans).
    - apply (keeps_for_each _ same_listener_refl same_listener_trans).
      intros s. apply keeps_listener_on_window.
    - intros _. apply (keeps_ret _ same_listener_refl). }
  apply H.
Qed.

(** Walks through a handler: binds, branches and loops are split, the
    leaves act on a component other than the keyboard listener. *)
Ltac listener_frame :=
  repeat first
    [ apply (keeps_bind same_listener same_listener_trans)
    | apply (keeps_for_each same_listener same_listener_refl
                            same_listener_trans)
    | apply (keeps_if same_listener)
    | apply (keeps_ret same_listener same_listener_refl)
    | apply (keeps_gets same_listener same_listener_refl)
    | apply keeps_listener_on_config
    | apply keeps_listener_on_window
    | apply keeps_listener_on_desktop
    | apply keeps_listener_transition
    | apply keeps_listener_modify; intros []; reflexivity
    | progress intros
    | match goal with
      | |- keeps _ (match ?x with _ => _ end) => destruct x
      end ].

Lemma keeps_listener_handle e : keeps same_listener (handle e).
Proof.
  destruct e as [key|x y b p| | | |key v|sel]; cbn [handle].
  - unfold key_event, _on_key_pressed, state, get_setting, set_status.
    listener_frame.
  - intros w. unfold click_event.
    destruct (MouseClickCapture.deliver x y b p (mouse_capture w))
      as [mc emitted].
    apply (same_listener_trans _ (set_mouse_capture mc w)); [now destruct w|].
    generalize (set_mouse_capture mc w). 
    change (keeps same_listener
              (for_each emitted (fun xy => _on_mouse_clicked (fst xy) (snd xy)))).
    unfold _on_mouse_clicked, state, add_mapping, _refresh_table, set_status.
    listener_frame.
  - unfold _on_add_key, state, set_status. listener_frame.
  - unfold _on_remove_key, remove_mapping, _refresh_table, set_status.
    listener_frame.
  - unfold _on_toggle_system, set_status. listener_frame.
  - unfold _on_setting_changed, set_status. listener_frame.
  - listener_frame.
Qed.

Lemma reachable_listener w0 w :
  reachable w0 w -> keyboard_listener w = keyboard_listener w0.
Proof.
  intros Hr. induction Hr as [|w e w' Hr IH Hstep]; [reflexivity|].
  pose proof (keeps_listener_handle e w) as H. rewrite Hstep in H.
  unfold same_listener in H. cbn [snd] in H. congruence.
Qed.

(** *** What a constructor that returned has established *)

(** A branch that ended in an exception did not return. *)
Ltac not_returned :=
  cbv beta iota; let H := fresh in intros H; discriminate H.

Lemma initialize_ui_ret cfg dk w :
  Py.contains "mappings" (ConfigManager._data cfg) = Ret true ->
  _initialize_ui (fresh_controller cfg dk) = (Ret tt, w) ->
  store_ok cfg = true /\ config w = cfg.
Proof.
  intros Hc. destruct cfg as [data f].
  unfold _initialize_ui, on_config, zoom, ConfigManager.get_settings.
  unfold bind at 1. cbn [fresh_controller config ConfigManager._data] in *.
  destruct data as [| | | | |d]; cbn [Py.get]; try not_returned.
  destruct (Py.dict_copy _) as [settings|e|]; try not_returned.
  cbn [set_config config state_machine keyboard_listener mouse_capture window
       _pending_key desktop].
  unfold bind at 1, on_window, zoom.
  destruct (set_settings_ui _ _ _) as [[[]|e|] win1]; try not_returned.
  cbn [set_window config state_machine keyboard_listener mouse_capture window
       _pending_key desktop].
  unfold bind at 1, _refresh_table, on_config, zoom,
    MappingManager.get_all_mappings, ConfigManager.get_mappings.
  unfold bind at 1.
  cbn [set_window set_config fresh_controller config ConfigManager._data
       Py.get].
  cbn [Py.contains] in Hc. injection Hc as Hc. unfold Py.dict_has in Hc.
  destruct (Py.dict_get d "mappings") as [mv|] eqn:Hm; [|discriminate Hc].
  destruct mv as [| | | | |m]; cbn [Py.dict_copy]; try not_returned.
  cbn [set_config config state_machine keyboard_listener
       mouse_capture window _pending_key desktop].
  unfold on_window at 1, zoom.
  cbn [set_window set_config fresh_controller config state_machine
       keyboard_listener mouse_capture window _pending_key desktop].
  destruct (MainWindow.refresh_mappings m win1) as [[[]|e|] win2] eqn:Hr;
    try not_returned.
  apply refresh_mappings_ret in Hr.
  cbn [set_window config state_machine keyboard_listener mouse_capture window
       _pending_key desktop].
  unfold set_status, on_window, zoom, modify. cbn [window]. intros [= <-].
  split; [|reflexivity].
  unfold store_ok, section_of. cbn [ConfigManager._data]. now rewrite Hm.
Qed.

Lemma set_settings_ui_reads restore foreground win :
  snd (set_settings_ui restore foreground win) = win.
Proof.
  unfold set_settings_ui. destruct restore; try reflexivity.
  destruct foreground; reflexivity.
Qed.

Lemma keeps_flow_initialize_ui : keeps_flow _initialize_ui.
Proof.
  unfold _initialize_ui. apply keeps_flow_bind; [apply keeps_flow_on_config|].
  intros settings. apply keeps_flow_bind.
  - intros w. unfold on_window, zoom.
    rewrite (surjective_pairing (set_settings_ui _ _ (window w))).
    rewrite set_settings_ui_reads. destruct w; repeat split.
  - intros _. apply keeps_flow_bind; [apply keeps_flow_refresh_table|].
    intros _. apply keeps_flow_set_status.
Qed.

Lemma keeps_listener_initialize_ui : keeps same_listener _initialize_ui.
Proof. unfold _initialize_ui, _refresh_table, set_status. listener_frame. Qed.

Lemma initialize_ui_desktop w :
  desktop (snd (_initialize_ui w)) = desktop w.
Proof.
  assert (H : keeps (fun a b => desktop b = desktop a) _initialize_ui).
  { assert (Ht : forall a b c : AppController.t,
               desktop b = desktop a -> desktop c = desktop b ->
               desktop c = desktop a) by (intros; congruence).
    unfold _initialize_ui, _refresh_table, set_status.
    repeat first
      [ apply (keeps_bind _ Ht); [|intros]
      | intros w1; unfold on_config, on_window, zoom;
        match goal with |- context [?m (config w1)] => destruct (m (config w1))
                      | |- context [?m (window w1)] => destruct (m (window w1))
        end; now destruct w1 ]. }
  apply H.
Qed.

Lemma init_ret f dk w0 :
  AppController__init__ f dk = Ret w0 ->
  flow_invariant w0
  /\ store_ok (config w0) = true
  /\ keyboard_listener w0 = KeyboardListener.Build (Some tt) true
  /\ StateMachine._state (state_machine w0) = NORMAL
  /\ _pending_key w0 = None
  /\ desktop w0 = dk.
Proof.
  unfold AppController__init__.
  destruct (ConfigManager.init f) as [[[]|e|] cfg] eqn:Hi;
    try (intros H; discriminate H).
  assert (Hc : Py.contains "mappings" (ConfigManager._data cfg) = Ret true).
  { unfold ConfigManager.init in Hi.
    pose proof (load_ensures_keys (ConfigManager.Build (VDict []) f)) as H.
    rewrite Hi in H. exact (proj1 (H eq_refl)). }
  unfold bind at 1.
  pose proof (keeps_flow_initialize_ui (fresh_controller cfg dk)) as Hflow.
  pose proof (initialize_ui_desktop (fresh_controller cfg dk)) as Hdk.
  destruct (_initialize_ui (fresh_controller cfg dk)) as [[[]|e|] w1] eqn:Hu;
    try (intros H; discriminate H).
  destruct (initialize_ui_ret cfg dk w1 Hc Hu) as [Hok Hcfg].
  cbn [snd] in Hflow. destruct Hflow as (F1 & F2 & F3 & F4).
  unfold modify. intros [= <-].
  assert (Hkl : keyboard_listener w1 = KeyboardListener.Build None false).
  { pose proof (keeps_listener_initialize_ui (fresh_controller cfg dk)) as H.
    rewrite Hu in H. exact H. }
  destruct w1 as [c1 sm1 kl1 mc1 win1 pk1 dk1].
  cbn [config state_machine keyboard_listener mouse_capture window
       _pending_key desktop set_keyboard_listener fresh_controller
       MainWindow._mode_badge] in *.
  subst c1 sm1 mc1 pk1 kl1.
  split; [|split; [exact Hok|split; [reflexivity|split; [reflexivity|
          split; [reflexivity|]]]]].
  - unfold flow_invariant.
    cbn [config state_machine keyboard_listener mouse_capture window
         _pending_key StateMachine._state MouseClickCapture._active
         set_keyboard_listener].
    rewrite F4. repeat split; discriminate.
  - cbn [snd desktop set_keyboard_listener] in *. exact Hdk.
Qed.

(** Whenever the constructor returns a controller, that controller and
    every state reached from it through handlers that return normally
    satisfy: the badge shows the state of the machine; the mouse capture
    is active exactly in CONFIG_WAIT_CLICK, on a running listener, and
    then a key is pending; the store is of the typed data model; and
    the keyboard listener is running.  (In this embedding the
    constructor returns only if "mappings" and "settings" are JSON
    objects: [dict()] of anything else is not followed.) *)
Theorem started_app_invariants (f : file) (dk : action_executor.Desktop)
        (w0 w : AppController.t) :
  AppController__init__ f dk = Ret w0 ->
  reachable w0 w ->
  flow_invariant w
  /\ store_ok (config w) = true
  /\ KeyboardListener._running (keyboard_listener w) = true
  /\ (StateMachine._state (state_machine w) = CONFIG_WAIT_CLICK ->
      exists k, _pending_key w = Some k).
Proof.
  intros Hinit Hr.
  destruct (init_ret f dk w0 Hinit) as (Hf & Hs & Hk & _).
  pose proof (reachable_flow _ _ Hf Hr) as Hinv.
  split; [exact Hinv|]. split; [exact (reachable_store _ _ Hs Hr)|].
  split; [rewrite (reachable_listener _ _ Hr), Hk; reflexivity|].
  intros Hst. destruct Hinv as (_ & _ & _ & I4). specialize (I4 Hst).
  destruct (_pending_key w) as [k|]; [eauto | contradiction].
Qed.

Lemma started_app_invariants_witness :
  let dk := action_executor.BuildDesktop (VInt 0, VInt 0) [] false None in
  let w0 := AppController.Build
              (ConfigManager.Build DEFAULT_CONFIG
                 (Text (Json.dumps (Some 2%nat) DEFAULT_CONFIG)))
              (StateMachine.Build NORMAL)
              (KeyboardListener.Build (Some tt) true)
              (MouseClickCapture.Build None false)
              (MainWindow.Build NORMAL StatusReady [] None)
              None dk in
  let w := snd (handle (KeyDown (Key "F5")) (snd (handle AddKeyRequested w0))) in
  flow_invariant w
  /\ store_ok (config w) = true
  /\ KeyboardListener._running (keyboard_listener w) = true
  /\ (StateMachine._state (state_machine w) = CONFIG_WAIT_CLICK ->
      exists k, _pending_key w = Some k).
Proof.
  intros dk w0 w.
  apply (started_app_invariants Missing dk w0 w).
  - vm_compute. reflexivity.
  - apply (reachable_step w0 (snd (handle AddKeyRequested w0))
                          (KeyDown (Key "F5"))).
    + apply (reachable_step w0 w0 AddKeyRequested).
      * apply reachable_start.
      * reflexivity.
    + reflexivity.
Defined.

(** *** A start that fails *)

Lemma fill_raises items :
  entries_have_coords items = false ->
  forall win, exists e win',
    MainWindow.fill items win = (Raise e, win')
    /\ (e = KeyError \/ e = TypeError).
Proof.
  induction items as [|[key coords] items IH]; intros H win; [discriminate|].
  cbn [MainWindow.fill]. unfold bind, modify, lift_outcome.
  unfold entries_have_coords in H. cbn [forallb snd] in H.
  destruct (has_coords coords) eqn:Hc.
  - destruct (has_coords_getitem coords Hc) as (x & y & Hx & Hy).
    rewrite Hx, Hy. apply IH. exact H.
  - destruct coords as [| | | | |c];
      try (eexists; eexists; split; [reflexivity | right; reflexivity]).
    unfold has_coords, Py.dict_has in Hc. cbn [Py.getitem].
    destruct (Py.dict_get c "x") as [x|].
    + destruct (Py.dict_get c "y") as [y|]; [discriminate|].
      eexists; eexists; split; [reflexivity | left; reflexivity].
    + eexists; eexists; split; [reflexivity | left; reflexivity].
Qed.

Lemma initialize_ui_raises cfg dk d m s :
  ConfigManager._data cfg = VDict d ->
  Py.dict_get d "mappings" = Some (VDict m) ->
  Py.dict_get d "settings" = Some (VDict s) ->
  (exists b, settings_get s "restore_mouse_position" (VBool true) = VBool b) ->
  (exists b, settings_get s "require_foreground_window" (VBool false) = VBool b) ->
  entries_have_coords m = false ->
  exists e w,
    _initialize_ui (fresh_controller cfg dk) = (Raise e, w)
    /\ (e = KeyError \/ e = TypeError).
Proof.
  intros Hd Hm Hs [b1 H1] [b2 H2] He.
  destruct cfg as [data f]. cbn [ConfigManager._data] in Hd. subst data.
  unfold _initialize_ui, on_config, zoom, ConfigManager.get_settings, Py.get.
  unfold bind at 1. cbn [fresh_controller config ConfigManager._data].
  rewrite Hs.
  cbn [Py.dict_copy set_config config state_machine keyboard_listener
       mouse_capture window _pending_key desktop].
  unfold bind at 1, on_window, zoom. rewrite H1, H2.
  cbn [set_settings_ui ret window set_window config state_machine
       keyboard_listener mouse_capture _pending_key desktop].
  unfold bind at 1, _refresh_table, on_config, zoom,
    MappingManager.get_all_mappings, ConfigManager.get_mappings, Py.get.
  unfold bind at 1.
  cbn [config set_window set_config ConfigManager._data state_machine
       keyboard_listener mouse_capture window _pending_key desktop].
  rewrite Hm.
  cbn [Py.dict_copy set_config set_window config state_machine
       keyboard_listener mouse_capture window _pending_key desktop].
  unfold MainWindow.refresh_mappings. unfold bind at 1, modify.
  assert (He' : entries_have_coords (MainWindow.sorted_items m) = false)
    by (unfold entries_have_coords in *; now rewrite forallb_sorted_items).
  unfold on_window at 1, zoom.
  cbn [set_config set_window fresh_controller config state_machine
       keyboard_listener mouse_capture window _pending_key desktop
       MainWindow._mode_badge MainWindow._status].
  match goal with
  | |- context [MainWindow.fill ?i ?w0] =>
      destruct (fill_raises i He' w0) as (e & win' & Hf & Hcase)
  end.
  rewrite Hf. eexists. eexists. split; [reflexivity | exact Hcase].
Qed.

(** A configuration file that is well formed but holds a mapping entry
    without both coordinates keeps the application from starting: the
    first table refresh raises KeyError (TypeError if the entry is not
    an object) and the error leaves the constructor. *)
Theorem start_fails_without_coords (content : string)
        (dk : action_executor.Desktop) (d m s : list (string * value)) :
  Json.loads content = Ret (VDict d) ->
  Py.dict_get d "mappings" = Some (VDict m) ->
  Py.dict_get d "settings" = Some (VDict s) ->
  (exists b, settings_get s "restore_mouse_position" (VBool true) = VBool b) ->
  (exists b, settings_get s "require_foreground_window" (VBool false) = VBool b) ->
  entries_have_coords m = false ->
  AppController__init__ (Text content) dk = Raise KeyError
  \/ AppController__init__ (Text content) dk = Raise TypeError.
Proof.
  intros Hl Hm Hs Hb1 Hb2 He.
  assert (Hhm : Py.dict_has d "mappings" = true)
    by (unfold Py.dict_has; now rewrite Hm).
  assert (Hhs : Py.dict_has d "settings" = true)
    by (unfold Py.dict_has; now rewrite Hs).
  unfold AppController__init__, ConfigManager.init.
  rewrite (load_complete (VDict []) content d Hl Hhm Hhs).
  destruct (initialize_ui_raises (ConfigManager.Build (VDict d) (Text content))
              dk d m s eq_refl Hm Hs Hb1 Hb2 He) as (e & w & Hr & Hcase).
  unfold bind. rewrite Hr. destruct Hcase as [-> | ->]; [left|right]; reflexivity.
Qed.

Lemma start_fails_without_coords_witness :
  let doc := VDict [("mappings", VDict [("f1", VDict [("x", VInt 5)])]);
                    ("settings", VDict [])] in
  AppController__init__ (Text (Json.dumps (Some 2%nat) doc))
    (action_executor.BuildDesktop (VInt 0, VInt 0) [] false None)
  = Raise KeyError.
Proof.
  intros doc.
  destruct (start_fails_without_coords (Json.dumps (Some 2%nat) doc)
              (action_executor.BuildDesktop (VInt 0, VInt 0) [] false None)
              _ _ _
              (JsonFacts.loads_dumps (Some 2%nat) doc eq_refl)
              eq_refl eq_refl
              (ex_intro _ true eq_refl) (ex_intro _ false eq_refl) eq_refl)
    as [H | H].
  - exact H.
  - vm_compute in H. discriminate H.
Defined.
(** ** main.py: dispatch without the focus gate, and the whole flow *)

(** The run of the handler that clicks: NORMAL, a bound key, and the
    foreground check not asked for. *)
Lemma dispatch_run w key_name m s x y :
  StateMachine._state (state_machine w) = NORMAL ->
  section_of "mappings" (config w) = Some m ->
  Py.dict_get m key_name = Some (coords_value (x, y)) ->
  section_of "settings" (config w) = Some s ->
  Py.truthy (settings_get s "require_foreground_window" (VBool false)) = false ->
  _on_key_pressed key_name w
  = (Ret tt,
     AppController.Build (config w) (state_machine w) (keyboard_listener w)
       (mouse_capture w)
       (MainWindow.set_status (StatusExecuted (VInt x) (VInt y) key_name)
                              (window w))
       (_pending_key w)
       (action_executor.BuildDesktop
          (if Py.truthy (settings_get s "restore_mouse_position" (VBool true))
           then action_executor.position (desktop w)
           else (VInt x, VInt y))
          (action_executor.clicks (desktop w) ++ [(VInt x, VInt y)])
          (action_executor._HAS_WIN32 (desktop w))
          (action_executor.foreground_title (desktop w)))).
Proof.
  intros Hst Hm Hk Hs Hreq.
  destruct w as [cfg [st] kl mc win pk dk].
  cbn [state_machine StateMachine._state config desktop window
       keyboard_listener mouse_capture _pending_key] in *.
  subst st. run_ctl.
  rewrite (get_mapping_bound _ _ _ _ _ Hm Hk). run_ctl.
  rewrite (get_setting_found _ _ "require_foreground_window" _ Hs).
  fold (settings_get s "require_foreground_window" (VBool false)).
  run_ctl. rewrite Hreq. run_ctl.
  rewrite (get_setting_found _ _ "restore_mouse_position" _ Hs).
  fold (settings_get s "restore_mouse_position" (VBool true)).
  run_ctl. rewrite execute_click_spec. reflexivity.
Qed.

(** Pressing a bound key [n] times in NORMAL, the foreground check not
    asked for, issues [n] clicks at the bound coordinates, one after the
    other, and changes nothing else but the status line and the
    pointer: with restore_mouse_position truthy the pointer is where it
    was, otherwise it stays on the target once a click was made. *)
Theorem repeated_dispatch (n : nat) (w : AppController.t) (key_name : string)
        (m s : list (string * value)) (x y : Z) :
  StateMachine._state (state_machine w) = NORMAL ->
  section_of "mappings" (config w) = Some m ->
  Py.dict_get m key_name = Some (coords_value (x, y)) ->
  section_of "settings" (config w) = Some s ->
  Py.truthy (settings_get s "require_foreground_window" (VBool false)) = false ->
  let (o, w') := press_times n key_name w in
  o = Ret tt
  /\ action_executor.clicks (desktop w')
     = (action_executor.clicks (desktop w) ++ repeat (VInt x, VInt y) n)%list
  /\ action_executor.position (desktop w')
     = (if Py.truthy (settings_get s "restore_mouse_position" (VBool true))
        then action_executor.position (desktop w)
        else match n with
             | O => action_executor.position (desktop w)
             | S _ => (VInt x, VInt y)
             end)
  /\ config w' = config w
  /\ state_machine w' = state_machine w
  /\ _pending_key w' = _pending_key w
  /\ mouse_capture w' = mouse_capture w
  /\ MainWindow._table (window w') = MainWindow._table (window w).
Proof.
  revert w. induction n as [|n IH]; intros w Hst Hm Hk Hs Hreq.
  - unfold press_times. cbn [repeat for_each ret]. rewrite app_nil_r.
    destruct (Py.truthy (settings_get s "restore_mouse_position" (VBool true)));
      repeat split; reflexivity.
  - unfold press_times. cbn [repeat for_each]. unfold bind.
    rewrite (dispatch_run w key_name m s x y Hst Hm Hk Hs Hreq).
    set (w1 := AppController.Build _ _ _ _ _ _ _).
    specialize (IH w1 Hst Hm Hk Hs Hreq). unfold press_times in IH.
    destruct (for_each (repeat tt n) (fun _ => _on_key_pressed key_name) w1)
      as [o w'].
    destruct IH as (Ho & Hc & Hp & Hcfg & Hsm & Hpk & Hmc & Ht).
    subst w1.
    cbn [desktop config state_machine _pending_key mouse_capture window
         action_executor.clicks action_executor.position
         MainWindow.set_status MainWindow._table] in *.
    split; [exact Ho|]. split.
    { rewrite Hc, <- app_assoc. reflexivity. }
    split.
    { rewrite Hp.
      destruct (Py.truthy (settings_get s "restore_mouse_position" (VBool true)));
        [reflexivity|].
      destruct n; reflexivity. }
    repeat split; assumption.
Qed.

Lemma repeated_dispatch_witness :
  let w := AppController.Build
             (ConfigManager.Build
                (config_value [("f1", (100, 200)%Z)]
                              (BuildSettings false false "Valeton")) Missing)
             (StateMachine.Build NORMAL)
             (KeyboardListener.Build (Some tt) true)
             (MouseClickCapture.Build None false)
             (MainWindow.Build NORMAL StatusReady [] None)
             None
             (action_executor.BuildDesktop (VInt 7, VInt 8) [] true None) in
  let w' := snd (press_times 3 "f1" w) in
  action_executor.clicks (desktop w')
  = [(VInt 100, VInt 200); (VInt 100, VInt 200); (VInt 100, VInt 200)]
  /\ action_executor.position (desktop w') = (VInt 100, VInt 200).
Proof.
  intros w w'.
  pose proof (repeated_dispatch 3 w "f1" (mappings_value [("f1", (100, 200)%Z)])
                (settings_value (BuildSettings false false "Valeton"))
                100 200 eq_refl eq_refl eq_refl eq_refl eq_refl) as H.
  unfold w'. destruct (press_times 3 "f1" w) as [o w1]. cbn [snd].
  destruct H as (_ & Hc & Hp & _). split; [exact Hc | exact Hp].
Defined.

(** The configuration flow end to end.  From NORMAL (flow invariant,
    typed store, keyboard listener running, foreground check not asked
    for): start-configure, any key, then a left-button press at (x, y)
    return normally, issue no click, leave the machine in NORMAL with
    no pending key and the normalised name of the key bound to (x, y);
    and a later press of any key with the same normalised name issues
    exactly one click, at (x, y). *)
Theorem bind_then_dispatch (w0 : AppController.t) (key key' : pynput_key)
        (x y : Z) (s : list (string * value)) :
  StateMachine._state (state_machine w0) = NORMAL ->
  flow_invariant w0 ->
  store_ok (config w0) = true ->
  KeyboardListener._running (keyboard_listener w0) = true ->
  section_of "settings" (config w0) = Some s ->
  Py.truthy (settings_get s "require_foreground_window" (VBool false)) = false ->
  normalise_key key' = normalise_key key ->
  let (o, w3) :=
    run_events [AddKeyRequested; KeyDown key; ButtonEvent x y left true] w0 in
  o = Ret tt
  /\ StateMachine._state (state_machine w3) = NORMAL
  /\ _pending_key w3 = None
  /\ ConfigManager.get_mapping (normalise_key key) (config w3)
     = (Ret (Some (VInt x, VInt y)), config w3)
  /\ action_executor.clicks (desktop w3) = action_executor.clicks (desktop w0)
  /\ let (o', w4) := handle (KeyDown key') w3 in
     o' = Ret tt
     /\ action_executor.clicks (desktop w4)
        = (action_executor.clicks (desktop w0) ++ [(VInt x, VInt y)])%list
     /\ StateMachine._state (state_machine w4) = NORMAL.
Proof.
  intros Hst (I1 & I2 & I3 & I4) Hok Hrun Hs Hreq Hkey.
  destruct (store_ok_inv _ Hok) as (d & m & Hd & Hm & He).
  destruct w0 as [[data f] [st] [kl run] [ml a] win pk dk].
  cbn [state_machine StateMachine._state config ConfigManager._data
       keyboard_listener KeyboardListener._running mouse_capture
       MouseClickCapture._active window desktop _pending_key] in *.
  subst st run data. cbn [AppState_eqb] in I2. subst a.
  set (k := normalise_key key).
  set (cfg := ConfigManager.Build (VDict d) f) in *.
  (* start-configure, then the key *)
  set (w2 := AppController.Build cfg (StateMachine.Build CONFIG_WAIT_CLICK)
               (KeyboardListener.Build kl true)
               (MouseClickCapture.Build (Some true) true)
               (MainWindow.set_status (StatusKeyCaptured k)
                  (MainWindow.update_state CONFIG_WAIT_CLICK
                     (MainWindow.set_status StatusPressKey
                        (MainWindow.update_state CONFIG_WAIT_KEY win))))
               (Some k) dk).
  assert (H12 : bind (handle AddKeyRequested) (fun _ => handle (KeyDown key))
                  (AppController.Build cfg (StateMachine.Build NORMAL)
                     (KeyboardListener.Build kl true)
                     (MouseClickCapture.Build ml false) win pk dk)
                = (Ret tt, w2)) by reflexivity.
  (* the click *)
  set (m' := Py.dict_set m k (coords_value (x, y))).
  set (cfg' := ConfigManager.Build (with_binding d m k x y)
                 (Text (Json.dumps (Some 2%nat) (with_binding d m k x y)))).
  set (w3 := AppController.Build cfg' (StateMachine.Build NORMAL)
               (KeyboardListener.Build kl true)
               (MouseClickCapture.Build (Some false) false)
               (MainWindow.Build NORMAL (StatusMappingSaved k x y)
                  (map row_of (MainWindow.sorted_items m')) None)
               None dk).
  assert (H3 : handle (ButtonEvent x y left true) w2 = (Ret tt, w3)).
  { pose proof (mouse_clicked_commit
                  (set_mouse_capture (MouseClickCapture.Build (Some false) false)
                                     w2)
                  k d m x y eq_refl eq_refl eq_refl Hm He) as Hc.
    cbn [handle]. unfold click_event, MouseClickCapture.deliver,
      MouseClickCapture._on_click.
    cbn [w2 mouse_capture MouseClickCapture._listener MouseClickCapture._active
         negb Button_eqb andb for_each fst snd set_mouse_capture config
         state_machine keyboard_listener window _pending_key desktop].
    unfold bind. rewrite Hc. reflexivity. }
  assert (Hall : run_events
                   [AddKeyRequested; KeyDown key; ButtonEvent x y left true]
                   (AppController.Build cfg (StateMachine.Build NORMAL)
                      (KeyboardListener.Build kl true)
                      (MouseClickCapture.Build ml false) win pk dk)
                 = (Ret tt, w3)).
  { unfold run_events. cbn [for_each].
    change (bind (handle AddKeyRequested)
              (fun _ => bind (handle (KeyDown key))
                 (fun _ => bind (handle (ButtonEvent x y left true))
                    (fun _ => ret tt))) ?w)
      with (bind (bind (handle AddKeyRequested) (fun _ => handle (KeyDown key)))
              (fun _ => bind (handle (ButtonEvent x y left true))
                          (fun _ => ret tt)) w).
    unfold bind at 1. rewrite H12. unfold bind. rewrite H3. reflexivity. }
  rewrite Hall.
  assert (Hsec : section_of "mappings" cfg' = Some m')
    by apply section_of_with_binding.
  assert (Hbound : Py.dict_get m' k = Some (coords_value (x, y)))
    by apply dict_get_set_same.
  assert (Hs' : section_of "settings" cfg' = Some s).
  { unfold cfg'. rewrite (section_of_settings_kept d m k x y f). exact Hs. }
  split; [reflexivity|]. split; [reflexivity|]. split; [reflexivity|].
  split; [exact (get_mapping_bound _ _ _ _ _ Hsec Hbound)|].
  split; [reflexivity|].
  cbn [handle]. unfold key_event, gets, KeyboardListener._on_press.
  unfold bind at 1.
  cbn [w3 keyboard_listener KeyboardListener._running negb for_each].
  rewrite Hkey. fold k. unfold bind at 1.
  rewrite (dispatch_run w3 k m' s x y eq_refl Hsec Hbound Hs' Hreq).
  repeat split.
Qed.

Lemma bind_then_dispatch_witness :
  let w0 := AppController.Build
              (ConfigManager.Build DEFAULT_CONFIG Missing)
              (StateMachine.Build NORMAL)
              (KeyboardListener.Build (Some tt) true)
              (MouseClickCapture.Build None false)
              (MainWindow.Build NORMAL StatusReady [] None)
              None
              (action_executor.BuildDesktop (VInt 0, VInt 0) [] true
                                            (Some "Desktop")) in
  let w3 := snd (run_events [AddKeyRequested;
                             KeyDown (KeyCode (Some "Q") (Some 81%Z) "'Q'");
                             ButtonEvent 100 200 left true] w0) in
  let w4 := snd (handle (KeyDown (KeyCode (Some "q") (Some 81%Z) "'q'")) w3) in
  action_executor.clicks (desktop w3) = []
  /\ action_executor.clicks (desktop w4) = [(VInt 100, VInt 200)].
Proof.
  intros w0 w3 w4.
  pose proof (bind_then_dispatch w0
                (KeyCode (Some "Q") (Some 81%Z) "'Q'")
                (KeyCode (Some "q") (Some 81%Z) "'q'") 100 200
                (settings_value (BuildSettings true false "Valeton"))
                eq_refl) as H.
  assert (Hinv : flow_invariant w0) by (repeat split; discriminate).
  specialize (H Hinv eq_refl eq_refl eq_refl eq_refl eq_refl).
  unfold w4, w3.
  destruct (run_events _ w0) as [o w3']. cbn [snd].
  destruct H as (_ & _ & _ & _ & H5 & H6).
  destruct (handle _ w3') as [o' w4']. cbn [snd].
  destruct H6 as (_ & H7 & _). split; [exact H5 | exact H7].
Defined.

(** Dispatch on entries that are not coordinates.  In NORMAL, a key
    whose stored entry is falsy (an empty object, null, 0, ...) is
    treated as unmapped: the press is ignored.  A non-empty object that
    lacks "x" or "y" makes the handler raise KeyError, and any other
    truthy entry TypeError; in both cases before any click, with the
    controller unchanged. *)
Theorem dispatch_malformed_entry (w : AppController.t) (key_name : string)
        (m : list (string * value)) (e : value) :
  StateMachine._state (state_machine w) = NORMAL ->
  section_of "mappings" (config w) = Some m ->
  Py.dict_get m key_name = Some e ->
  (Py.truthy e = false -> _on_key_pressed key_name w = (Ret tt, w))
  /\ (forall c,
        e = VDict c -> c <> [] ->
        Py.dict_get c "x" = None \/ Py.dict_get c "y" = None ->
        _on_key_pressed key_name w = (Raise KeyError, w))
  /\ (Py.truthy e = true ->
      match e with VDict _ => False | _ => True end ->
      _on_key_pressed key_name w = (Raise TypeError, w)).
Proof.
  intros Hst Hm Hk.
  pose proof (get_mapping_section (config w) m key_name Hm) as Hg.
  rewrite Hk in Hg.
  destruct w as [cfg [st] kl mc win pk dk].
  cbn [state_machine StateMachine._state config] in *. subst st.
  split; [|split].
  - intros Ht. rewrite Ht in Hg. run_ctl. rewrite Hg. reflexivity.
  - intros c -> Hne Hc.
    assert (Ht : Py.truthy (VDict c) = true) by (destruct c; [contradiction|reflexivity]).
    rewrite Ht in Hg. cbn [Py.getitem] in Hg.
    run_ctl. rewrite Hg.
    destruct Hc as [Hx|Hy].
    + rewrite Hx. reflexivity.
    + rewrite Hy. destruct (Py.dict_get c "x"); reflexivity.
  - intros Ht Hnd. rewrite Ht in Hg. run_ctl. rewrite Hg.
    destruct e; try contradiction; reflexivity.
Qed.

Lemma dispatch_malformed_entry_witness :
  let w := AppController.Build
             (ConfigManager.Build
                (VDict [("mappings", VDict [("f1", VDict [("x", VInt 5)])]);
                        ("settings", VDict [])]) Missing)
             (StateMachine.Build NORMAL)
             (KeyboardListener.Build (Some tt) true)
             (MouseClickCapture.Build None false)
             (MainWindow.Build NORMAL StatusReady [] None)
             None
             (action_executor.BuildDesktop (VInt 7, VInt 8) [] true None) in
  _on_key_pressed "f1" w = (Raise KeyError, w).
Proof.
  intros w.
  destruct (dispatch_malformed_entry w "f1" _ _ eq_refl eq_refl eq_refl)
    as (_ & H & _).
  apply (H [("x", VInt 5)] eq_refl).
  - discriminate.
  - right. reflexivity.
Defined.
(** ** input_listener.py: key names *)







(** ** ui.py: the table after a refresh *)

Lemma insert_sorted_perm kv l :
  Permutation (MainWindow.insert_sorted kv l) (kv :: l).
Proof.
  induction l as [|kv' l IH]; simpl; [reflexivity|].
  destruct (String.leb (fst kv) (fst kv')); [reflexivity|].
  rewrite IH. apply perm_swap.
Qed.

Lemma sorted_items_perm l : Permutation (MainWindow.sorted_items l) l.
Proof.
  unfold MainWindow.sorted_items. induction l as [|kv l IH]; simpl; [reflexivity|].
  rewrite insert_sorted_perm. now constructor.
Qed.

Lemma insert_sorted_hd kv a l :
  String.leb (fst a) (fst kv) = true ->
  HdRel (fun x y => String.leb (fst x) (fst y) = true) a l ->
  HdRel (fun x y => String.leb (fst x) (fst y) = true) a
        (MainWindow.insert_sorted kv l).
Proof.
  intros Ha Hl. destruct l as [|b l]; simpl.
  - now constructor.
  - destruct (String.leb (fst kv) (fst b)); constructor; auto.
    now inversion Hl.
Qed.

Lemma insert_sorted_sorted kv l :
  Sorted (fun x y => String.leb (fst x) (fst y) = true) l ->
  Sorted (fun x y => String.leb (fst x) (fst y) = true)
         (MainWindow.insert_sorted kv l).
Proof.
  induction l as [|a l IH]; simpl; intros Hs.
  - repeat constructor.
  - inversion Hs as [|? ? Hs' Hhd]; subst.
    destruct (String.leb (fst kv) (fst a)) eqn:E.
    + constructor; [exact Hs|]. now constructor.
    + constructor; [now apply IH|].
      apply insert_sorted_hd; [|exact Hhd].
      destruct (String.leb_total (fst kv) (fst a)) as [H|H]; congruence.
Qed.

Lemma sorted_items_sorted l :
  Sorted (fun x y => String.leb (fst x) (fst y) = true)
         (MainWindow.sorted_items l).
Proof.
  unfold MainWindow.sorted_items. induction l as [|kv l IH]; simpl.
  - constructor.
  - now apply insert_sorted_sorted.
Qed.

Lemma rows_of_sorted l :
  Sorted (fun x y => String.leb (fst x) (fst y) = true) l ->
  rows_in_key_order (map row_of l).
Proof.
  unfold rows_in_key_order. induction 1 as [|a l Hs IH Hhd]; simpl.
  - constructor.
  - constructor; [exact IH|].
    destruct Hhd; simpl; constructor. assumption.
Qed.

(** A refresh of the table from mappings whose entries all have
    coordinates returns normally and leaves exactly one row per
    binding - each with the key and the two coordinates of its entry -
    in ascending order of the keys, with no row selected; the badge and
    the status line are not touched. *)
Theorem refresh_mappings_sorted (mappings : list (string * value))
        (win : MainWindow.t) :
  entries_have_coords mappings = true ->
  let (o, win') := MainWindow.refresh_mappings mappings win in
  o = Ret tt
  /\ rows_in_key_order (MainWindow._table win')
  /\ Permutation (MainWindow._table win') (map row_of mappings)
  /\ MainWindow.selected_key win' = None
  /\ MainWindow._mode_badge win' = MainWindow._mode_badge win
  /\ MainWindow._status win' = MainWindow._status win.
Proof.
  intros He. rewrite (refresh_mappings_ok mappings win He).
  cbn [MainWindow._table MainWindow.selected_key MainWindow.selected
       MainWindow._mode_badge MainWindow._status].
  split; [reflexivity|]. split; [apply rows_of_sorted, sorted_items_sorted|].
  split; [apply Permutation_map, sorted_items_perm|]. repeat split.
Qed.

Lemma refresh_mappings_sorted_witness :
  let win' := snd (MainWindow.refresh_mappings
                     (mappings_value [("space", (5, 6)%Z); ("f1", (1, 2)%Z);
                                      ("a", (3, 4)%Z)])
                     (MainWindow.Build NORMAL StatusReady [] (Some "a"))) in
  rows_in_key_order (MainWindow._table win')
  /\ MainWindow.selected_key win' = None.
Proof.
  intros win'.
  pose proof (refresh_mappings_sorted
                (mappings_value [("space", (5, 6)%Z); ("f1", (1, 2)%Z);
                                 ("a", (3, 4)%Z)])
                (MainWindow.Build NORMAL StatusReady [] (Some "a")) eq_refl) as H.
  unfold win'. destruct (MainWindow.refresh_mappings _ _) as [o w1]. cbn [snd].
  destruct H as (_ & H1 & _ & H2 & _). split; assumption.
Defined.
(** ** action_executor.py: the edges of the foreground check *)

(** The foreground check at its edges.  A title that is not a str makes
    [window_title.lower()] raise inside the [try], so the check answers
    True whatever window is in front.  The empty title is a substring
    of every title, so it matches any window.  Titles that are equal up
    to case get the same answer.  In no case is the desktop changed. *)
Theorem focus_check_edges (d : action_executor.Desktop) :
  (forall title,
      match title with VStr _ => False | _ => True end ->
      action_executor.is_target_window_foreground title d = (Ret true, d))
  /\ action_executor.is_target_window_foreground (VStr "") d = (Ret true, d)
  /\ (forall t1 t2,
        Py.lower t1 = Py.lower t2 ->
        action_executor.is_target_window_foreground (VStr t1) d
        = action_executor.is_target_window_foreground (VStr t2) d)
  /\ (forall title fg,
        action_executor._HAS_WIN32 d = true ->
        action_executor.foreground_title d = Some fg ->
        Py.lower title = Py.lower fg ->
        action_executor.is_target_window_foreground (VStr title) d
        = (Ret true, d)).
Proof.
  split; [|split; [|split]].
  - intros title Ht.
    unfold action_executor.is_target_window_foreground, bind, gets, ret,
      try_except, action_executor.get_foreground_text, lift_outcome.
    destruct d as [p c [|] [fg|]]; cbn; try reflexivity;
      destruct title; try contradiction; reflexivity.
  - rewrite is_target_window_foreground_str. unfold focus_verdict.
    destruct (action_executor._HAS_WIN32 d); [|reflexivity].
    destruct (action_executor.foreground_title d) as [fg|]; [|reflexivity].
    cbn [Py.lower]. destruct (Py.lower fg); reflexivity.
  - intros t1 t2 H. rewrite !is_target_window_foreground_str.
    unfold focus_verdict. now rewrite H.
  - intros title fg Hw Hf H. rewrite is_target_window_foreground_str.
    unfold focus_verdict. rewrite Hw, Hf, H.
    assert (Hpre : forall s, String.prefix s s = true).
    { induction s as [|c s IH]; simpl; [reflexivity|].
      destruct (Ascii.ascii_dec c c); [exact IH | contradiction]. }
    assert (Hself : forall s, Py.str_contains s s = true).
    { intros s. destruct s as [|c s]; [reflexivity|].
      cbn [Py.str_contains]. now rewrite Hpre. }
    now rewrite Hself.
Qed.
(** ** main.py: shutdown *)

(** After [_on_quit] both listeners are stopped and everything else is
    as it was; from then on no key and no mouse button event reaches a
    handler: any run of such events leaves the controller unchanged, so
    no click is issued and nothing is bound. *)
Theorem quit_silences_input (w : AppController.t) (evs : list event) :
  forallb is_input evs = true ->
  let (o, w') := _on_quit w in
  o = Ret tt
  /\ keyboard_listener w' = KeyboardListener.Build None false
  /\ mouse_capture w' = MouseClickCapture.Build None false
  /\ config w' = config w
  /\ state_machine w' = state_machine w
  /\ _pending_key w' = _pending_key w
  /\ window w' = window w
  /\ desktop w' = desktop w
  /\ run_events evs w' = (Ret tt, w').
Proof.
  intros Hin. destruct w as [cfg sm kl mc win pk dk]. cbn.
  repeat split.
  unfold run_events. induction evs as [|e evs IH]; [reflexivity|].
  cbn [forallb] in Hin. apply andb_true_iff in Hin. destruct Hin as [He Hevs].
  cbn [for_each]. unfold bind.
  destruct e as [key|x y b p| | | |key v|sel]; try discriminate He.
  - cbn. exact (IH Hevs).
  - cbn. exact (IH Hevs).
Qed.

Lemma quit_silences_input_witness :
  let w := AppController.Build
             (ConfigManager.Build
                (config_value [("f1", (100, 200)%Z)]
                              (BuildSettings true false "Valeton")) Missing)
             (StateMachine.Build CONFIG_WAIT_CLICK)
             (KeyboardListener.Build (Some tt) true)
             (MouseClickCapture.Build (Some true) true)
             (MainWindow.Build CONFIG_WAIT_CLICK (StatusKeyCaptured "f2") [] None)
             (Some "f2")
             (action_executor.BuildDesktop (VInt 7, VInt 8) [] true None) in
  let w' := snd (_on_quit w) in
  run_events [KeyDown (Key "f1"); ButtonEvent 1 2 left true] w' = (Ret tt, w').
Proof.
  intros w w'.
  pose proof (quit_silences_input w
                [KeyDown (Key "f1"); ButtonEvent 1 2 left true] eq_refl) as H.
  unfold w'. destruct (_on_quit w) as [o w1]. cbn [snd].
  destruct H as (_ & _ & _ & _ & _ & _ & _ & _ & H). exact H.
Defined.
(** ** main.py: leaving the configuration flow *)

(** The click that ends the flow, from any state in CONFIG_WAIT_CLICK
    that has the flow invariant and a typed store. *)
Lemma click_in_wait_click w x y :
  flow_invariant w ->
  store_ok (config w) = true ->
  StateMachine._state (state_machine w) = CONFIG_WAIT_CLICK ->
  exists w',
    handle (ButtonEvent x y left true) w = (Ret tt, w')
    /\ StateMachine._state (state_machine w') = NORMAL.
Proof.
  intros (I1 & I2 & I3 & I4) Hs Hst.
  destruct (store_ok_inv _ Hs) as (d & m & Hd & Hm & He).
  destruct (_pending_key w) as [k|] eqn:Hpk; [|now destruct (I4 Hst)].
  rewrite Hst in I2. cbn in I2. specialize (I3 I2).
  set (mc' := MouseClickCapture.Build (Some false) false).
  assert (Hrun := mouse_clicked_commit (set_mouse_capture mc' w) k d m x y).
  destruct w as [cfg sm kl mc win pk dk].
  cbn [set_mouse_capture config state_machine keyboard_listener mouse_capture
       window _pending_key desktop] in *.
  specialize (Hrun Hst Hpk Hd Hm He).
  eexists. split.
  - cbn [handle]. unfold click_event, MouseClickCapture.deliver,
      MouseClickCapture._on_click.
    cbn [set_mouse_capture config state_machine keyboard_listener mouse_capture
         window _pending_key desktop].
    rewrite I3, I2.
    cbn [negb Button_eqb andb for_each fst snd MouseClickCapture._active
         MouseClickCapture._listener set_mouse_capture config state_machine
         keyboard_listener mouse_capture window _pending_key desktop].
    fold mc'. unfold bind. rewrite Hrun. reflexivity.
  - reflexivity.
Qed.

(** No state is a dead end: from every state that has the flow
    invariant, a typed store and a running keyboard listener, at most
    two events bring the machine back to NORMAL - none in NORMAL, the
    toggle in DISABLED, a left-button press in CONFIG_WAIT_CLICK, a key
    and then a left-button press in CONFIG_WAIT_KEY - and their
    handlers return normally. *)
Theorem normal_is_recoverable (w : AppController.t) :
  flow_invariant w ->
  store_ok (config w) = true ->
  KeyboardListener._running (keyboard_listener w) = true ->
  exists evs,
    (List.length evs <= 2)%nat
    /\ fst (run_events evs w) = Ret tt
    /\ StateMachine._state (state_machine (snd (run_events evs w))) = NORMAL.
Proof.
  intros Hinv Hs Hrun.
  destruct (StateMachine._state (state_machine w)) eqn:Hst.
  - exists []. cbn. auto.
  - (* CONFIG_WAIT_KEY: any key, then the click *)
    set (w1 := snd (handle (KeyDown (Key "space")) w)).
    assert (H1 : handle (KeyDown (Key "space")) w = (Ret tt, w1)
                 /\ flow_invariant w1
                 /\ config w1 = config w
                 /\ StateMachine._state (state_machine w1) = CONFIG_WAIT_CLICK).
    { unfold w1. destruct Hinv as (I1 & I2 & I3 & I4).
      destruct w as [cfg [st] [kl run] [l a] win pk dk].
      cbn [state_machine StateMachine._state keyboard_listener
           KeyboardListener._running mouse_capture MouseClickCapture._active]
        in *.
      subst st run. cbn in I2. subst a. cbn.
      repeat split; discriminate. }
    destruct H1 as (E1 & Hinv1 & Hcfg1 & Hst1).
    assert (Hs1 : store_ok (config w1) = true) by now rewrite Hcfg1.
    destruct (click_in_wait_click w1 0 0 Hinv1 Hs1 Hst1) as (w2 & E2 & Hst2).
    exists [KeyDown (Key "space"); ButtonEvent 0 0 left true].
    unfold run_events. cbn [for_each List.length]. unfold bind.
    rewrite E1, E2. cbn. auto.
  - destruct (click_in_wait_click w 0 0 Hinv Hs Hst) as (w' & E & Hst').
    exists [ButtonEvent 0 0 left true].
    unfold run_events. cbn [for_each List.length]. unfold bind.
    rewrite E. cbn. auto.
  - exists [ToggleSystemRequested].
    destruct w as [cfg [st] kl mc win pk dk]. cbn in Hst. subst st.
    cbn. auto.
Qed.

Lemma normal_is_recoverable_witness :
  let w := AppController.Build
             (ConfigManager.Build DEFAULT_CONFIG Missing)
             (StateMachine.Build CONFIG_WAIT_KEY)
             (KeyboardListener.Build (Some tt) true)
             (MouseClickCapture.Build None false)
             (MainWindow.Build CONFIG_WAIT_KEY StatusPressKey [] None)
             None
             (action_executor.BuildDesktop (VInt 0, VInt 0) [] false None) in
  exists evs,
    (List.length evs <= 2)%nat
    /\ fst (run_events evs w) = Ret tt
    /\ StateMachine._state (state_machine (snd (run_events evs w))) = NORMAL.
Proof.
  intros w. apply (normal_is_recoverable w).
  - repeat split; discriminate.
  - reflexivity.
  - reflexivity.
Defined.

(** The configuration flow cannot be cancelled from the window: while
    the machine is in CONFIG_WAIT_KEY or CONFIG_WAIT_CLICK, no intent of
    the window (start-configure, remove, toggle, a settings change, a
    row selection) changes the state of the machine, the pending key or
    the capture; only a key or a mouse button event moves the flow on. *)
Theorem config_flow_not_cancellable (w : AppController.t) (e : event) :
  StateMachine.is_config (state_machine w) = true ->
  is_input e = false ->
  let w' := snd (handle e w) in
  state_machine w' = state_machine w
  /\ _pending_key w' = _pending_key w
  /\ mouse_capture w' = mouse_capture w.
Proof.
  intros Hc He w'. unfold w'.
  destruct e as [key|x y b p| | | |key v|sel]; try discriminate He;
    cbn [handle].
  - destruct w as [cfg [st] kl mc win pk dk].
    destruct st; try discriminate Hc; cbn; repeat split.
  - destruct (keeps_flow_remove_key w) as (H1 & H2 & H3 & _). auto.
  - destruct w as [cfg [st] kl mc win pk dk].
    destruct st; try discriminate Hc; cbn; repeat split.
  - destruct (keeps_flow_setting_changed key v w) as (H1 & H2 & H3 & _). auto.
  - destruct w; repeat split.
Qed.

Lemma config_flow_not_cancellable_witness :
  let w := AppController.Build
             (ConfigManager.Build DEFAULT_CONFIG Missing)
             (StateMachine.Build CONFIG_WAIT_KEY)
             (KeyboardListener.Build (Some tt) true)
             (MouseClickCapture.Build None false)
             (MainWindow.Build CONFIG_WAIT_KEY StatusPressKey [] None)
             None
             (action_executor.BuildDesktop (VInt 0, VInt 0) [] false None) in
  state_machine (snd (handle ToggleSystemRequested w)) = state_machine w.
Proof.
  intros w.
  exact (proj1 (config_flow_not_cancellable w ToggleSystemRequested
                  eq_refl eq_refl)).
Defined.
(** ** ui.py and main.py: the buttons and the machine *)

(** In a state with the flow invariant the buttons tell the truth: Add,
    Remove and the toggle are enabled exactly when the machine is not
    in a CONFIG state, and the toggle offers "Enable" exactly when the
    machine is DISABLED.  When they are enabled, the toggle does what
    its label offers - DISABLED becomes NORMAL, NORMAL becomes DISABLED -
    and Add starts the configuration flow unless the system is
    disabled; after either, the flow invariant holds again. *)
Theorem buttons_follow_machine (w : AppController.t) :
  flow_invariant w ->
  buttons_enabled (window w) = negb (StateMachine.is_config (state_machine w))
  /\ toggle_offers_enable (window w) = StateMachine.is_disabled (state_machine w)
  /\ (buttons_enabled (window w) = true ->
      let wt := snd (_on_toggle_system w) in
      let wa := snd (_on_add_key w) in
      fst (_on_toggle_system w) = Ret tt
      /\ fst (_on_add_key w) = Ret tt
      /\ StateMachine._state (state_machine wt)
         = (if toggle_offers_enable (window w) then NORMAL else DISABLED)
      /\ StateMachine._state (state_machine wa)
         = (if toggle_offers_enable (window w) then DISABLED
            else CONFIG_WAIT_KEY)
      /\ flow_invariant wt
      /\ flow_invariant wa).
Proof.
  intros Hinv. pose proof Hinv as (I1 & I2 & I3 & I4).
  split; [|split].
  - unfold buttons_enabled, StateMachine.is_config. now rewrite I1.
  - unfold toggle_offers_enable, StateMachine.is_disabled. now rewrite I1.
  - intros Hen wt wa.
    unfold buttons_enabled, toggle_offers_enable in *. rewrite I1 in *.
    assert (Ht : flow_invariant wt).
    { apply (toggle_keeps_invariant w); [exact Hinv|].
      unfold wt. destruct w as [cfg [st] kl mc win pk dk].
      destruct st; reflexivity. }
    assert (Ha : flow_invariant wa).
    { apply (add_key_keeps_invariant w); [exact Hinv|].
      unfold wa. destruct w as [cfg [st] kl mc win pk dk].
      destruct st; reflexivity. }
    unfold wt, wa in *. clear wt wa I1 I2 I3 I4 Hinv.
    destruct w as [cfg [st] kl mc win pk dk].
    cbn [state_machine StateMachine._state window] in *.
    destruct st; try discriminate Hen;
      (split; [reflexivity|]; split; [reflexivity|]; split; [reflexivity|];
       split; [reflexivity|]; split; assumption).
Qed.

Lemma buttons_follow_machine_witness :
  let w := AppController.Build
             (ConfigManager.Build DEFAULT_CONFIG Missing)
             (StateMachine.Build DISABLED)
             (KeyboardListener.Build (Some tt) true)
             (MouseClickCapture.Build None false)
             (MainWindow.Build DISABLED StatusDisabled [] None)
             None
             (action_executor.BuildDesktop (VInt 0, VInt 0) [] false None) in
  toggle_offers_enable (window w) = true
  /\ StateMachine._state (state_machine (snd (_on_toggle_system w))) = NORMAL.
Proof.
  intros w.
  assert (Hinv : flow_invariant w) by (repeat split; discriminate).
  destruct (buttons_follow_machine w Hinv) as (_ & H2 & H3).
  split; [exact H2|].
  destruct (H3 eq_refl) as (_ & _ & H & _). exact H.
Defined.
